(** * quibble.commands: the steps of a job, embedded and verified

    Shallow embedding of [quibble/commands.py].  Every step class becomes a
    record of its constructor-captured attributes; [execute] becomes a
    computation in a small state-and-exception monad that also records, in
    order, every externally observable operation (spawned commands, service
    handles started and stopped, log lines, maintenance scripts). *)

From Stdlib Require Import String Ascii List ZArith Lia Bool.
From stdpp Require Import base option list strings gmap pretty.
Import ListNotations.
Open Scope string_scope.
Open Scope list_scope.

(** ** Python strings and paths *)

(** [sep.join(l)] *)
Fixpoint join (sep : string) (l : list string) : string :=
  match l with
  | [] => ""
  | [x] => x
  | x :: rest => x +:+ sep +:+ join sep rest
  end.

Definition last_char (s : string) : option ascii :=
  match String.length s with
  | O => None
  | S n => String.get n s
  end.

Definition startswith (p s : string) : bool := String.prefix p s.

(** [posixpath.join(a, b)]: an absolute [b] discards [a]; a separator is
    inserted unless [a] is empty or already ends with one. *)
Definition path_join (a b : string) : string :=
  if startswith "/" b then b
  else match last_char a with
       | None => b
       | Some c => if Ascii.eqb c "/"%char then a +:+ b else a +:+ "/" +:+ b
       end.

(** [posixpath.basename(p)]: what follows the last separator. *)
Fixpoint basename_from (acc s : string) : string :=
  match s with
  | EmptyString => acc
  | String c s' =>
      if Ascii.eqb c "/"%char then basename_from "" s'
      else basename_from (acc +:+ String c "") s'
  end.

Definition basename (p : string) : string := basename_from "" p.

(** Python truthiness of the values the steps test. *)
Definition truthy_str (s : string) : bool := negb (String.eqb s "").

Definition truthy_opt (o : option string) : bool :=
  match o with
  | None => false
  | Some s => truthy_str s
  end.

Definition truthy_list {A} (l : list A) : bool :=
  match l with
  | [] => false
  | _ => true
  end.

(** [o or d] for an optional string. *)
Definition or_default (o : option string) (d : string) : string :=
  match o with
  | Some s => if truthy_str s then s else d
  | None => d
  end.

(** ['%s' % o] *)
Definition fmt_opt (o : option string) : string :=
  match o with
  | Some s => s
  | None => "None"
  end.

Definition fmt_bool (b : bool) : string := if b then "True" else "False".

(** [x in l] for strings. *)
Definition str_in (x : string) (l : list string) : bool :=
  existsb (String.eqb x) l.

(** ** Environments are dicts from names to values *)

Abbreviation Env := (gmap string string).

(** [d.update(other)]: the keys of [other] win. *)
Definition dict_update (d other : Env) : Env := other ∪ d.

(** ** Externally observable operations *)

Definition HTTP_PORT : Z := 9412.

Inductive Level := INFO | WARNING | ERROR | DEBUG.

Inductive Cmd :=
| Argv (argv : list string)
| Shell (line : string).

(** What a database object exposes to [InstallMediaWiki]. *)
Record Db := {
  db_class : string;
  db_base_dir : option string;
  db_dump_dir : option string;
  dbname : string;
  rootdir : string;
  user : string;
  password : string;
  dbserver : string
}.

(** Modelled from the spec: the service handles of [quibble.backend], whose
    classes are not part of the sources at hand.  A handle is started and
    stopped; used as a context manager, entering it starts it and leaving
    the scope stops it. *)
Inductive Handle :=
| DevWebServer (mwdir : string) (port : Z)
| Xvfb (display : option string)
| ChromeWebDriver (display : option string)
| Database (db : Db).

Inductive Exn :=
| CalledProcessError (returncode : Z) (cmd : Cmd)
| OSError (msg : string)
| KeyError (key : string)
| TypeError (msg : string)
| Exception (msg : string).

(** A constructor argument that may be [None], a string, a number or a
    list of strings. *)
Inductive Param :=
| PNone
| PStr (s : string)
| PInt (n : Z)
| PList (l : list string).

Inductive Action :=
| Log (lvl : Level) (msg : string)
| ZuulClone (args : list Param)
| JsonDumpFile (path : string) (merge_plugin_include : list string)
| JsonLoadFile (path : string)
| CheckCall (cmd : Cmd) (cwd : option string) (env : option Env)
| Start (h : Handle)
| Stop (h : Handle)
| GetDBClass (engine : string)
| MaintInstall (args : list string) (mwdir : string)
| MaintUpdate (args : list string) (mwdir : string)
| MaintRebuildLocalisationCache (lang : list string) (mwdir : string)
| OpenFile (path : string) (mode : string)
| ReadFile (path : string)
| WriteFile (path : string) (content : string)
| CopyLog (src dst : string).

(** An event is an attempted operation with its outcome: [None] when it
    returned, [Some e] when it raised [e]. *)
Definition Event : Type := Action * option Exn.

#[global] Instance Level_eq_dec : EqDecision Level.
Proof. solve_decision. Defined.
#[global] Instance Cmd_eq_dec : EqDecision Cmd.
Proof. solve_decision. Defined.
#[global] Instance Db_eq_dec : EqDecision Db.
Proof. solve_decision. Defined.
#[global] Instance Handle_eq_dec : EqDecision Handle.
Proof. solve_decision. Defined.
#[global] Instance Param_eq_dec : EqDecision Param.
Proof. solve_decision. Defined.
#[global] Instance Exn_eq_dec : EqDecision Exn.
Proof. solve_decision. Defined.

(** A directory as [os.walk] sees it. *)
#[warnings="-register-all"]
Inductive Dir :=
| MkDir (name : string) (filenames : list string) (subdirs : list Dir).

Definition dir_name (d : Dir) : string :=
  match d with
  | MkDir name _ _ => name
  end.

(** Everything outside the step that its execution depends on:
    - [environ]: [os.environ];
    - [outcome]: from the operations performed so far, whether the next one
      raises, and what;
    - [path_exists]: [os.path.exists];
    - [dir_tree]: the directory [os.walk] finds at a path, if there is one;
    - [changedFiles]: [GitChangedInHead(extensions, cwd).changedFiles()];
    - [db_factory]: the object built by the class that
      [quibble.backend.getDBClass] returns for an engine;
    - [file_content]: what reading a file yields at that point;
    - [resource_filename]: [pkg_resources.resource_filename];
    - [chromium_flags]: [quibble.chromium_flags()];
    - [require_dev]: the items under [require-dev] of a JSON file, if any;
    - [json_dumps], [py_repr]: [json.dumps] and [repr]. *)
Record World := {
  environ : Env;
  outcome : list Event -> Action -> option Exn;
  path_exists : string -> bool;
  dir_tree : string -> option Dir;
  changedFiles : list string -> string -> list string;
  db_factory : string -> option string -> option string -> Db;
  file_content : list Event -> string -> string;
  resource_filename : string -> string;
  chromium_flags : string;
  require_dev : string -> option (list (string * string));
  json_dumps : list (string * Param) -> string;
  py_repr : string -> string
}.

Inductive Res (A : Type) :=
| Ok (a : A)
| Raise (e : Exn).
Arguments Ok {A} a.
Arguments Raise {A} e.

(** ** The monad of step bodies

    A computation reads the object state [S] and the history of events,
    and yields the new state, the events it emitted, and its result. *)
Definition M (S A : Type) : Type :=
  S -> list Event -> S * list Event * Res A.

Definition ret {S A} (a : A) : M S A := fun s _ => (s, [], Ok a).

Definition raise {S A} (e : Exn) : M S A := fun s _ => (s, [], Raise e).

Definition bind {S A B} (m : M S A) (k : A -> M S B) : M S B :=
  fun s h =>
    match m s h with
    | (s1, t1, Ok a) =>
        match k a s1 (h ++ t1) with
        | (s2, t2, r) => (s2, t1 ++ t2, r)
        end
    | (s1, t1, Raise e) => (s1, t1, Raise e)
    end.

Declare Scope step_scope.
Delimit Scope step_scope with step.
Notation "'let*' x ':=' c 'in' k" := (bind c (fun x => k))
  (at level 10, x name, c at level 200, k at level 200) : step_scope.
Notation "'do' c 'in' k" := (bind c (fun _ => k))
  (at level 10, c at level 200, k at level 200) : step_scope.
Open Scope step_scope.

Definition get {S} : M S S := fun s _ => (s, [], Ok s).
Definition put {S} (s : S) : M S unit := fun _ _ => (s, [], Ok tt).

Section Effects.
Context (w : World).

(** Perform an operation that may raise. *)
Definition perform {S} (a : Action) : M S unit :=
  fun s h =>
    match outcome w h a with
    | None => (s, [(a, None)], Ok tt)
    | Some e => (s, [(a, Some e)], Raise e)
    end.

(** Logging never raises. *)
Definition log {S} (lvl : Level) (msg : string) : M S unit :=
  fun s _ => (s, [(Log lvl msg, None)], Ok tt).

(** [subprocess.check_call(cmd, cwd=..., env=...)] *)
Definition check_call {S} (argv : list string) (cwd : option string)
    (env : option Env) : M S unit :=
  perform (CheckCall (Argv argv) cwd env).

Definition check_call_shell {S} (line : string) (cwd : option string) : M S unit :=
  perform (CheckCall (Shell line) cwd None).

(** [for x in l: body(x)] *)
Definition for_each {S A} (l : list A) (body : A -> M S unit) : M S unit :=
  (fix loop (l : list A) : M S unit :=
     match l with
     | [] => ret tt
     | x :: rest => do body x in loop rest
     end) l.

(** [try: body / except CalledProcessError as e: handler(e)] *)
Definition try_except_CalledProcessError {S A} (body : M S A)
    (handler : Exn -> M S A) : M S A :=
  fun s h =>
    match body s h with
    | (s1, t1, Raise (CalledProcessError rc c)) =>
        match handler (CalledProcessError rc c) s1 (h ++ t1) with
        | (s2, t2, r) => (s2, t1 ++ t2, r)
        end
    | other => other
    end.

(** [with cm: body].  [__enter__] starts the service; when it raises the
    body is not entered and nothing is released.  Otherwise [__exit__]
    stops it on every exit path of the body; an exception raised by the
    release itself replaces what the body produced. *)
Definition with_ {S A} (h : Handle) (body : M S A) : M S A :=
  fun s hist =>
    match perform (S:=S) (Start h) s hist with
    | (s0, t0, Raise e) => (s0, t0, Raise e)
    | (s0, t0, Ok _) =>
        match body s0 (hist ++ t0) with
        | (s1, t1, r) =>
            match perform (S:=S) (Stop h) s1 (hist ++ t0 ++ t1) with
            | (s2, t2, Raise e') => (s2, t0 ++ t1 ++ t2, Raise e')
            | (s2, t2, Ok _) => (s2, t0 ++ t1 ++ t2, r)
            end
        end
    end.

(** [contextlib.ExitStack]: the registered handles, most recent first. *)
Definition ExitStack := list Handle.

(** [stack.enter_context(cm)]: enter, then register the exit. *)
Definition enter_context {S} (h : Handle) : M (S * ExitStack) unit :=
  fun s hist =>
    match perform (S:=S * ExitStack) (Start h) s hist with
    | (s0, t0, Ok _) => ((fst s0, h :: snd s0), t0, Ok tt)
    | other => other
    end.

(** [ExitStack.__exit__]: pop and release every handle, last in first
    out; a release that raises makes its exception the pending one and
    the unwinding goes on. *)
Fixpoint close_stack {S A} (st : ExitStack) (pending : Res A) : M S A :=
  match st with
  | [] => fun s _ => (s, [], pending)
  | h :: rest =>
      fun s hist =>
        match perform (S:=S) (Stop h) s hist with
        | (s1, t1, r1) =>
            let pending' := match r1 with
                            | Raise e' => Raise e'
                            | Ok _ => pending
                            end in
            match close_stack rest pending' s1 (hist ++ t1) with
            | (s2, t2, r) => (s2, t1 ++ t2, r)
            end
        end
  end.

(** [with ExitStack() as stack: body] *)
Definition with_ExitStack {S A} (body : M (S * ExitStack) A) : M S A :=
  fun s hist =>
    match body (s, []) hist with
    | ((s1, st), t1, r) =>
        match close_stack st r s1 (hist ++ t1) with
        | (s2, t2, r') => (s2, t1 ++ t2, r')
        end
    end.

(** Run a computation on the object from inside an [ExitStack] scope. *)
Definition on_self {S A} (m : M S A) : M (S * ExitStack) A :=
  fun s hist =>
    match m (fst s) hist with
    | (s1, t1, r) => ((s1, snd s), t1, r)
    end.

(** Modelled from the spec: [quibble.util.parallel_run], which is not part
    of the sources at hand.  Every callable of the batch runs to
    completion whether or not a sibling failed; the call fails when one of
    them failed, with the first failure observed; an empty batch returns
    at once.  The callables are taken in submission order. *)
Fixpoint parallel_run {S} (tasks : list (M S unit)) : M S unit :=
  match tasks with
  | [] => ret tt
  | t :: rest =>
      fun s h =>
        match t s h with
        | (s1, t1, r1) =>
            match parallel_run rest s1 (h ++ t1) with
            | (s2, t2, r2) =>
                (s2, t1 ++ t2,
                 match r1 with
                 | Raise e => Raise e
                 | Ok _ => r2
                 end)
            end
        end
  end.

(** [os.walk(top)], top down.  The loop body receives
    [(dirpath, dirnames, filenames)] and returns [dirnames] as it left
    it; the walk descends only into the names still listed. *)
Fixpoint os_walk {S} (body : string -> list string -> list string -> M S (list string))
    (dirpath : string) (d : Dir) : M S unit :=
  match d with
  | MkDir _ filenames subdirs =>
      let* kept := body dirpath (map dir_name subdirs) filenames in
      for_each subdirs (fun sub =>
        if str_in (dir_name sub) kept
        then os_walk body (path_join dirpath (dir_name sub)) sub
        else ret tt)
  end.

Definition walk {S} (top : string)
    (body : string -> list string -> list string -> M S (list string)) : M S unit :=
  match dir_tree w top with
  | None => ret tt
  | Some d => os_walk body top d
  end.

End Effects.

Definition nl : string := String (ascii_of_nat 10) "".

(** The double quote character, as a string. *)
Definition dq : string := String (ascii_of_nat 34) "".

(** A Python [str] is held as the bytes of its UTF-8 encoding, which is
    what a string literal of this file denotes.  The characters
    [str.isspace] accepts are then these byte sequences: *)
Definition whitespace : list (list ascii) :=
  map (map ascii_of_nat)
    [ [9]; [10]; [11]; [12]; [13];          (* U+0009 .. U+000D *)
      [28]; [29]; [30]; [31];               (* U+001C .. U+001F *)
      [32];                                 (* U+0020 *)
      [194; 133];                           (* U+0085 *)
      [194; 160];                           (* U+00A0 *)
      [225; 154; 128];                      (* U+1680 *)
      [226; 128; 128]; [226; 128; 129]; [226; 128; 130]; [226; 128; 131];
      [226; 128; 132]; [226; 128; 133]; [226; 128; 134]; [226; 128; 135];
      [226; 128; 136]; [226; 128; 137]; [226; 128; 138];
                                            (* U+2000 .. U+200A *)
      [226; 128; 168]; [226; 128; 169];     (* U+2028, U+2029 *)
      [226; 128; 175];                      (* U+202F *)
      [226; 129; 159];                      (* U+205F *)
      [227; 128; 128] ].                    (* U+3000 *)

(** What is left of [l] after the bytes [p], when [l] starts with them. *)
Fixpoint drop_bytes (p l : list ascii) : option (list ascii) :=
  match p, l with
  | [], _ => Some l
  | a :: p', b :: l' => if Ascii.eqb a b then drop_bytes p' l' else None
  | _ :: _, [] => None
  end.

(** What is left of [l] after one of [codes], when [l] starts with one. *)
Fixpoint drop_one (codes : list (list ascii)) (l : list ascii) : option (list ascii) :=
  match codes with
  | [] => None
  | p :: others =>
      match drop_bytes p l with
      | Some rest => Some rest
      | None => drop_one others l
      end
  end.

(** Drop leading [codes] as long as there is one; every round removes at
    least one byte, so [fuel] rounds are enough for [fuel] bytes. *)
Fixpoint drop_leading (codes : list (list ascii)) (fuel : nat) (l : list ascii)
    : list ascii :=
  match fuel with
  | O => l
  | S fuel' =>
      match drop_one codes l with
      | Some rest => drop_leading codes fuel' rest
      | None => l
      end
  end.

(** [s.lstrip()] *)
Definition lstrip (s : string) : string :=
  let l := list_ascii_of_string s in
  string_of_list_ascii (drop_leading whitespace (length l) l).

(** [s.rstrip()]: the same from the end, every encoding read backwards. *)
Definition rstrip (s : string) : string :=
  let l := rev (list_ascii_of_string s) in
  string_of_list_ascii (rev (drop_leading (map (@rev ascii) whitespace) (length l) l)).

(** [s.strip()] *)
Definition strip (s : string) : string := rstrip (lstrip s).

(** [s[n:]] *)
Definition drop_prefix (n : nat) (s : string) : string :=
  String.substring n (String.length s - n) s.

(** ** The steps *)

Module ZuulCloneCommand.
Record t := {
  branch : Param;
  cache_dir : Param;
  project_branch : Param;
  projects : Param;
  workers : Param;
  workspace : Param;
  zuul_branch : Param;
  zuul_newrev : Param;
  zuul_project : Param;
  zuul_ref : Param;
  zuul_url : Param
}.

Definition execute (w : World) : M t unit :=
  let* self := get in
  perform w (ZuulClone [
    branch self; cache_dir self; project_branch self; projects self;
    workers self; workspace self; zuul_branch self; zuul_newrev self;
    zuul_project self; zuul_ref self; zuul_url self]).

(** [self.__dict__.items()], in the order [__init__] assigned them. *)
Definition items (self : t) : list (string * Param) :=
  [("branch", branch self); ("cache_dir", cache_dir self);
   ("project_branch", project_branch self); ("projects", projects self);
   ("workers", workers self); ("workspace", workspace self);
   ("zuul_branch", zuul_branch self); ("zuul_newrev", zuul_newrev self);
   ("zuul_project", zuul_project self); ("zuul_ref", zuul_ref self);
   ("zuul_url", zuul_url self)].

Definition kept (kv : string * Param) : bool :=
  match snd kv with
  | PNone => false
  | PList [] => false
  | _ => true
  end.

Definition str (w : World) (self : t) : string :=
  "Zuul clone with parameters " +:+ json_dumps w (filter (fun kv => kept kv = true) (items self)).
End ZuulCloneCommand.

Module ExtSkinSubmoduleUpdateCommand.
Record t := { mw_install_path : string }.

Definition cmds : list (list string) :=
  [ ["git"; "submodule"; "foreach"; "git"; "clean"; "-xdff"; "-q"];
    ["git"; "submodule"; "update"; "--init"; "--recursive"];
    ["git"; "submodule"; "status"] ].

Definition tops (self : t) : list string :=
  map (fun top => path_join (mw_install_path self) top) ["extensions"; "skins"].

(** The three commands of one directory, lines 71-78. *)
Definition process_dir (w : World) (dirpath : string) : M t unit :=
  for_each cmds (fun cmd =>
    try_except_CalledProcessError
      (check_call w cmd (Some dirpath) None)
      (fun e =>
         do log ERROR ("Failed to process git submodules for " +:+ dirpath) in
         raise e)).

(** The body of the [os.walk] loop, lines 65-78. *)
Definition visit (w : World) (self : t)
    (dirpath : string) (dirnames filenames : list string) : M t (list string) :=
  let dirnames := if negb (str_in dirpath (tops self)) then [] else dirnames in
  if negb (str_in ".gitmodules" filenames) then ret dirnames
  else do process_dir w dirpath in ret dirnames.

Definition execute (w : World) : M t unit :=
  do log INFO "Updating git submodules of extensions and skins" in
  let* self := get in
  for_each (tops self) (fun top => walk w top (visit w self)).

Definition str (self : t) : string :=
  "Extension and skin submodule update under MediaWiki root " +:+ mw_install_path self.
End ExtSkinSubmoduleUpdateCommand.

Module CreateComposerLocal.
Record t := { mw_install_path : string; dependencies : list string }.

(** Lines 95-97.  The slice [[len('mediawiki/'):]] is taken only of a
    string that starts with ['mediawiki/extensions/'], so its first ten
    characters are ten bytes. *)
Definition extensions (self : t) : list string :=
  map (fun ext => drop_prefix (String.length "mediawiki/") (strip ext) +:+ "/composer.json")
      (filter (fun ext => startswith "mediawiki/extensions/" (strip ext) = true)
              (dependencies self)).

Definition execute (w : World) : M t unit :=
  do log INFO "composer.local.json for merge plugin" in
  let* self := get in
  let composer_local := path_join (mw_install_path self) "composer.local.json" in
  do perform w (JsonDumpFile composer_local (extensions self)) in
  log INFO "Created composer.local.json".

Definition str (w : World) (self : t) : string :=
  "Create composer.local.json with dependencies "
  +:+ "[" +:+ join ", " (map (py_repr w) (dependencies self)) +:+ "]".
End CreateComposerLocal.

Module ExtSkinComposerNpmTest.
Record t := { directory : string; composer : bool; npm : bool }.

Definition composer_cmds : list (list string) :=
  [ ["composer"; "--ansi"; "validate"; "--no-check-publish"];
    ["composer"; "--ansi"; "install"; "--no-progress"; "--prefer-dist"; "--profile"; "-v"];
    ["composer"; "--ansi"; "test"] ].

Definition npm_cmds : list (list string) :=
  [ ["npm"; "prune"];
    ["npm"; "install"; "--no-progress"];
    ["npm"; "test"] ].

Definition run_extskin_composer (w : World) : M t unit :=
  let* self := get in
  let project_name := basename (directory self) in
  if negb (path_exists w (path_join (directory self) "composer.json")) then
    log WARNING (project_name +:+ " lacks a composer.json")
  else
    do log INFO ("Running " +:+ dq +:+ "composer test" +:+ dq +:+ " for " +:+ project_name) in
    for_each composer_cmds (fun cmd => check_call w cmd (Some (directory self)) None).

Definition run_extskin_npm (w : World) : M t unit :=
  let* self := get in
  let project_name := basename (directory self) in
  if negb (path_exists w (path_join (directory self) "package.json")) then
    log WARNING (project_name +:+ " lacks a package.json")
  else
    do log INFO ("Running " +:+ dq +:+ "npm test" +:+ dq +:+ " for " +:+ project_name) in
    for_each npm_cmds (fun cmd => check_call w cmd (Some (directory self)) None).

Definition git_clean : list string := ["git"; "clean"; "-xqdf"].

Definition tasks (w : World) (self : t) : list (M t unit) :=
  (if composer self then [run_extskin_composer w] else [])
  ++ (if npm self then [run_extskin_npm w] else []).

Definition execute (w : World) : M t unit :=
  let* self := get in
  do parallel_run (tasks w self) in
  do log INFO (directory self +:+ ": git clean -xqdf") in
  check_call w git_clean (Some (directory self)) None.

Definition str (self : t) : string :=
  "Extension and skin tests: "
  +:+ join ", " ((if composer self then ["composer"] else [])
                ++ (if npm self then ["npm"] else [])).
End ExtSkinComposerNpmTest.

Module CoreNpmComposerTest.
Record t := { mw_install_path : string; composer : bool; npm : bool }.

(** The default that the ambient environment is merged over, line 214. *)
Definition composer_env_overlay : Env := {[ "COMPOSER_PROCESS_TIMEOUT" := "900" ]}.

Definition run_composer_test (w : World) : M t unit :=
  let* self := get in
  let changed := changedFiles w [] (mw_install_path self) in
  let* files :=
    (if (str_in "composer.json" changed || str_in ".phpcs.xml" changed)%bool then
       do log INFO ("composer.json or .phpcs.xml changed: linting " +:+ dq +:+ "." +:+ dq) in
       ret ["."]
     else
       ret (changedFiles w ["php"; "php5"; "inc"; "sample"] (mw_install_path self))) in
  if negb (truthy_list files) then
    log INFO "Skipping composer test (unneeded)"
  else
    do log INFO "Running composer test" in
    let env := composer_env_overlay in
    let env := dict_update env (environ w) in
    let composer_test_cmd := ["composer"; "test"] ++ files in
    check_call w composer_test_cmd (Some (mw_install_path self)) (Some env).

Definition run_npm_test (w : World) : M t unit :=
  let* self := get in
  do log INFO "Running npm test" in
  check_call w ["npm"; "test"] (Some (mw_install_path self)) None.

Definition tasks (w : World) (self : t) : list (M t unit) :=
  (if composer self then [run_composer_test w] else [])
  ++ (if npm self then [run_npm_test w] else []).

Definition execute (w : World) : M t unit :=
  let* self := get in
  parallel_run (tasks w self).

Definition str (self : t) : string :=
  "Run tests in mediawiki/core: "
  +:+ join ", " ((if composer self then ["composer"] else [])
                 ++ (if npm self then ["npm"] else [])).
End CoreNpmComposerTest.

Module NativeComposerDependencies.
Record t := { mw_install_path : string }.

Definition execute (w : World) : M t unit :=
  let* self := get in
  do log INFO ("Running " +:+ dq +:+ "composer update" +:+ dq +:+ " for mediawiki/core") in
  let cmd := ["composer"; "update"; "--ansi"; "--no-progress"; "--prefer-dist";
              "--profile"; "-v"] in
  check_call w cmd (Some (mw_install_path self)) None.

Definition str (self : t) : string := "Run composer update for mediawiki/core".
End NativeComposerDependencies.

Module VendorComposerDependencies.
Record t := { mw_install_path : string; log_dir : string }.

Definition execute (w : World) : M t unit :=
  let* self := get in
  do log INFO "vendor.git used. Requiring composer dev dependencies" in
  let mw_composer_json := path_join (mw_install_path self) "composer.json" in
  let vendor_dir := path_join (mw_install_path self) "vendor" in
  do perform w (OpenFile mw_composer_json "r") in
  do perform w (JsonLoadFile mw_composer_json) in
  let* reqs :=
    (match require_dev w mw_composer_json with
     | None => raise (KeyError "require-dev")
     | Some deps => ret (map (fun dv => join "=" [fst dv; snd dv]) deps)
     end) in
  do log DEBUG ("composer require " +:+ join " " reqs) in
  let composer_require := ["composer"; "require"; "--dev"; "--ansi";
                           "--no-progress"; "--prefer-dist"; "-v"] ++ reqs in
  do check_call w composer_require (Some vendor_dir) None in
  do check_call w ["composer"; "config"; "extra.merge-plugin.include"; mw_composer_json]
       (Some vendor_dir) None in
  do check_call w ["composer"; "dump-autoload"; "--optimize"] (Some vendor_dir) None in
  do perform w (CopyLog mw_composer_json
                  (path_join (log_dir self) "composer.core.json.txt")) in
  do perform w (CopyLog (path_join vendor_dir "composer.json")
                  (path_join (log_dir self) "composer.vendor.json.txt")) in
  perform w (CopyLog (path_join vendor_dir "composer/autoload_files.php")
               (path_join (log_dir self) "composer.autoload_files.php.txt")).

Definition str (self : t) : string := "Install composer dev-requires for vendor.git".
End VendorComposerDependencies.

Module NpmInstall.
Record t := { directory : string }.

Definition execute (w : World) : M t unit :=
  let* self := get in
  do check_call w ["npm"; "prune"] (Some (directory self)) None in
  check_call w ["npm"; "install"] (Some (directory self)) None.

Definition str (self : t) : string := "npm install in " +:+ directory self.
End NpmInstall.

Module InstallMediaWiki.
Record t := {
  mw_install_path : string;
  db_engine : string;
  db_dir : option string;
  dump_dir : option string;
  log_dir : string;
  use_vendor : bool
}.

(** The instance together with the class attribute [db_backend]. *)
Record state := { self : t; db_backend : option Db }.

Definition get_self : M state t := fun s _ => (s, [], Ok (self s)).

Definition set_db_backend (db : Db) : M state unit :=
  fun s _ => ({| self := self s; db_backend := Some db |}, [], Ok tt).

(** Lines 335-351: the installer arguments for the engine. *)
Definition install_args (engine : string) (db : Db) : M state (list string) :=
  let install_args := ["--scriptpath="; "--dbtype=" +:+ engine;
                       "--dbname=" +:+ dbname db] in
  if String.eqb engine "sqlite" then
    ret (install_args ++ ["--dbpath=" +:+ rootdir db])
  else if str_in engine ["mysql"; "postgres"] then
    ret (install_args ++ ["--dbuser=" +:+ user db;
                          "--dbpass=" +:+ password db;
                          "--dbserver=" +:+ dbserver db])
  else
    raise (Exception ("Unsupported database: " +:+ engine)).

Definition execute (w : World) : M state unit :=
  let* self := get_self in
  do perform w (GetDBClass (db_engine self)) in
  let db := db_factory w (db_engine self) (db_dir self) (dump_dir self) in
  do set_db_backend db in
  do perform w (Start (Database db)) in
  let* install_args := install_args (db_engine self) db in
  do perform w (MaintInstall install_args (mw_install_path self)) in
  let localsettings := path_join (mw_install_path self) "LocalSettings.php" in
  do perform w (OpenFile localsettings "r+") in
  let quibblesettings := resource_filename w "mediawiki/local_settings.php" in
  do perform w (OpenFile quibblesettings "r") in
  do perform w (ReadFile quibblesettings) in
  let* quibble_conf := (fun s h => (s, [], Ok (file_content w h quibblesettings))) in
  do perform w (ReadFile localsettings) in
  let* installed_conf := (fun s h => (s, [], Ok (file_content w h localsettings))) in
  do perform w (WriteFile localsettings (quibble_conf +:+ nl +:+ "?>" +:+ installed_conf)) in
  do perform w (CopyLog localsettings (path_join (log_dir self) "LocalSettings.php")) in
  do check_call w ["php"; "-l"; localsettings] None None in
  let* update_args :=
    (if use_vendor self then
       do log INFO "mediawiki/vendor used. Skipping external dependencies" in
       ret ["--skip-external-dependencies"]
     else ret []) in
  do perform w (MaintUpdate update_args (mw_install_path self)) in
  perform w (MaintRebuildLocalisationCache ["en"] (mw_install_path self)).

Definition str (self : t) : string :=
  "Install MediaWiki, db=" +:+ db_engine self +:+ " db_dir=" +:+ fmt_opt (db_dir self)
  +:+ " vendor=" +:+ fmt_bool (use_vendor self).
End InstallMediaWiki.

Module AbstractPhpUnit.
(** What [run_phpunit] reads from the concrete subclass. *)
Class Self (T : Type) := {
  mw_install_path : T -> string;
  testsuite : T -> option string;
  junit_file : T -> string;
  str : T -> string
}.

Definition always_excluded : list string := ["Broken"; "ParserFuzz"; "Stub"].

(** Lines 407-418: the argument vector. *)
Definition phpunit_cmd `{Self T} (self : T) (group exclude_group : list string)
    : list string :=
  let cmd := ["php"; "tests/phpunit/phpunit.php"; "--debug-tests"] in
  let cmd := if truthy_opt (testsuite self)
             then cmd ++ ["--testsuite"; default "" (testsuite self)] else cmd in
  let cmd := if truthy_list group
             then cmd ++ ["--group"; join "," group] else cmd in
  let cmd := cmd ++ ["--exclude-group"; join "," (always_excluded ++ exclude_group)] in
  let cmd := if truthy_str (junit_file self)
             then cmd ++ ["--log-junit"; junit_file self] else cmd in
  cmd.

(** Lines 421-423: the environment of the child process. *)
Definition phpunit_env_overlay : Env := {[ "LANG" := "C.UTF-8" ]}.

Definition phpunit_env (w : World) : Env :=
  let phpunit_env := ∅ in
  let phpunit_env := dict_update phpunit_env (environ w) in
  dict_update phpunit_env phpunit_env_overlay.

Definition run_phpunit `{Self T} (w : World) (group exclude_group : list string)
    : M T unit :=
  let* self := get in
  do log INFO (str self) in
  let cmd := phpunit_cmd self group exclude_group in
  do log INFO (join " " cmd) in
  check_call w cmd (Some (mw_install_path self)) (Some (phpunit_env w)).
End AbstractPhpUnit.

Module PhpUnitDatabaseless.
Record t := {
  mw_install_path : string;
  testsuite : option string;
  log_dir : string;
  junit_file : string
}.

Definition init (mw_install_path : string) (testsuite : option string)
    (log_dir : string) : t :=
  {| mw_install_path := mw_install_path;
     testsuite := testsuite;
     log_dir := log_dir;
     junit_file := path_join log_dir "junit-dbless.xml" |}.

Definition str (self : t) : string :=
  "PHPUnit " +:+ or_default (testsuite self) "default" +:+ " suite (without database)".

#[global] Instance phpunit_self : AbstractPhpUnit.Self t := {|
  AbstractPhpUnit.mw_install_path := mw_install_path;
  AbstractPhpUnit.testsuite := testsuite;
  AbstractPhpUnit.junit_file := junit_file;
  AbstractPhpUnit.str := str
|}.

Definition execute (w : World) : M t unit :=
  AbstractPhpUnit.run_phpunit w [] ["Database"].
End PhpUnitDatabaseless.

Module PhpUnitDatabase.
Record t := {
  mw_install_path : string;
  testsuite : option string;
  log_dir : string;
  junit_file : string
}.

Definition init (mw_install_path : string) (testsuite : option string)
    (log_dir : string) : t :=
  {| mw_install_path := mw_install_path;
     testsuite := testsuite;
     log_dir := log_dir;
     junit_file := path_join log_dir "junit-db.xml" |}.

Definition str (self : t) : string :=
  "PHPUnit " +:+ or_default (testsuite self) "default" +:+ " suite (with database)".

#[global] Instance phpunit_self : AbstractPhpUnit.Self t := {|
  AbstractPhpUnit.mw_install_path := mw_install_path;
  AbstractPhpUnit.testsuite := testsuite;
  AbstractPhpUnit.junit_file := junit_file;
  AbstractPhpUnit.str := str
|}.

Definition execute (w : World) : M t unit :=
  AbstractPhpUnit.run_phpunit w ["Database"] [].
End PhpUnitDatabase.

Module BrowserTests.
Record t := {
  mw_install_path : string;
  qunit : bool;
  selenium : bool;
  display : option string
}.

Definition set_display (d : option string) : M t unit :=
  fun s _ => ({| mw_install_path := mw_install_path s; qunit := qunit s;
                 selenium := selenium s; display := d |}, [], Ok tt).

Definition MW_SERVER : string := "http://127.0.0.1:" +:+ pretty HTTP_PORT.

Definition run_qunit (w : World) : M t unit :=
  let* self := get in
  let karma_env : Env :=
    list_to_map [("CHROME_BIN", "/usr/bin/chromium");
                 ("MW_SERVER", MW_SERVER);
                 ("MW_SCRIPT_PATH", "/");
                 ("FORCE_COLOR", "1")] in
  let karma_env := dict_update karma_env (environ w) in
  let karma_env := dict_update karma_env {[ "CHROMIUM_FLAGS" := chromium_flags w ]} in
  check_call w ["./node_modules/.bin/grunt"; "qunit"]
    (Some (mw_install_path self)) (Some karma_env).

(** The child environment needs a string for [DISPLAY]: with [None]
    [subprocess] raises a [TypeError] before anything is spawned. *)
Definition run_webdriver (w : World) : M t unit :=
  let* self := get in
  let webdriver_env : Env := ∅ in
  let webdriver_env := dict_update webdriver_env (environ w) in
  match display self with
  | None => raise (TypeError "expected str, bytes or os.PathLike object, not NoneType")
  | Some d =>
      let webdriver_env := dict_update webdriver_env
        (list_to_map [("MW_SERVER", MW_SERVER);
                      ("MW_SCRIPT_PATH", "/");
                      ("FORCE_COLOR", "1");
                      ("MEDIAWIKI_USER", "WikiAdmin");
                      ("MEDIAWIKI_PASSWORD", "testwikijenkinspass");
                      ("DISPLAY", d)]) in
      check_call w ["npm"; "run"; "selenium-test"]
        (Some (mw_install_path self)) (Some webdriver_env)
  end.

(** Lines 483-487: the virtual display, only when no display is set. *)
Definition maybe_xvfb (w : World) : M (t * ExitStack) unit :=
  let* self := on_self get in
  if negb (truthy_opt (display self)) then
    do on_self (set_display (Some ":94")) in
    do on_self (log INFO "No DISPLAY, using Xvfb.") in
    let* self := on_self get in
    enter_context w (Xvfb (display self))
  else ret tt.

(** Lines 482-490: the selenium part. *)
Definition selenium_tests (w : World) : M t unit :=
  with_ExitStack w (
    do maybe_xvfb w in
    let* self := on_self get in
    on_self (with_ w (ChromeWebDriver (display self)) (run_webdriver w))).

Definition execute (w : World) : M t unit :=
  let* self := get in
  with_ w (DevWebServer (mw_install_path self) HTTP_PORT) (
    do (if qunit self then run_qunit w else ret tt) in
    let* self := get in
    if (selenium self
        && path_exists w (path_join (mw_install_path self) "tests/selenium"))%bool
    then selenium_tests w
    else ret tt).

Definition str (self : t) : string :=
  "Browser tests in " +:+ mw_install_path self +:+ ": "
  +:+ join ", " ((if qunit self then ["qunit"] else [])
                 ++ (if selenium self then ["selenium (maybe)"] else []))
  +:+ " using DISPLAY=" +:+ or_default (display self) "Xvfb".
End BrowserTests.

Module UserCommands.
Record t := { mw_install_path : string; commands : list string }.

Definition execute (w : World) : M t unit :=
  let* self := get in
  do log INFO "User commands" in
  with_ w (DevWebServer (mw_install_path self) HTTP_PORT) (
    do log INFO ("working directory: " +:+ mw_install_path self) in
    for_each (commands self) (fun cmd =>
      do log INFO cmd in
      check_call_shell w cmd (Some (mw_install_path self)))).

Definition str (self : t) : string := "User commands: " +:+ join ", " (commands self).
End UserCommands.

(** ** Steps, uniformly *)

Inductive Step :=
| AZuulCloneCommand (self : ZuulCloneCommand.t)
| AnExtSkinSubmoduleUpdateCommand (self : ExtSkinSubmoduleUpdateCommand.t)
| ACreateComposerLocal (self : CreateComposerLocal.t)
| AnExtSkinComposerNpmTest (self : ExtSkinComposerNpmTest.t)
| ACoreNpmComposerTest (self : CoreNpmComposerTest.t)
| ANativeComposerDependencies (self : NativeComposerDependencies.t)
| AVendorComposerDependencies (self : VendorComposerDependencies.t)
| ANpmInstall (self : NpmInstall.t)
| AnInstallMediaWiki (self : InstallMediaWiki.t)
| APhpUnitDatabaseless (self : PhpUnitDatabaseless.t)
| APhpUnitDatabase (self : PhpUnitDatabase.t)
| ABrowserTests (self : BrowserTests.t)
| AUserCommands (self : UserCommands.t).

(** What one call of [execute()] leaves behind: the step object, the class
    attribute [InstallMediaWiki.db_backend], the events, and the result. *)
Record Outcome := {
  step_after : Step;
  db_backend_after : option Db;
  trace : list Event;
  result : Res unit
}.

Definition run_on {S} (wrap : S -> Step) (self : S) (cls : option Db)
    (m : M S unit) (h : list Event) : Outcome :=
  match m self h with
  | (self', t, r) =>
      {| step_after := wrap self'; db_backend_after := cls; trace := t; result := r |}
  end.

(** [step.execute()], started after the events [h], with the class
    attribute holding [cls]. *)
Definition execute (w : World) (st : Step) (cls : option Db) (h : list Event) : Outcome :=
  match st with
  | AZuulCloneCommand self =>
      run_on AZuulCloneCommand self cls (ZuulCloneCommand.execute w) h
  | AnExtSkinSubmoduleUpdateCommand self =>
      run_on AnExtSkinSubmoduleUpdateCommand self cls (ExtSkinSubmoduleUpdateCommand.execute w) h
  | ACreateComposerLocal self =>
      run_on ACreateComposerLocal self cls (CreateComposerLocal.execute w) h
  | AnExtSkinComposerNpmTest self =>
      run_on AnExtSkinComposerNpmTest self cls (ExtSkinComposerNpmTest.execute w) h
  | ACoreNpmComposerTest self =>
      run_on ACoreNpmComposerTest self cls (CoreNpmComposerTest.execute w) h
  | ANativeComposerDependencies self =>
      run_on ANativeComposerDependencies self cls (NativeComposerDependencies.execute w) h
  | AVendorComposerDependencies self =>
      run_on AVendorComposerDependencies self cls (VendorComposerDependencies.execute w) h
  | ANpmInstall self =>
      run_on ANpmInstall self cls (NpmInstall.execute w) h
  | AnInstallMediaWiki self =>
      match InstallMediaWiki.execute w
              {| InstallMediaWiki.self := self; InstallMediaWiki.db_backend := cls |} h with
      | (s', t, r) =>
          {| step_after := AnInstallMediaWiki (InstallMediaWiki.self s');
             db_backend_after := InstallMediaWiki.db_backend s';
             trace := t; result := r |}
      end
  | APhpUnitDatabaseless self =>
      run_on APhpUnitDatabaseless self cls (PhpUnitDatabaseless.execute w) h
  | APhpUnitDatabase self =>
      run_on APhpUnitDatabase self cls (PhpUnitDatabase.execute w) h
  | ABrowserTests self =>
      run_on ABrowserTests self cls (BrowserTests.execute w) h
  | AUserCommands self =>
      run_on AUserCommands self cls (UserCommands.execute w) h
  end.

(** [str(step)] *)
Definition describe (w : World) (st : Step) : string :=
  match st with
  | AZuulCloneCommand self => ZuulCloneCommand.str w self
  | AnExtSkinSubmoduleUpdateCommand self => ExtSkinSubmoduleUpdateCommand.str self
  | ACreateComposerLocal self => CreateComposerLocal.str w self
  | AnExtSkinComposerNpmTest self => ExtSkinComposerNpmTest.str self
  | ACoreNpmComposerTest self => CoreNpmComposerTest.str self
  | ANativeComposerDependencies self => NativeComposerDependencies.str self
  | AVendorComposerDependencies self => VendorComposerDependencies.str self
  | ANpmInstall self => NpmInstall.str self
  | AnInstallMediaWiki self => InstallMediaWiki.str self
  | APhpUnitDatabaseless self => PhpUnitDatabaseless.str self
  | APhpUnitDatabase self => PhpUnitDatabase.str self
  | ABrowserTests self => BrowserTests.str self
  | AUserCommands self => UserCommands.str self
  end.

(** ** Reading traces *)

(** The spawned commands of a trace, with their outcomes. *)
Definition is_call (ev : Event) : bool :=
  match fst ev with
  | CheckCall _ _ _ => true
  | _ => false
  end.

Definition calls (t : list Event) : list Event := filter (fun ev => is_call ev = true) t.

(** Acquisitions and releases, as they happened.  A start that raised
    acquires nothing. *)
Inductive HandleEvent :=
| Acquire (h : Handle)
| Release (h : Handle).

Fixpoint handle_events (t : list Event) : list HandleEvent :=
  match t with
  | [] => []
  | (Start h, None) :: t' => Acquire h :: handle_events t'
  | (Stop h, _) :: t' => Release h :: handle_events t'
  | _ :: t' => handle_events t'
  end.

(** The handles running after the acquisitions and releases [evs], most
    recently started first, given those running before.  A release must be
    of the most recently started handle still running: anything else
    breaks the reverse order and yields [None]. *)
Fixpoint replay (evs : list HandleEvent) (running : list Handle) : option (list Handle) :=
  match evs with
  | [] => Some running
  | Acquire h :: evs' => replay evs' (h :: running)
  | Release h :: evs' =>
      match running with
      | top :: below => if decide (top = h) then replay evs' below else None
      | [] => None
      end
  end.

Definition handles_after (t : list Event) (running : list Handle) : option (list Handle) :=
  replay (handle_events t) running.

(** ** A concrete world for examples *)

Definition example_db (engine : string) (base_dir dump_dir : option string) : Db :=
  {| db_class := engine; db_base_dir := base_dir; db_dump_dir := dump_dir;
     dbname := "testwiki"; rootdir := "/db/root"; user := "USER";
     password := "PASS"; dbserver := "SERVER" |}.

(** Nothing raises, nothing exists, nothing changed. *)
Definition quiet_world : World :=
  {| environ := ∅;
     outcome := fun _ _ => None;
     path_exists := fun _ => false;
     dir_tree := fun _ => None;
     changedFiles := fun _ _ => [];
     db_factory := example_db;
     file_content := fun _ _ => "";
     resource_filename := fun name => path_join "/usr/lib/quibble" name;
     chromium_flags := "--no-sandbox";
     require_dev := fun _ => Some [];
     json_dumps := fun _ => "{}";
     py_repr := fun s => "'" +:+ s +:+ "'" |}.

(** ** Properties of computations *)

Definition st_of {S A} (x : S * list Event * Res A) : S := fst (fst x).
Definition tr_of {S A} (x : S * list Event * Res A) : list Event := snd (fst x).
Definition res_of {S A} (x : S * list Event * Res A) : Res A := snd x.

(** A computation that never assigns to the object. *)
Definition readonly {S A} (m : M S A) : Prop :=
  forall s h, st_of (m s h) = s.

(** A computation that releases, in reverse order and on every exit path,
    exactly the handles it acquired. *)
Definition scoped {S A} (m : M S A) : Prop :=
  forall s h running, handles_after (tr_of (m s h)) running = Some running.

(** Inside an [ExitStack] scope: what is still running afterwards is what
    the computation registered on the stack. *)
Definition registers {S A} (m : M (S * ExitStack) A) : Prop :=
  forall s st h running,
    exists new,
      snd (st_of (m (s, st) h)) = new ++ st
      /\ handles_after (tr_of (m (s, st) h)) running = Some (new ++ running).

Definition ok_events (l : list Action) : list Event := map (fun a => (a, None)) l.

(** The commands spawned in [t] follow the script [L]: all of it, each
    command succeeding, when the result is normal; otherwise up to and
    including the first command that failed, whose error is the one
    raised. *)
Definition follows_script {A} (L : list Action) (t : list Event) (r : Res A) : Prop :=
  match r with
  | Ok _ => calls t = ok_events L
  | Raise e =>
      exists done next rest,
        L = done ++ next :: rest /\ calls t = ok_events done ++ [(next, Some e)]
  end.

Definition scripted {S A} (m : M S A) (L : list Action) : Prop :=
  forall s h, follows_script L (tr_of (m s h)) (res_of (m s h)).

(** The directories [os.walk] yields under the pruning of
    [ExtSkinSubmoduleUpdateCommand.visit], with their file names: the walk
    goes below a directory only if it is one of [tops]. *)
Fixpoint walked_dirs (tops : list string) (dirpath : string) (d : Dir)
    : list (string * list string) :=
  match d with
  | MkDir _ filenames subdirs =>
      (dirpath, filenames)
      :: (if str_in dirpath tops
          then flat_map (fun sub => walked_dirs tops (path_join dirpath (dir_name sub)) sub)
                        subdirs
          else [])
  end.

(** The directories in which the submodule commands are to be run: those
    holding a [.gitmodules] among [extensions], [skins] and what the walk
    reaches below them. *)
Definition submodule_dirs (w : World) (self : ExtSkinSubmoduleUpdateCommand.t)
    : list string :=
  let mw := ExtSkinSubmoduleUpdateCommand.mw_install_path self in
  let tops := [path_join mw "extensions"; path_join mw "skins"] in
  flat_map (fun top =>
              match dir_tree w top with
              | None => []
              | Some d =>
                  map fst (filter (fun df => str_in ".gitmodules" (snd df) = true)
                                  (walked_dirs tops top d))
              end) tops.

(** The three git commands of one directory. *)
Definition submodule_cmds_in (dirpath : string) : list Action :=
  [ CheckCall (Argv ["git"; "submodule"; "foreach"; "git"; "clean"; "-xdff"; "-q"])
      (Some dirpath) None;
    CheckCall (Argv ["git"; "submodule"; "update"; "--init"; "--recursive"])
      (Some dirpath) None;
    CheckCall (Argv ["git"; "submodule"; "status"]) (Some dirpath) None ].

Definition submodule_script (w : World) (self : ExtSkinSubmoduleUpdateCommand.t)
    : list Action :=
  flat_map submodule_cmds_in (submodule_dirs w self).

(** [s.split(c)] *)
Fixpoint split_on (c : ascii) (acc s : string) : list string :=
  match s with
  | EmptyString => [acc]
  | String a s' =>
      if Ascii.eqb a c then acc :: split_on c "" s'
      else split_on c (acc +:+ String a "") s'
  end.

Definition split_commas (s : string) : list string := split_on ","%char "" s.

(** ** Further definitions used in the statements *)

#[global] Instance Action_eq_dec : EqDecision Action.
Proof. solve_decision. Defined.

Definition is_handle_action (a : Action) : bool :=
  match a with
  | Start _ | Stop _ => true
  | _ => false
  end.

Definition dir_script (df : string * list string) : list Action :=
  if str_in ".gitmodules" (snd df) then submodule_cmds_in (fst df) else [].

(** The object after the virtual display was chosen, line 484. *)
Definition with_display_94 (self : BrowserTests.t) : BrowserTests.t :=
  {| BrowserTests.mw_install_path := BrowserTests.mw_install_path self;
     BrowserTests.qunit := BrowserTests.qunit self;
     BrowserTests.selenium := BrowserTests.selenium self;
     BrowserTests.display := Some ":94" |}.

(** Whether [execute] gets to the selenium part, lines 479-481. *)
Definition wants_selenium (w : World) (self : BrowserTests.t) : bool :=
  (BrowserTests.selenium self
   && path_exists w (path_join (BrowserTests.mw_install_path self) "tests/selenium"))%bool.

Definition all_events {S A} (P : Event -> Prop) (m : M S A) : Prop :=
  forall s h, Forall P (tr_of (m s h)).

(** An event other than a spawned [git clean -xqdf]. *)
Definition not_git_clean (ev : Event) : Prop :=
  forall cwd env, fst ev <> CheckCall (Argv ExtSkinComposerNpmTest.git_clean) cwd env.

(** ** Worlds and steps of the examples *)

(** In [world], every path tested exists. *)
Definition with_all_paths (world : World) : World :=
  {| environ := environ world;
     outcome := outcome world;
     path_exists := fun _ => true;
     dir_tree := dir_tree world;
     changedFiles := changedFiles world;
     db_factory := db_factory world;
     file_content := file_content world;
     resource_filename := resource_filename world;
     chromium_flags := chromium_flags world;
     require_dev := require_dev world;
     json_dumps := json_dumps world;
     py_repr := py_repr world |}.

Definition with_outcome (f : list Event -> Action -> option Exn) (world : World) : World :=
  {| environ := environ world;
     outcome := f;
     path_exists := path_exists world;
     dir_tree := dir_tree world;
     changedFiles := changedFiles world;
     db_factory := db_factory world;
     file_content := file_content world;
     resource_filename := resource_filename world;
     chromium_flags := chromium_flags world;
     require_dev := require_dev world;
     json_dumps := json_dumps world;
     py_repr := py_repr world |}.

Definition with_dir_tree (f : string -> option Dir) (world : World) : World :=
  {| environ := environ world;
     outcome := outcome world;
     path_exists := path_exists world;
     dir_tree := f;
     changedFiles := changedFiles world;
     db_factory := db_factory world;
     file_content := file_content world;
     resource_filename := resource_filename world;
     chromium_flags := chromium_flags world;
     require_dev := require_dev world;
     json_dumps := json_dumps world;
     py_repr := py_repr world |}.

Definition with_require_dev (f : string -> option (list (string * string)))
    (world : World) : World :=
  {| environ := environ world;
     outcome := outcome world;
     path_exists := path_exists world;
     dir_tree := dir_tree world;
     changedFiles := changedFiles world;
     db_factory := db_factory world;
     file_content := file_content world;
     resource_filename := resource_filename world;
     chromium_flags := chromium_flags world;
     require_dev := f;
     json_dumps := json_dumps world;
     py_repr := py_repr world |}.

Definition headless_browser_tests : BrowserTests.t :=
  {| BrowserTests.mw_install_path := "/tmp";
     BrowserTests.qunit := false;
     BrowserTests.selenium := true;
     BrowserTests.display := None |}.

Definition install_with (engine : string) : InstallMediaWiki.t :=
  {| InstallMediaWiki.mw_install_path := "/tmp";
     InstallMediaWiki.db_engine := engine;
     InstallMediaWiki.db_dir := Some "/db";
     InstallMediaWiki.dump_dir := Some "/dump";
     InstallMediaWiki.log_dir := "/log";
     InstallMediaWiki.use_vendor := true |}.

(** A world whose ambient environment already sets the composer timeout,
    and in which [composer.json] changed. *)
Definition timeout_world : World :=
  {| environ := {[ "COMPOSER_PROCESS_TIMEOUT" := "300" ]};
     outcome := fun _ _ => None;
     path_exists := fun _ => false;
     dir_tree := fun _ => None;
     changedFiles := fun _ _ => ["composer.json"];
     db_factory := example_db;
     file_content := fun _ _ => "";
     resource_filename := fun name => path_join "/usr/lib/quibble" name;
     chromium_flags := "--no-sandbox";
     require_dev := fun _ => Some [];
     json_dumps := fun _ => "{}";
     py_repr := fun s => "'" +:+ s +:+ "'" |}.

Definition core_tests : CoreNpmComposerTest.t :=
  {| CoreNpmComposerTest.mw_install_path := "/tmp";
     CoreNpmComposerTest.composer := true;
     CoreNpmComposerTest.npm := false |}.

Definition extskin_tests : ExtSkinComposerNpmTest.t :=
  {| ExtSkinComposerNpmTest.directory := "/tmp";
     ExtSkinComposerNpmTest.composer := true;
     ExtSkinComposerNpmTest.npm := true |}.

(** [walk_extensions]: an extension with submodules, and below it a
    directory that the walk must not reach. *)
Definition walk_extensions (path : string) : option Dir :=
  if String.eqb path "/tmp/extensions" then
    Some (MkDir "extensions" []
            [MkDir "VisualEditor" [".gitmodules"]
               [MkDir "includes" [".gitmodules"] []]])
  else None.

Definition git_something_fails (_ : list Event) (a : Action) : option Exn :=
  match a with
  | CheckCall _ _ _ => Some (CalledProcessError 1 (Shell "git something"))
  | _ => None
  end.

Definition submodule_update : ExtSkinSubmoduleUpdateCommand.t :=
  {| ExtSkinSubmoduleUpdateCommand.mw_install_path := "/tmp" |}.

(** The installer exits with status 1. *)
Definition installer_fails (_ : list Event) (a : Action) : option Exn :=
  match a with
  | MaintInstall _ _ => Some (CalledProcessError 1 (Argv ["php"; "maintenance/install.php"]))
  | _ => None
  end.



(** ** Definitions for the further results *)

(** ** Plans: what a computation does besides logging *)

Definition is_log (ev : Event) : bool :=
  match fst ev with
  | Log _ _ => true
  | _ => false
  end.

(** The operations of a trace that are not log lines. *)
Definition effects (t : list Event) : list Event := filter (fun ev => is_log ev = false) t.

(** The operations performed in [t] follow the plan [L]: all of it, each
    one succeeding, when the result is normal; otherwise up to and
    including the first operation that raised, whose error is the one
    raised. *)
Definition follows_plan {A} (L : list Action) (t : list Event) (r : Res A) : Prop :=
  match r with
  | Ok _ => effects t = ok_events L
  | Raise e =>
      exists done next rest,
        L = done ++ next :: rest /\ effects t = ok_events done ++ [(next, Some e)]
  end.

Definition planned {S A} (m : M S A) (L : list Action) : Prop :=
  forall s h, follows_plan L (tr_of (m s h)) (res_of (m s h)).

Definition is_log_action (a : Action) : bool :=
  match a with
  | Log _ _ => true
  | _ => false
  end.

(** The commands of a list, spawned in [cwd] with the inherited environment. *)
Definition cmds_in (cwd : string) (cmds : list (list string)) : list Action :=
  map (fun cmd => CheckCall (Argv cmd) (Some cwd) None) cmds.

(** [require_dev] answers [None]: the JSON file has no such key. *)
Definition without_require_dev : World := with_require_dev (fun _ => None) quiet_world.

Definition vendor_deps : VendorComposerDependencies.t :=
  {| VendorComposerDependencies.mw_install_path := "/tmp";
     VendorComposerDependencies.log_dir := "/log" |}.

(** What [VendorComposerDependencies.execute] does, in order, for the
    development requirements [deps]. *)
Definition vendor_plan (self : VendorComposerDependencies.t)
    (deps : list (string * string)) : list Action :=
  let mw := VendorComposerDependencies.mw_install_path self in
  let log_dir := VendorComposerDependencies.log_dir self in
  let mw_composer_json := path_join mw "composer.json" in
  let vendor_dir := path_join mw "vendor" in
  [ OpenFile mw_composer_json "r";
    JsonLoadFile mw_composer_json;
    CheckCall (Argv (["composer"; "require"; "--dev"; "--ansi"; "--no-progress";
                      "--prefer-dist"; "-v"]
                     ++ map (fun dv => fst dv +:+ "=" +:+ snd dv) deps))
      (Some vendor_dir) None;
    CheckCall (Argv ["composer"; "config"; "extra.merge-plugin.include"; mw_composer_json])
      (Some vendor_dir) None;
    CheckCall (Argv ["composer"; "dump-autoload"; "--optimize"]) (Some vendor_dir) None;
    CopyLog mw_composer_json (path_join log_dir "composer.core.json.txt");
    CopyLog (path_join vendor_dir "composer.json")
      (path_join log_dir "composer.vendor.json.txt");
    CopyLog (path_join vendor_dir "composer/autoload_files.php")
      (path_join log_dir "composer.autoload_files.php.txt") ].

(** The composer.json of the test of [VendorComposerDependencies]. *)
Definition with_schema_dev : World :=
  with_require_dev (fun _ => Some [("justinrainbow/jsonschema", "^1.2.3")]) quiet_world.

(** Every spawned command exits with status 1; everything else works. *)
Definition commands_fail : World :=
  with_outcome
    (fun _ a => match a with
                | CheckCall c _ _ => Some (CalledProcessError 1 c)
                | _ => None
                end)
    (with_all_paths quiet_world).

Definition qunit_only : BrowserTests.t :=
  {| BrowserTests.mw_install_path := "/tmp";
     BrowserTests.qunit := true;
     BrowserTests.selenium := true;
     BrowserTests.display := None |}.

(** The display an event of the selenium part refers to, if it is the
    start of the Chrome web driver or the spawned selenium run. *)
Definition uses_display (d : string) (ev : Event) : Prop :=
  (forall hd, fst ev = Start (ChromeWebDriver hd) -> hd = Some d)
  /\ (forall cwd env,
        fst ev = CheckCall (Argv ["npm"; "run"; "selenium-test"]) cwd (Some env) ->
        env !! "DISPLAY" = Some d).

(** What [path_join a] puts in front of a relative path. *)
Definition dir_prefix (a : string) : string :=
  match last_char a with
  | None => ""
  | Some c => if Ascii.eqb c "/"%char then a else a +:+ "/"
  end.

Definition dir_subdirs (d : Dir) : list Dir :=
  match d with
  | MkDir _ _ subdirs => subdirs
  end.

(** The entries [os.walk] lists in a directory are names, not paths. *)
Definition plain_name (name : string) : Prop := startswith "/" name = false.

(** What [InstallMediaWiki.execute] does, in order, for a supported
    engine, when it starts with the history [h]. *)
Definition install_plan (w : World) (self : InstallMediaWiki.t) (h : list Event)
    : list Action :=
  let mw := InstallMediaWiki.mw_install_path self in
  let engine := InstallMediaWiki.db_engine self in
  let db := db_factory w engine (InstallMediaWiki.db_dir self)
              (InstallMediaWiki.dump_dir self) in
  let localsettings := path_join mw "LocalSettings.php" in
  let quibblesettings := resource_filename w "mediawiki/local_settings.php" in
  let args :=
    ["--scriptpath="; "--dbtype=" +:+ engine; "--dbname=" +:+ dbname db]
    ++ (if String.eqb engine "sqlite"
        then ["--dbpath=" +:+ rootdir db]
        else ["--dbuser=" +:+ user db; "--dbpass=" +:+ password db;
              "--dbserver=" +:+ dbserver db]) in
  let before :=
    [GetDBClass engine; Start (Database db); MaintInstall args mw;
     OpenFile localsettings "r+"; OpenFile quibblesettings "r";
     ReadFile quibblesettings] in
  let quibble_conf := file_content w (h ++ ok_events before) quibblesettings in
  let installed_conf :=
    file_content w (h ++ ok_events before ++ [(ReadFile localsettings, None)])
      localsettings in
  before
  ++ [ReadFile localsettings;
      WriteFile localsettings (quibble_conf +:+ nl +:+ "?>" +:+ installed_conf);
      CopyLog localsettings
        (path_join (InstallMediaWiki.log_dir self) "LocalSettings.php");
      CheckCall (Argv ["php"; "-l"; localsettings]) None None;
      MaintUpdate (if InstallMediaWiki.use_vendor self
                   then ["--skip-external-dependencies"] else []) mw;
      MaintRebuildLocalisationCache ["en"] mw].

(** * Lemmas *)

(** ** Basic facts about traces *)

Lemma handle_events_app t1 t2 :
  handle_events (t1 ++ t2) = handle_events t1 ++ handle_events t2.
Proof.
  induction t1 as [|[a o] t1 IH]; simpl; [reflexivity|].
  destruct a; try apply IH.
  - destruct o; simpl; [apply IH | f_equal; apply IH].
  - simpl. f_equal. apply IH.
Qed.

Lemma replay_app evs1 evs2 running :
  replay (evs1 ++ evs2) running
  = match replay evs1 running with
    | Some r => replay evs2 r
    | None => None
    end.
Proof.
  revert running. induction evs1 as [|[h|h] evs1 IH]; intros running; simpl;
    [reflexivity | apply IH |].
  destruct running as [|top below]; [reflexivity|].
  destruct (decide (top = h)); [apply IH | reflexivity].
Qed.

Lemma handles_after_app t1 t2 running :
  handles_after (t1 ++ t2) running
  = match handles_after t1 running with
    | Some r => handles_after t2 r
    | None => None
    end.
Proof. unfold handles_after. rewrite handle_events_app. apply replay_app. Qed.

Lemma calls_app t1 t2 : calls (t1 ++ t2) = calls t1 ++ calls t2.
Proof. unfold calls. apply filter_app. Qed.

Lemma for_each_cons {S A} (x : A) (rest : list A) (body : A -> M S unit) :
  for_each (x :: rest) body = (do body x in for_each rest body).
Proof. reflexivity. Qed.

(** Reading the object, logging and performing, in front of a
    continuation. *)
Lemma bind_get {S B} (k : S -> M S B) (s : S) (h : list Event) :
  bind get k s h = k s s h.
Proof.
  unfold bind, get. rewrite app_nil_r.
  destruct (k s s h) as [[s2 t2] r]. reflexivity.
Qed.

Lemma bind_log {S B} lvl msg (k : unit -> M S B) (s : S) (h : list Event) :
  bind (log lvl msg) k s h
  = (st_of (k tt s (h ++ [(Log lvl msg, None)])),
     (Log lvl msg, None) :: tr_of (k tt s (h ++ [(Log lvl msg, None)])),
     res_of (k tt s (h ++ [(Log lvl msg, None)]))).
Proof.
  unfold bind, log, st_of, tr_of, res_of.
  destruct (k tt s _) as [[s2 t2] r]. reflexivity.
Qed.

Lemma bind_perform {S B} (w : World) (a : Action) (k : unit -> M S B) s h :
  bind (perform w a) k s h
  = match outcome w h a with
    | Some e => (s, [(a, Some e)], Raise e)
    | None =>
        (st_of (k tt s (h ++ [(a, None)])),
         (a, None) :: tr_of (k tt s (h ++ [(a, None)])),
         res_of (k tt s (h ++ [(a, None)])))
    end.
Proof.
  unfold bind, perform, st_of, tr_of, res_of.
  destruct (outcome w h a); [reflexivity|].
  destruct (k tt s _) as [[s2 t2] r]. reflexivity.
Qed.

(** Read the components of a run that is given as a triple. *)
Ltac project_triples :=
  repeat match goal with
         | |- context [tr_of (?a, ?b, ?c)] => change (tr_of (a, b, c)) with b
         | |- context [res_of (?a, ?b, ?c)] => change (res_of (a, b, c)) with c
         | |- context [st_of (?a, ?b, ?c)] => change (st_of (a, b, c)) with a
         end.

Lemma Dir_nested_ind (P : Dir -> Prop) :
  (forall name filenames subdirs, Forall P subdirs -> P (MkDir name filenames subdirs)) ->
  forall d, P d.
Proof.
  intros step. fix IH 1. intros [name filenames subdirs]. apply step.
  induction subdirs as [|sub subs IHsubs]; constructor; [apply IH | exact IHsubs].
Qed.

(** ** Read-only computations *)

Section Readonly.
Context (w : World).

Lemma readonly_ret {S A} (a : A) : readonly (ret (S:=S) a).
Proof. intros s h. reflexivity. Qed.

Lemma readonly_raise {S A} (e : Exn) : readonly (raise (S:=S) (A:=A) e).
Proof. intros s h. reflexivity. Qed.

Lemma readonly_get {S} : readonly (get (S:=S)).
Proof. intros s h. reflexivity. Qed.

Lemma readonly_log {S} lvl msg : readonly (log (S:=S) lvl msg).
Proof. intros s h. reflexivity. Qed.

Lemma readonly_perform {S} a : readonly (perform (S:=S) w a).
Proof. intros s h. unfold perform, st_of. destruct (outcome w h a); reflexivity. Qed.

Lemma readonly_check_call {S} argv cwd env : readonly (check_call (S:=S) w argv cwd env).
Proof. apply readonly_perform. Qed.

Lemma readonly_check_call_shell {S} line cwd : readonly (check_call_shell (S:=S) w line cwd).
Proof. apply readonly_perform. Qed.

Lemma readonly_bind {S A B} (m : M S A) (k : A -> M S B) :
  readonly m -> (forall a, readonly (k a)) -> readonly (bind m k).
Proof.
  intros Hm Hk s h. specialize (Hm s h). unfold bind, st_of in *.
  destruct (m s h) as [[s1 t1] [a|e]]; simpl in *; subst; [|reflexivity].
  specialize (Hk a s (h ++ t1)). unfold st_of in Hk.
  destruct (k a s (h ++ t1)) as [[s2 t2] r]. exact Hk.
Qed.

Lemma readonly_for_each {S A} (l : list A) (body : A -> M S unit) :
  (forall x, readonly (body x)) -> readonly (for_each l body).
Proof.
  intros Hb. induction l as [|x rest IH]; [apply readonly_ret|].
  rewrite for_each_cons. apply readonly_bind; [apply Hb | intros _; exact IH].
Qed.

Lemma readonly_try_except {S A} (body : M S A) (handler : Exn -> M S A) :
  readonly body -> (forall e, readonly (handler e)) ->
  readonly (try_except_CalledProcessError body handler).
Proof.
  intros Hb Hh s h. specialize (Hb s h). unfold try_except_CalledProcessError, st_of in *.
  destruct (body s h) as [[s1 t1] [a|e]]; simpl in *; subst; [reflexivity|].
  destruct e; try reflexivity.
  specialize (Hh (CalledProcessError returncode cmd) s (h ++ t1)). unfold st_of in Hh.
  destruct (handler _ s (h ++ t1)) as [[s2 t2] r]. exact Hh.
Qed.

Lemma readonly_with {S A} (hd : Handle) (body : M S A) :
  readonly body -> readonly (with_ w hd body).
Proof.
  intros Hb s h. unfold with_, perform, st_of.
  destruct (outcome w h (Start hd)); [reflexivity|].
  specialize (Hb s (h ++ [(Start hd, None)])). unfold st_of in Hb.
  destruct (body s _) as [[s1 t1] r]; simpl in *; subst.
  destruct (outcome w _ (Stop hd)); reflexivity.
Qed.

Lemma readonly_parallel_run {S} (tasks : list (M S unit)) :
  Forall readonly tasks -> readonly (parallel_run tasks).
Proof.
  induction 1 as [|t rest Ht _ IH]; [apply readonly_ret|].
  intros s h. specialize (Ht s h). simpl. unfold st_of in *.
  destruct (t s h) as [[s1 t1] r1]; simpl in *; subst.
  specialize (IH s (h ++ t1)). unfold st_of in IH.
  destruct (parallel_run rest s (h ++ t1)) as [[s2 t2] r2]. exact IH.
Qed.

Lemma readonly_os_walk {S} (body : string -> list string -> list string -> M S (list string)) :
  (forall p ds fs, readonly (body p ds fs)) ->
  forall d dirpath, readonly (os_walk body dirpath d).
Proof.
  intros Hb. induction d as [name filenames subdirs IH] using Dir_nested_ind.
  intros dirpath. simpl. apply readonly_bind; [apply Hb|]. intros kept.
  induction IH as [|sub subs Hsub _ IHsubs]; [apply readonly_ret|].
  rewrite for_each_cons. apply readonly_bind; [|intros _; exact IHsubs].
  destruct (str_in (dir_name sub) kept); [apply Hsub | apply readonly_ret].
Qed.

Lemma readonly_walk {S} top (body : string -> list string -> list string -> M S (list string)) :
  (forall p ds fs, readonly (body p ds fs)) -> readonly (walk w top body).
Proof.
  intros Hb. unfold walk. destruct (dir_tree w top); [|apply readonly_ret].
  apply readonly_os_walk, Hb.
Qed.
End Readonly.

(** ** Computations that leave no service running *)

Section Scoped.
Context (w : World).

Lemma scoped_ret {S A} (a : A) : scoped (ret (S:=S) a).
Proof. intros s h running. reflexivity. Qed.

Lemma scoped_raise {S A} (e : Exn) : scoped (raise (S:=S) (A:=A) e).
Proof. intros s h running. reflexivity. Qed.

Lemma scoped_get {S} : scoped (get (S:=S)).
Proof. intros s h running. reflexivity. Qed.

Lemma scoped_log {S} lvl msg : scoped (log (S:=S) lvl msg).
Proof. intros s h running. reflexivity. Qed.

Lemma scoped_perform {S} a :
  is_handle_action a = false -> scoped (perform (S:=S) w a).
Proof.
  intros Ha s h running. unfold perform, tr_of.
  destruct (outcome w h a); destruct a; simpl in *; try discriminate; reflexivity.
Qed.

Lemma scoped_check_call {S} argv cwd env : scoped (check_call (S:=S) w argv cwd env).
Proof. apply scoped_perform. reflexivity. Qed.

Lemma scoped_check_call_shell {S} line cwd : scoped (check_call_shell (S:=S) w line cwd).
Proof. apply scoped_perform. reflexivity. Qed.

Lemma scoped_bind {S A B} (m : M S A) (k : A -> M S B) :
  scoped m -> (forall a, scoped (k a)) -> scoped (bind m k).
Proof.
  intros Hm Hk s h running. specialize (Hm s h running). unfold bind, tr_of in *.
  destruct (m s h) as [[s1 t1] [a|e]]; simpl in *; [|exact Hm].
  specialize (Hk a s1 (h ++ t1) running). unfold tr_of in Hk.
  destruct (k a s1 (h ++ t1)) as [[s2 t2] r]. simpl in *.
  rewrite handles_after_app, Hm. exact Hk.
Qed.

Lemma scoped_for_each {S A} (l : list A) (body : A -> M S unit) :
  (forall x, scoped (body x)) -> scoped (for_each l body).
Proof.
  intros Hb. induction l as [|x rest IH]; [apply scoped_ret|].
  rewrite for_each_cons. apply scoped_bind; [apply Hb | intros _; exact IH].
Qed.

Lemma scoped_try_except {S A} (body : M S A) (handler : Exn -> M S A) :
  scoped body -> (forall e, scoped (handler e)) ->
  scoped (try_except_CalledProcessError body handler).
Proof.
  intros Hb Hh s h running. specialize (Hb s h running).
  unfold try_except_CalledProcessError, tr_of in *.
  destruct (body s h) as [[s1 t1] [a|e]]; simpl in *; [exact Hb|].
  destruct e; try exact Hb.
  specialize (Hh (CalledProcessError returncode cmd) s1 (h ++ t1) running).
  unfold tr_of in Hh.
  destruct (handler _ s1 (h ++ t1)) as [[s2 t2] r]. simpl in *.
  rewrite handles_after_app, Hb. exact Hh.
Qed.

(** The scope of a [with] statement: the handle is released whatever
    the body did, after everything the body acquired. *)
Lemma scoped_with {S A} (hd : Handle) (body : M S A) :
  scoped body -> scoped (with_ w hd body).
Proof.
  intros Hb s h running. unfold with_, perform, tr_of.
  destruct (outcome w h (Start hd)); [reflexivity|].
  specialize (Hb s (h ++ [(Start hd, None)]) (hd :: running)). unfold tr_of in Hb.
  destruct (body s _) as [[s1 t1] r]; simpl in *.
  unfold handles_after in *.
  destruct (outcome w _ (Stop hd)); simpl;
    rewrite handle_events_app, replay_app, Hb; simpl;
    (destruct (decide (hd = hd)); [reflexivity | congruence]).
Qed.

Lemma scoped_parallel_run {S} (tasks : list (M S unit)) :
  Forall scoped tasks -> scoped (parallel_run tasks).
Proof.
  induction 1 as [|t rest Ht _ IH]; [apply scoped_ret|].
  intros s h running. specialize (Ht s h running). simpl. unfold tr_of in *.
  destruct (t s h) as [[s1 t1] r1]; simpl in *.
  specialize (IH s1 (h ++ t1) running). unfold tr_of in IH.
  destruct (parallel_run rest s1 (h ++ t1)) as [[s2 t2] r2]. simpl in *.
  rewrite handles_after_app, Ht. exact IH.
Qed.

Lemma scoped_os_walk {S} (body : string -> list string -> list string -> M S (list string)) :
  (forall p ds fs, scoped (body p ds fs)) ->
  forall d dirpath, scoped (os_walk body dirpath d).
Proof.
  intros Hb. induction d as [name filenames subdirs IH] using Dir_nested_ind.
  intros dirpath. simpl. apply scoped_bind; [apply Hb|]. intros kept.
  induction IH as [|sub subs Hsub _ IHsubs]; [apply scoped_ret|].
  rewrite for_each_cons. apply scoped_bind; [|intros _; exact IHsubs].
  destruct (str_in (dir_name sub) kept); [apply Hsub | apply scoped_ret].
Qed.

Lemma scoped_walk {S} top (body : string -> list string -> list string -> M S (list string)) :
  (forall p ds fs, scoped (body p ds fs)) -> scoped (walk w top body).
Proof.
  intros Hb. unfold walk. destruct (dir_tree w top); [|apply scoped_ret].
  apply scoped_os_walk, Hb.
Qed.
End Scoped.

(** ** The [ExitStack] scope *)

Section ExitStackScope.
Context (w : World).

Lemma registers_ret {S A} (a : A) : registers (ret (S:=S * ExitStack) a).
Proof. intros s st h running. exists []. split; reflexivity. Qed.

Lemma registers_on_self {S A} (m : M S A) : scoped m -> registers (on_self m).
Proof.
  intros Hm s st h running. exists []. specialize (Hm s h running).
  unfold on_self, st_of, tr_of in *. simpl.
  destruct (m s h) as [[s1 t1] r]. split; [reflexivity | exact Hm].
Qed.

Lemma registers_enter_context {S} (hd : Handle) :
  registers (enter_context (S:=S) w hd).
Proof.
  intros s st h running. unfold enter_context, perform, st_of, tr_of.
  destruct (outcome w h (Start hd)); simpl.
  - exists []. split; reflexivity.
  - exists [hd]. split; reflexivity.
Qed.

Lemma registers_bind {S A B} (m : M (S * ExitStack) A) (k : A -> M (S * ExitStack) B) :
  registers m -> (forall a, registers (k a)) -> registers (bind m k).
Proof.
  intros Hm Hk s st h running.
  destruct (Hm s st h running) as (new1 & Hst1 & Htr1).
  unfold bind, st_of, tr_of in *.
  destruct (m (s, st) h) as [[[s1 st1] t1] [a|e]]; simpl in *; subst.
  - destruct (Hk a s1 (new1 ++ st) (h ++ t1) (new1 ++ running)) as (new2 & Hst2 & Htr2).
    unfold st_of, tr_of in *.
    match type of Hst2 with
    | context [k a ?x ?y] => destruct (k a x y) as [[[s2 st2] t2] r]
    end; simpl in *; subst.
    exists (new2 ++ new1). rewrite <- !app_assoc. split; [reflexivity|].
    rewrite handles_after_app, Htr1. exact Htr2.
  - exists new1. split; [reflexivity | exact Htr1].
Qed.

(** Closing the stack releases what was registered, last in first out. *)
Lemma close_stack_releases {S A} (new : ExitStack) :
  forall (pending : Res A) (s : S) h running,
    handles_after (tr_of (close_stack w new pending s h)) (new ++ running) = Some running.
Proof.
  induction new as [|hd rest IH]; intros pending s h running; [reflexivity|].
  simpl. unfold perform, tr_of, handles_after in *.
  destruct (outcome w h (Stop hd)); simpl.
  - specialize (IH (Raise e) s (h ++ [(Stop hd, Some e)]) running).
    destruct (close_stack w rest (Raise e) s _) as [[s2 t2] r]. simpl in *.
    destruct (decide (hd = hd)); [exact IH | congruence].
  - specialize (IH pending s (h ++ [(Stop hd, None)]) running).
    destruct (close_stack w rest pending s _) as [[s2 t2] r]. simpl in *.
    destruct (decide (hd = hd)); [exact IH | congruence].
Qed.

Lemma scoped_with_ExitStack {S A} (body : M (S * ExitStack) A) :
  registers body -> scoped (with_ExitStack w body).
Proof.
  intros Hb s h running.
  destruct (Hb s [] h running) as (new & Hst & Htr).
  unfold with_ExitStack, st_of, tr_of, ExitStack in *.
  match type of Hst with
  | context [body ?x ?y] => destruct (body x y) as [[[s1 st1] t1] r]
  end; simpl in *.
  rewrite app_nil_r in Hst. subst st1.
  pose proof (close_stack_releases new r s1 (h ++ t1) running) as Hc.
  unfold tr_of in Hc.
  destruct (close_stack w new r s1 (h ++ t1)) as [[s2 t2] r']. simpl in *.
  rewrite handles_after_app, Htr. exact Hc.
Qed.
End ExitStackScope.

(** Case analysis on the outcome of the next operation. *)
Ltac case_outcome w :=
  match goal with
  | |- context [outcome w ?h ?a] => destruct (outcome w h a) as [?e|]
  end.

(** Discharge [readonly] and [scoped] goals by following the structure of
    the computation. *)
Ltac follow_structure :=
  repeat first
    [ apply readonly_ret | apply readonly_raise | apply readonly_get
    | apply readonly_log | apply readonly_perform | apply readonly_check_call
    | apply readonly_check_call_shell | apply readonly_bind
    | apply readonly_for_each | apply readonly_try_except | apply readonly_with
    | apply readonly_walk
    | apply scoped_ret | apply scoped_raise | apply scoped_get
    | apply scoped_log | apply scoped_check_call | apply scoped_check_call_shell
    | apply scoped_perform; reflexivity
    | apply scoped_bind | apply scoped_for_each | apply scoped_try_except
    | apply scoped_with | apply scoped_walk | apply scoped_with_ExitStack
    | apply registers_ret | apply registers_enter_context | apply registers_bind
    | apply registers_on_self
    | progress cbv beta zeta
    | match goal with
      | |- forall _, _ => intro
      | |- readonly (if ?b then _ else _) => destruct b
      | |- scoped (if ?b then _ else _) => destruct b
      | |- registers (if ?b then _ else _) => destruct b
      | |- readonly (match ?x with _ => _ end) => destruct x
      | |- scoped (match ?x with _ => _ end) => destruct x
      | |- Forall _ (_ ++ _) => apply Forall_app; split
      | |- Forall _ (if ?b then _ else _) => destruct b
      | |- Forall _ [] => constructor
      | |- Forall _ (_ :: _) => constructor
      end ].

Section StepFacts.
Context (w : World).

Lemma ZuulCloneCommand_readonly : readonly (ZuulCloneCommand.execute w).
Proof. unfold ZuulCloneCommand.execute. follow_structure. Qed.

Lemma ZuulCloneCommand_scoped : scoped (ZuulCloneCommand.execute w).
Proof. unfold ZuulCloneCommand.execute. follow_structure. Qed.

Lemma ExtSkinSubmoduleUpdateCommand_readonly :
  readonly (ExtSkinSubmoduleUpdateCommand.execute w).
Proof.
  unfold ExtSkinSubmoduleUpdateCommand.execute, ExtSkinSubmoduleUpdateCommand.visit,
    ExtSkinSubmoduleUpdateCommand.process_dir.
  follow_structure.
Qed.

Lemma ExtSkinSubmoduleUpdateCommand_scoped :
  scoped (ExtSkinSubmoduleUpdateCommand.execute w).
Proof.
  unfold ExtSkinSubmoduleUpdateCommand.execute, ExtSkinSubmoduleUpdateCommand.visit,
    ExtSkinSubmoduleUpdateCommand.process_dir.
  follow_structure.
Qed.

Lemma CreateComposerLocal_readonly : readonly (CreateComposerLocal.execute w).
Proof. unfold CreateComposerLocal.execute. follow_structure. Qed.

Lemma CreateComposerLocal_scoped : scoped (CreateComposerLocal.execute w).
Proof. unfold CreateComposerLocal.execute. follow_structure. Qed.

Lemma ExtSkinComposerNpmTest_readonly : readonly (ExtSkinComposerNpmTest.execute w).
Proof.
  unfold ExtSkinComposerNpmTest.execute. follow_structure.
  apply readonly_parallel_run.
  unfold ExtSkinComposerNpmTest.tasks, ExtSkinComposerNpmTest.run_extskin_composer,
    ExtSkinComposerNpmTest.run_extskin_npm.
  follow_structure.
Qed.

Lemma ExtSkinComposerNpmTest_scoped : scoped (ExtSkinComposerNpmTest.execute w).
Proof.
  unfold ExtSkinComposerNpmTest.execute. follow_structure.
  apply scoped_parallel_run.
  unfold ExtSkinComposerNpmTest.tasks, ExtSkinComposerNpmTest.run_extskin_composer,
    ExtSkinComposerNpmTest.run_extskin_npm.
  follow_structure.
Qed.

Lemma CoreNpmComposerTest_readonly : readonly (CoreNpmComposerTest.execute w).
Proof.
  unfold CoreNpmComposerTest.execute. follow_structure.
  apply readonly_parallel_run.
  unfold CoreNpmComposerTest.tasks, CoreNpmComposerTest.run_composer_test,
    CoreNpmComposerTest.run_npm_test.
  follow_structure.
Qed.

Lemma CoreNpmComposerTest_scoped : scoped (CoreNpmComposerTest.execute w).
Proof.
  unfold CoreNpmComposerTest.execute. follow_structure.
  apply scoped_parallel_run.
  unfold CoreNpmComposerTest.tasks, CoreNpmComposerTest.run_composer_test,
    CoreNpmComposerTest.run_npm_test.
  follow_structure.
Qed.

Lemma NativeComposerDependencies_readonly : readonly (NativeComposerDependencies.execute w).
Proof. unfold NativeComposerDependencies.execute. follow_structure. Qed.

Lemma NativeComposerDependencies_scoped : scoped (NativeComposerDependencies.execute w).
Proof. unfold NativeComposerDependencies.execute. follow_structure. Qed.

Lemma VendorComposerDependencies_readonly : readonly (VendorComposerDependencies.execute w).
Proof. unfold VendorComposerDependencies.execute. follow_structure. Qed.

Lemma VendorComposerDependencies_scoped : scoped (VendorComposerDependencies.execute w).
Proof. unfold VendorComposerDependencies.execute. follow_structure. Qed.

Lemma NpmInstall_readonly : readonly (NpmInstall.execute w).
Proof. unfold NpmInstall.execute. follow_structure. Qed.

Lemma NpmInstall_scoped : scoped (NpmInstall.execute w).
Proof. unfold NpmInstall.execute. follow_structure. Qed.

Lemma run_phpunit_readonly `{AbstractPhpUnit.Self T} group exclude_group :
  readonly (AbstractPhpUnit.run_phpunit (T:=T) w group exclude_group).
Proof. unfold AbstractPhpUnit.run_phpunit. follow_structure. Qed.

Lemma run_phpunit_scoped `{AbstractPhpUnit.Self T} group exclude_group :
  scoped (AbstractPhpUnit.run_phpunit (T:=T) w group exclude_group).
Proof. unfold AbstractPhpUnit.run_phpunit. follow_structure. Qed.

Lemma PhpUnitDatabaseless_readonly : readonly (PhpUnitDatabaseless.execute w).
Proof. unfold PhpUnitDatabaseless.execute. apply run_phpunit_readonly. Qed.

Lemma PhpUnitDatabaseless_scoped : scoped (PhpUnitDatabaseless.execute w).
Proof. unfold PhpUnitDatabaseless.execute. apply run_phpunit_scoped. Qed.

Lemma PhpUnitDatabase_readonly : readonly (PhpUnitDatabase.execute w).
Proof. unfold PhpUnitDatabase.execute. apply run_phpunit_readonly. Qed.

Lemma PhpUnitDatabase_scoped : scoped (PhpUnitDatabase.execute w).
Proof. unfold PhpUnitDatabase.execute. apply run_phpunit_scoped. Qed.

Lemma UserCommands_readonly : readonly (UserCommands.execute w).
Proof. unfold UserCommands.execute. follow_structure. Qed.

Lemma UserCommands_scoped : scoped (UserCommands.execute w).
Proof. unfold UserCommands.execute. follow_structure. Qed.

Lemma BrowserTests_scoped : scoped (BrowserTests.execute w).
Proof.
  unfold BrowserTests.execute, BrowserTests.selenium_tests, BrowserTests.maybe_xvfb,
    BrowserTests.run_qunit, BrowserTests.run_webdriver, BrowserTests.set_display.
  follow_structure.
  all: try (intros s h running; reflexivity).
Qed.
End StepFacts.

(** ** Computations that run a script of commands *)

Lemma ok_events_app l1 l2 : ok_events (l1 ++ l2) = ok_events l1 ++ ok_events l2.
Proof. unfold ok_events. apply map_app. Qed.

Lemma flat_map_unit {A B} (g : A -> B) (l : list A) :
  flat_map (fun x => [g x]) l = map g l.
Proof. induction l as [|x l IH]; simpl; [reflexivity | f_equal; exact IH]. Qed.

Section Scripts.
Context (w : World).

Lemma scripted_ret {S A} (a : A) : scripted (ret (S:=S) a) [].
Proof. intros s h. reflexivity. Qed.

Lemma scripted_get {S} : scripted (get (S:=S)) [].
Proof. intros s h. reflexivity. Qed.

Lemma scripted_log {S} lvl msg : scripted (log (S:=S) lvl msg) [].
Proof. intros s h. reflexivity. Qed.

Lemma scripted_check_call {S} argv cwd env :
  scripted (check_call (S:=S) w argv cwd env) [CheckCall (Argv argv) cwd env].
Proof.
  intros s h. unfold check_call, perform, tr_of, res_of.
  destruct (outcome w h _) as [e|]; simpl; [|reflexivity].
  exists [], (CheckCall (Argv argv) cwd env), []. split; reflexivity.
Qed.

(** Sequencing, when the continuation's script does not depend on the
    value it receives, which is known to satisfy [P]. *)
Lemma scripted_bind_val {S A B} (P : A -> Prop) (m : M S A) (k : A -> M S B) L1 L2 :
  scripted m L1 ->
  (forall s h a, res_of (m s h) = Ok a -> P a) ->
  (forall a, P a -> scripted (k a) L2) ->
  scripted (bind m k) (L1 ++ L2).
Proof.
  intros Hm HP Hk s h. specialize (Hm s h). specialize (HP s h).
  unfold bind, tr_of, res_of in *.
  destruct (m s h) as [[s1 t1] [a|e]]; simpl in *.
  - specialize (Hk a (HP a eq_refl) s1 (h ++ t1)). unfold tr_of, res_of in Hk.
    destruct (k a s1 (h ++ t1)) as [[s2 t2] [b|e]]; simpl in *.
    + rewrite calls_app, ok_events_app, Hm, Hk. reflexivity.
    + destruct Hk as (done & next & rest & HL & Hc).
      exists (L1 ++ done), next, rest. split.
      * rewrite HL, app_assoc. reflexivity.
      * rewrite calls_app, ok_events_app, Hm, Hc, app_assoc. reflexivity.
  - destruct Hm as (done & next & rest & HL & Hc).
    exists done, next, (rest ++ L2). split; [|exact Hc].
    rewrite HL, <- app_assoc. reflexivity.
Qed.

Lemma scripted_bind {S A B} (m : M S A) (k : A -> M S B) L1 L2 :
  scripted m L1 -> (forall a, scripted (k a) L2) -> scripted (bind m k) (L1 ++ L2).
Proof.
  intros Hm Hk. apply (scripted_bind_val (fun _ => True)); auto.
Qed.

Lemma scripted_for_each {S A} (l : list A) (body : A -> M S unit) (f : A -> list Action) :
  (forall x, In x l -> scripted (body x) (f x)) ->
  scripted (for_each l body) (flat_map f l).
Proof.
  induction l as [|x rest IH]; intros Hb; [apply scripted_ret|].
  rewrite for_each_cons. simpl. apply scripted_bind.
  - apply Hb. left. reflexivity.
  - intros _. apply IH. intros y Hy. apply Hb. right. exact Hy.
Qed.

(** Lines 72-78: the handler logs and raises the error it caught. *)
Lemma scripted_log_and_reraise {S A} (body : M S A) (msg : string) L :
  scripted body L ->
  scripted (try_except_CalledProcessError body
              (fun e => do log ERROR msg in raise e)) L.
Proof.
  intros Hb s h. specialize (Hb s h).
  unfold try_except_CalledProcessError, tr_of, res_of in *.
  destruct (body s h) as [[s1 t1] [a|e]]; simpl in *; [exact Hb|].
  destruct e; simpl; try exact Hb.
  destruct Hb as (done & next & rest & HL & Hc).
  exists done, next, rest. split; [exact HL|].
  rewrite calls_app, Hc. simpl. rewrite app_nil_r. reflexivity.
Qed.

Lemma process_dir_scripted dirpath :
  scripted (ExtSkinSubmoduleUpdateCommand.process_dir w dirpath)
           (submodule_cmds_in dirpath).
Proof.
  unfold ExtSkinSubmoduleUpdateCommand.process_dir.
  change (submodule_cmds_in dirpath)
    with (map (fun cmd => CheckCall (Argv cmd) (Some dirpath) None)
              ExtSkinSubmoduleUpdateCommand.cmds).
  rewrite <- flat_map_unit.
  apply scripted_for_each. intros cmd _.
  apply scripted_log_and_reraise, scripted_check_call.
Qed.

(** A list of commands run one after the other in one directory. *)
Lemma scripted_cmds_in {S} (cwd : string) (cmds : list (list string)) :
  scripted (S:=S) (for_each cmds (fun cmd => check_call w cmd (Some cwd) None))
           (cmds_in cwd cmds).
Proof.
  unfold cmds_in. rewrite <- flat_map_unit.
  apply scripted_for_each. intros cmd _. apply scripted_check_call.
Qed.
End Scripts.

Lemma flat_map_nested {A B C} (f : B -> list C) (g : A -> list B) (l : list A) :
  flat_map f (flat_map g l) = flat_map (fun x => flat_map f (g x)) l.
Proof.
  induction l as [|x l IH]; simpl; [reflexivity|].
  rewrite flat_map_app, IH. reflexivity.
Qed.

Lemma flat_map_empty {A B} (l : list A) : flat_map (fun _ : A => @nil B) l = [].
Proof. induction l as [|x l IH]; simpl; [reflexivity | exact IH]. Qed.

Lemma str_in_In x l : In x l -> str_in x l = true.
Proof.
  intros Hin. unfold str_in. apply existsb_exists.
  exists x. split; [exact Hin | apply String.eqb_refl].
Qed.

Lemma dir_script_filter (l : list (string * list string)) :
  flat_map submodule_cmds_in
    (map fst (filter (fun df => str_in ".gitmodules" (snd df) = true) l))
  = flat_map dir_script l.
Proof.
  induction l as [|df l IH]; [reflexivity|].
  rewrite filter_cons. simpl (flat_map dir_script _). rewrite <- IH.
  unfold dir_script.
  destruct (decide (str_in ".gitmodules" (snd df) = true)) as [Hin|Hout].
  - rewrite Hin. reflexivity.
  - destruct (str_in ".gitmodules" (snd df)); [congruence | reflexivity].
Qed.

Lemma bind_ret_value {S A B} (m : M S A) (v : B) s h a :
  res_of ((do m in ret v) s h) = Ok a -> a = v.
Proof.
  unfold bind, res_of, ret.
  destruct (m s h) as [[s1 t1] [x|e]]; simpl; congruence.
Qed.

Lemma os_walk_unfold {S} (body : string -> list string -> list string -> M S (list string))
    dirpath name filenames subdirs :
  os_walk body dirpath (MkDir name filenames subdirs)
  = (let* kept := body dirpath (map dir_name subdirs) filenames in
     for_each subdirs (fun sub =>
       if str_in (dir_name sub) kept
       then os_walk body (path_join dirpath (dir_name sub)) sub
       else ret tt)).
Proof. reflexivity. Qed.

Lemma walked_dirs_unfold tops dirpath name filenames subdirs :
  walked_dirs tops dirpath (MkDir name filenames subdirs)
  = (dirpath, filenames)
    :: (if str_in dirpath tops
        then flat_map (fun sub => walked_dirs tops (path_join dirpath (dir_name sub)) sub)
                      subdirs
        else []).
Proof. reflexivity. Qed.

Section SubmoduleWalk.
Context (w : World) (self : ExtSkinSubmoduleUpdateCommand.t).

Let tops := ExtSkinSubmoduleUpdateCommand.tops self.

Lemma visit_scripted p ds fs :
  scripted (ExtSkinSubmoduleUpdateCommand.visit w self p ds fs) (dir_script (p, fs)).
Proof.
  unfold ExtSkinSubmoduleUpdateCommand.visit, dir_script. cbv zeta. simpl fst; simpl snd.
  destruct (str_in ".gitmodules" fs); unfold negb; cbv beta iota.
  - rewrite <- (app_nil_r (submodule_cmds_in p)).
    apply scripted_bind; [apply process_dir_scripted | intros _; apply scripted_ret].
  - apply scripted_ret.
Qed.

Lemma visit_returns p ds fs s h a :
  res_of (ExtSkinSubmoduleUpdateCommand.visit w self p ds fs s h) = Ok a ->
  a = if str_in p tops then ds else [].
Proof.
  unfold ExtSkinSubmoduleUpdateCommand.visit. cbv zeta. fold tops.
  destruct (str_in ".gitmodules" fs), (str_in p tops); unfold negb; cbv beta iota;
    intros Hres;
    first [ apply bind_ret_value in Hres; exact Hres
          | injection Hres as <-; reflexivity ].
Qed.

Lemma os_walk_scripted d :
  forall dirpath,
    scripted (os_walk (ExtSkinSubmoduleUpdateCommand.visit w self) dirpath d)
             (flat_map dir_script (walked_dirs tops dirpath d)).
Proof.
  induction d as [name filenames subdirs IH] using Dir_nested_ind.
  intros dirpath. rewrite os_walk_unfold, walked_dirs_unfold. cbn [flat_map].
  apply (scripted_bind_val
           (fun kept => kept = if str_in dirpath tops then map dir_name subdirs else [])).
  - apply visit_scripted.
  - intros s h a. apply visit_returns.
  - intros kept ->. destruct (str_in dirpath tops).
    + rewrite flat_map_nested. apply scripted_for_each. intros sub Hsub.
      rewrite str_in_In by (apply in_map; exact Hsub).
      rewrite Forall_forall in IH. apply IH, list_elem_of_In, Hsub.
    + pose proof (scripted_for_each (S:=ExtSkinSubmoduleUpdateCommand.t) subdirs
                    (fun _ => ret tt) (fun _ => [])
                    (fun _ _ => scripted_ret tt)) as Hnone.
      rewrite flat_map_empty in Hnone. exact Hnone.
Qed.

Lemma walk_tops_scripted :
  scripted (for_each tops
              (fun top => walk w top (ExtSkinSubmoduleUpdateCommand.visit w self)))
           (submodule_script w self).
Proof.
  unfold submodule_script, submodule_dirs. cbv zeta.
  change [path_join (ExtSkinSubmoduleUpdateCommand.mw_install_path self) "extensions";
          path_join (ExtSkinSubmoduleUpdateCommand.mw_install_path self) "skins"]
    with tops.
  rewrite flat_map_nested. apply scripted_for_each. intros top _.
  unfold walk. destruct (dir_tree w top) as [d|].
  - rewrite dir_script_filter. apply os_walk_scripted.
  - apply scripted_ret.
Qed.
End SubmoduleWalk.

(** * Main results *)

Lemma execute_follows_submodule_script
    (w : World) (self : ExtSkinSubmoduleUpdateCommand.t) (h : list Event) :
  let run := ExtSkinSubmoduleUpdateCommand.execute w self h in
  follows_script (submodule_script w self) (tr_of run) (res_of run).
Proof.
  pose (ev := (Log INFO "Updating git submodules of extensions and skins", @None Exn)).
  pose proof (walk_tops_scripted w self self ((h ++ [ev]) ++ [])) as Hwalk.
  unfold ExtSkinSubmoduleUpdateCommand.execute, bind, log, get, tr_of, res_of in *.
  cbv zeta. fold ev.
  destruct (for_each _ _ self ((h ++ [ev]) ++ [])) as [[s2 t2] r].
  simpl in *. exact Hwalk.
Qed.

(** C7. [ExtSkinSubmoduleUpdateCommand.execute] never swallows the failure
    of a command.  In every directory it processes (those holding a
    [.gitmodules] among [extensions], [skins] and what the walk reaches
    below them) it runs [git submodule foreach git clean -xdff -q], [git
    submodule update --init --recursive] and [git submodule status], in
    this order.  When the result is normal every one of these commands was
    run and succeeded; when a command fails, it is the last command issued
    and the error raised to the caller is the error of that command. *)
Theorem submodule_update_stops_at_first_failure
    (w : World) (self : ExtSkinSubmoduleUpdateCommand.t) (h : list Event) :
  let mw := ExtSkinSubmoduleUpdateCommand.mw_install_path self in
  let tops := [path_join mw "extensions"; path_join mw "skins"] in
  let processed :=
    flat_map (fun top =>
                match dir_tree w top with
                | None => []
                | Some d =>
                    map fst (filter (fun df => str_in ".gitmodules" (snd df) = true)
                                    (walked_dirs tops top d))
                end) tops in
  let commands_in (dir : string) :=
    [ CheckCall (Argv ["git"; "submodule"; "foreach"; "git"; "clean"; "-xdff"; "-q"])
        (Some dir) None;
      CheckCall (Argv ["git"; "submodule"; "update"; "--init"; "--recursive"])
        (Some dir) None;
      CheckCall (Argv ["git"; "submodule"; "status"]) (Some dir) None ] in
  let run := ExtSkinSubmoduleUpdateCommand.execute w self h in
  follows_script (flat_map commands_in processed) (tr_of run) (res_of run).
Proof.
  cbv zeta. exact (execute_follows_submodule_script w self h).
Qed.

Section BrowserTestsFacts.
Context (w : World).

Lemma run_qunit_quiet s h :
  st_of (BrowserTests.run_qunit w s h) = s
  /\ handle_events (tr_of (BrowserTests.run_qunit w s h)) = [].
Proof.
  unfold BrowserTests.run_qunit, bind, get, check_call, perform, st_of, tr_of.
  cbv zeta. simpl.
  destruct (outcome w _ _); simpl; split; reflexivity.
Qed.

Lemma run_webdriver_quiet s h :
  st_of (BrowserTests.run_webdriver w s h) = s
  /\ handle_events (tr_of (BrowserTests.run_webdriver w s h)) = [].
Proof.
  unfold BrowserTests.run_webdriver, bind, get, check_call, perform, st_of, tr_of.
  cbv zeta. simpl.
  destruct (BrowserTests.display s); simpl; [|split; reflexivity].
  destruct (outcome w _ _); simpl; split; reflexivity.
Qed.
End BrowserTestsFacts.

#[local] Arguments path_join : simpl never.
#[local] Arguments BrowserTests.run_qunit : simpl never.
#[local] Arguments BrowserTests.run_webdriver : simpl never.

(** Evaluate [BrowserTests.execute] along every path of the outcomes. *)
Ltac browser_case_split w :=
  repeat
    (cbn;
     match goal with
     | |- context [BrowserTests.run_qunit w ?s ?h] =>
         let H1 := fresh "Hst" in
         let H2 := fresh "Hev" in
         destruct (run_qunit_quiet w s h) as [H1 H2];
         destruct (BrowserTests.run_qunit w s h) as [[? ?] [[]|?]];
         unfold st_of, tr_of in H1, H2; cbn in H1, H2; subst
     | |- context [BrowserTests.run_webdriver w ?s ?h] =>
         let H1 := fresh "Hst" in
         let H2 := fresh "Hev" in
         destruct (run_webdriver_quiet w s h) as [H1 H2];
         destruct (BrowserTests.run_webdriver w s h) as [[? ?] [[]|?]];
         unfold st_of, tr_of in H1, H2; cbn in H1, H2; subst
     | H : path_exists w _ = _ |- _ => progress rewrite H
     | H : truthy_opt _ = _ |- _ => progress rewrite H
     | |- context [outcome w ?h ?a] => destruct (outcome w h a)
     | |- _ => progress unfold perform
     end).

Lemma BrowserTests_execute_cases (w : World) (self : BrowserTests.t) (h : list Event) :
  let run := BrowserTests.execute w self h in
  let web := DevWebServer (BrowserTests.mw_install_path self) HTTP_PORT in
  let xvfb := Xvfb (Some ":94") in
  (st_of run = self
   /\ (handle_events (tr_of run) = []
       \/ handle_events (tr_of run) = [Acquire web; Release web]
       \/ (truthy_opt (BrowserTests.display self) = true
           /\ wants_selenium w self = true
           /\ handle_events (tr_of run)
              = [Acquire web; Acquire (ChromeWebDriver (BrowserTests.display self));
                 Release (ChromeWebDriver (BrowserTests.display self)); Release web])))
  \/ (truthy_opt (BrowserTests.display self) = false
      /\ wants_selenium w self = true
      /\ st_of run = with_display_94 self
      /\ (handle_events (tr_of run) = [Acquire web; Release web]
          \/ handle_events (tr_of run) = [Acquire web; Acquire xvfb; Release xvfb; Release web]
          \/ handle_events (tr_of run)
             = [Acquire web; Acquire xvfb; Acquire (ChromeWebDriver (Some ":94"));
                Release (ChromeWebDriver (Some ":94")); Release xvfb; Release web])).
Proof.
  cbv zeta. unfold wants_selenium.
  unfold BrowserTests.execute, BrowserTests.selenium_tests, BrowserTests.maybe_xvfb.
  unfold with_, with_ExitStack, enter_context, on_self, bind, get, log,
    BrowserTests.set_display, ret, perform, st_of, tr_of.
  destruct self as [mw qunit selenium display].
  destruct qunit, selenium; cbn;
    destruct (path_exists w (path_join mw "tests/selenium")) eqn:Hexists;
    destruct (truthy_opt display) eqn:Hdisplay.
  all: browser_case_split w.
  all: cbn; rewrite ?handle_events_app; cbn; rewrite ?handle_events_app; cbn;
    repeat match goal with H : handle_events _ = [] |- _ => rewrite H; clear H end; cbn.
  all: try (left; split; [reflexivity|]; first
              [ left; reflexivity
              | right; left; reflexivity
              | right; right; repeat split; reflexivity ]).
  all: try (right; repeat split; first
              [ left; reflexivity
              | right; left; reflexivity
              | right; right; reflexivity ]).
Qed.

#[local] Arguments str_in : simpl never.
#[local] Arguments String.eqb : simpl never.
#[local] Arguments String.append : simpl never.

(** The paths of [InstallMediaWiki.execute]: the factory refuses the
    engine; the database fails to start; or it starts, and nothing that
    follows acquires or releases a service. *)
Lemma InstallMediaWiki_execute_cases (w : World) (s : InstallMediaWiki.state)
    (h : list Event) :
  let run := InstallMediaWiki.execute w s h in
  let self := InstallMediaWiki.self s in
  let engine := InstallMediaWiki.db_engine self in
  let db := db_factory w engine (InstallMediaWiki.db_dir self)
              (InstallMediaWiki.dump_dir self) in
  InstallMediaWiki.self (st_of run) = self
  /\ ((exists e, tr_of run = [(GetDBClass engine, Some e)]
                 /\ res_of run = Raise e
                 /\ InstallMediaWiki.db_backend (st_of run) = InstallMediaWiki.db_backend s)
      \/ (exists e, tr_of run = [(GetDBClass engine, None); (Start (Database db), Some e)]
                    /\ res_of run = Raise e
                    /\ InstallMediaWiki.db_backend (st_of run) = Some db)
      \/ (exists rest,
            tr_of run = (GetDBClass engine, None) :: (Start (Database db), None) :: rest
            /\ (forall running, handles_after rest running = Some running)
            /\ InstallMediaWiki.db_backend (st_of run) = Some db)).
Proof.
  cbv zeta.
  destruct (InstallMediaWiki.execute w s h) as [[s' t] r] eqn:E.
  unfold st_of, tr_of, res_of. cbn [fst snd].
  unfold InstallMediaWiki.execute in E. unfold bind at 1 in E.
  unfold InstallMediaWiki.get_self in E. cbv beta iota in E.
  match type of E with
  | context [bind (perform w (Start ?hd)) ?K] =>
      assert (HKr : forall x, readonly (K x));
      [ | assert (HKs : forall x, scoped (K x)); [ | set (k := K) in *; clearbody k ] ]
  end.
  - intros x. unfold InstallMediaWiki.install_args. follow_structure.
    all: intros s0 h0; reflexivity.
  - intros x. unfold InstallMediaWiki.install_args. follow_structure.
    all: intros s0 h0 running; reflexivity.
  - unfold bind, perform, InstallMediaWiki.set_db_backend in E.
    destruct s as [self cls]. cbn [InstallMediaWiki.self InstallMediaWiki.db_backend] in *.
    destruct (outcome w (h ++ []) _) as [e|] in E; cbn [fst snd app] in E.
    { injection E as <- <- <-. split; [reflexivity|].
      left. exists e. repeat split; reflexivity. }
    match type of E with
    | context [outcome w ?h' ?a] => destruct (outcome w h' a) as [e|]
    end; cbn [fst snd app InstallMediaWiki.self] in E.
    { injection E as <- <- <-. split; [reflexivity|].
      right. left. exists e. repeat split; reflexivity. }
    match type of E with
    | context [k tt ?s0 ?h0] =>
        pose proof (HKr tt s0 h0) as Hst; pose proof (HKs tt s0 h0) as Htr;
        unfold st_of, tr_of in Hst, Htr;
        destruct (k tt s0 h0) as [[s2 t2] r2]
    end.
    cbn [fst snd app] in *. injection E as <- <- <-. subst s2.
    split; [reflexivity|].
    right. right. exists t2. repeat split. exact Htr.
Qed.

(** When the engine is none of the three the step knows, the check of
    lines 340-351 is reached only once the database has been started. *)
Lemma InstallMediaWiki_unsupported_cases (w : World) (s : InstallMediaWiki.state)
    (h : list Event) :
  let run := InstallMediaWiki.execute w s h in
  let self := InstallMediaWiki.self s in
  let engine := InstallMediaWiki.db_engine self in
  let db := db_factory w engine (InstallMediaWiki.db_dir self)
              (InstallMediaWiki.dump_dir self) in
  str_in engine ["sqlite"; "mysql"; "postgres"] = false ->
  (exists e, tr_of run = [(GetDBClass engine, Some e)] /\ res_of run = Raise e)
  \/ (exists e, tr_of run = [(GetDBClass engine, None); (Start (Database db), Some e)]
                /\ res_of run = Raise e)
  \/ (tr_of run = [(GetDBClass engine, None); (Start (Database db), None)]
      /\ res_of run = Raise (Exception ("Unsupported database: " +:+ engine))).
Proof.
  cbv zeta.
  unfold InstallMediaWiki.execute, InstallMediaWiki.install_args,
    InstallMediaWiki.get_self, InstallMediaWiki.set_db_backend.
  unfold bind, log, ret, raise, st_of, tr_of, res_of.
  destruct s as [[mw engine db_dir dump_dir log_dir use_vendor] cls].
  cbn [InstallMediaWiki.self InstallMediaWiki.db_engine InstallMediaWiki.db_dir
       InstallMediaWiki.dump_dir].
  intros Hengine.
  assert (Hsqlite : String.eqb engine "sqlite" = false).
  { unfold str_in in Hengine. cbn [existsb] in Hengine.
    destruct (String.eqb engine "sqlite"); [discriminate | reflexivity]. }
  assert (Hother : str_in engine ["mysql"; "postgres"] = false).
  { unfold str_in in *. cbn [existsb] in *. rewrite Hsqlite in Hengine. exact Hengine. }
  clear Hengine.
  unfold perform. cbn.
  match goal with
  | |- context [outcome w ?h ?a] => destruct (outcome w h a) as [e|]
  end; cbn.
  { left. exists e. split; reflexivity. }
  match goal with
  | |- context [outcome w ?h ?a] => destruct (outcome w h a) as [e|]
  end; cbn.
  { right. left. exists e. split; reflexivity. }
  rewrite Hsqlite, Hother. cbn.
  right. right. split; reflexivity.
Qed.

Lemma run_on_scoped {S} (wrap : S -> Step) (self : S) (cls : option Db)
    (m : M S unit) (h : list Event) (running : list Handle) :
  scoped m -> handles_after (trace (run_on wrap self cls m h)) running = Some running.
Proof.
  intros Hm. specialize (Hm self h running). unfold run_on, tr_of in *.
  destruct (m self h) as [[s' t] r]. exact Hm.
Qed.

Lemma run_on_readonly {S} (wrap : S -> Step) (self : S) (cls : option Db)
    (m : M S unit) (h : list Event) :
  readonly m -> step_after (run_on wrap self cls m h) = wrap self.
Proof.
  intros Hm. specialize (Hm self h). unfold run_on, st_of in *.
  destruct (m self h) as [[s' t] r]. cbn in *. subst s'. reflexivity.
Qed.

(** C1, as stated, fails: after a normal return of
    [InstallMediaWiki.execute] the database handle it started is still
    running, no stop of it was ever attempted; and likewise when [execute]
    raises after the start, here because the installer fails. *)
Lemma install_mediawiki_leaves_database_running :
  let db := example_db "mysql" (Some "/db") (Some "/dump") in
  let o := execute quiet_world (AnInstallMediaWiki (install_with "mysql")) None [] in
  let o' := execute (with_outcome installer_fails quiet_world)
              (AnInstallMediaWiki (install_with "mysql")) None [] in
  (result o = Ok tt
   /\ In (Start (Database db), None) (trace o)
   /\ (forall r, ~ In (Stop (Database db), r) (trace o))
   /\ handles_after (trace o) [] = Some [Database db]
   /\ handles_after (trace o) [] <> Some [])
  /\ (result o' = Raise (CalledProcessError 1 (Argv ["php"; "maintenance/install.php"]))
      /\ In (Start (Database db), None) (trace o')
      /\ (forall r, ~ In (Stop (Database db), r) (trace o'))
      /\ handles_after (trace o') [] = Some [Database db]).
Proof.
  vm_compute. repeat split.
  - right. left. reflexivity.
  - intros r Hin. repeat (destruct Hin as [Hin|Hin]; [discriminate Hin|]). exact Hin.
  - discriminate.
  - right. left. reflexivity.
  - intros r Hin. repeat (destruct Hin as [Hin|Hin]; [discriminate Hin|]). exact Hin.
Qed.

(** C1, amended.  Every step except [InstallMediaWiki] releases, in
    reverse order and on every exit path of [execute()], every service
    handle it started: the handles running afterwards are those running
    before.  [InstallMediaWiki.execute] either fails before its database is
    started, or starts it, keeps it in the class attribute [db_backend] and
    leaves it running, whether it then returns or raises. *)
Theorem services_released_except_database
    (w : World) (st : Step) (cls : option Db) (h : list Event) (running : list Handle) :
  let o := execute w st cls h in
  match st with
  | AnInstallMediaWiki self =>
      let db := db_factory w (InstallMediaWiki.db_engine self)
                  (InstallMediaWiki.db_dir self) (InstallMediaWiki.dump_dir self) in
      (handles_after (trace o) running = Some running
       /\ (exists e, result o = Raise e)
       /\ ~ In (Start (Database db), None) (trace o))
      \/ (handles_after (trace o) running = Some (Database db :: running)
          /\ In (Start (Database db), None) (trace o)
          /\ db_backend_after o = Some db)
  | _ => handles_after (trace o) running = Some running
  end.
Proof.
  cbv zeta.
  destruct st as [self|self|self|self|self|self|self|self|self|self|self|self|self];
    cbn [execute];
    [ apply run_on_scoped, ZuulCloneCommand_scoped
    | apply run_on_scoped, ExtSkinSubmoduleUpdateCommand_scoped
    | apply run_on_scoped, CreateComposerLocal_scoped
    | apply run_on_scoped, ExtSkinComposerNpmTest_scoped
    | apply run_on_scoped, CoreNpmComposerTest_scoped
    | apply run_on_scoped, NativeComposerDependencies_scoped
    | apply run_on_scoped, VendorComposerDependencies_scoped
    | apply run_on_scoped, NpmInstall_scoped
    |
    | apply run_on_scoped, PhpUnitDatabaseless_scoped
    | apply run_on_scoped, PhpUnitDatabase_scoped
    | apply run_on_scoped, BrowserTests_scoped
    | apply run_on_scoped, UserCommands_scoped ].
  pose proof (InstallMediaWiki_execute_cases w
                {| InstallMediaWiki.self := self; InstallMediaWiki.db_backend := cls |} h)
    as [_ Hcases].
  unfold st_of, tr_of, res_of in Hcases.
  destruct (InstallMediaWiki.execute w _ h) as [[s' t] r].
  cbn [trace result db_backend_after fst snd InstallMediaWiki.self] in *.
  destruct Hcases as [(e & -> & -> & _) | [(e & -> & -> & _) | (rest & -> & Hrest & Hdb)]].
  - left. repeat split; [exists e; reflexivity|].
    intros [Hin|[]]. discriminate Hin.
  - left. repeat split; [exists e; reflexivity|].
    intros [Hin|[Hin|[]]]; discriminate Hin.
  - right. repeat split; [|right; left; reflexivity | exact Hdb].
    unfold handles_after in *. cbn [handle_events replay]. apply Hrest.
Qed.



(** With a factory that hands out a class for whatever name it is given,
    as the mock of [tests/test_commands.py] does, the step's own check of
    lines 340-351 is what stops the run, and it comes after the database
    was started. *)
Lemma own_check_comes_after_start :
  let o := execute quiet_world (AnInstallMediaWiki (install_with "oracle")) None [] in
  let db := example_db "oracle" (Some "/db") (Some "/dump") in
  trace o = [(GetDBClass "oracle", None); (Start (Database db), None)]
  /\ result o = Raise (Exception "Unsupported database: oracle")
  /\ handles_after (trace o) [] = Some [Database db].
Proof. vm_compute. repeat split. Qed.

(** C4, as stated, fails: [BrowserTests.execute] assigns [self.display]
    when no display was given, and the description changes with it. *)
Lemma browser_tests_execute_sets_display :
  let w := with_all_paths quiet_world in
  let st := ABrowserTests headless_browser_tests in
  let o := execute w st None [] in
  step_after o = ABrowserTests (with_display_94 headless_browser_tests)
  /\ step_after o <> st
  /\ describe w st = "Browser tests in /tmp: selenium (maybe) using DISPLAY=Xvfb"
  /\ describe w (step_after o) = "Browser tests in /tmp: selenium (maybe) using DISPLAY=:94".
Proof. vm_compute. repeat split. discriminate. Qed.

(** C4, amended.  [execute()] leaves every constructor-captured attribute
    of every step as it was, and with it the description, except that
    [BrowserTests.execute], for a step built without a display and once it
    gets to the selenium part, sets [display] to [":94"] and changes
    nothing else. *)
Theorem execute_preserves_attributes_except_display
    (w : World) (st : Step) (cls : option Db) (h : list Event) :
  let o := execute w st cls h in
  (step_after o = st /\ describe w (step_after o) = describe w st)
  \/ (exists self,
        st = ABrowserTests self
        /\ truthy_opt (BrowserTests.display self) = false
        /\ wants_selenium w self = true
        /\ step_after o = ABrowserTests (with_display_94 self)).
Proof.
  cbv zeta.
  destruct st as [self|self|self|self|self|self|self|self|self|self|self|self|self];
    cbn [execute];
    [ left; split; [|f_equal]; apply run_on_readonly, ZuulCloneCommand_readonly
    | left; split; [|f_equal]; apply run_on_readonly, ExtSkinSubmoduleUpdateCommand_readonly
    | left; split; [|f_equal]; apply run_on_readonly, CreateComposerLocal_readonly
    | left; split; [|f_equal]; apply run_on_readonly, ExtSkinComposerNpmTest_readonly
    | left; split; [|f_equal]; apply run_on_readonly, CoreNpmComposerTest_readonly
    | left; split; [|f_equal]; apply run_on_readonly, NativeComposerDependencies_readonly
    | left; split; [|f_equal]; apply run_on_readonly, VendorComposerDependencies_readonly
    | left; split; [|f_equal]; apply run_on_readonly, NpmInstall_readonly
    |
    | left; split; [|f_equal]; apply run_on_readonly, PhpUnitDatabaseless_readonly
    | left; split; [|f_equal]; apply run_on_readonly, PhpUnitDatabase_readonly
    |
    | left; split; [|f_equal]; apply run_on_readonly, UserCommands_readonly ].
  - pose proof (InstallMediaWiki_execute_cases w
                  {| InstallMediaWiki.self := self; InstallMediaWiki.db_backend := cls |} h)
      as [Hself _].
    unfold st_of in Hself.
    destruct (InstallMediaWiki.execute w _ h) as [[s' t] r].
    cbn [step_after fst snd InstallMediaWiki.self] in *. rewrite Hself.
    left. split; reflexivity.
  - pose proof (BrowserTests_execute_cases w self h) as Hcases. cbv zeta in Hcases.
    unfold run_on, st_of in *.
    destruct (BrowserTests.execute w self h) as [[s' t] r].
    cbn [step_after fst snd] in *.
    destruct Hcases as [[-> _] | (Hdisplay & Hsel & -> & _)].
    + left. split; reflexivity.
    + right. exists self. repeat split; assumption.
Qed.

(** C5.  In [BrowserTests.execute], on every exit path, the handles are
    released in the reverse of the order they were acquired in: the
    browser driver before the virtual display, the virtual display before
    the web server.  The browser driver is acquired only once a display is
    there: the one given at construction, or the virtual display [":94"],
    which is acquired only when none was given. *)
Theorem browser_tests_release_in_reverse_order
    (w : World) (self : BrowserTests.t) (h : list Event) (running : list Handle) :
  let run := BrowserTests.execute w self h in
  let web := DevWebServer (BrowserTests.mw_install_path self) HTTP_PORT in
  let xvfb := Xvfb (Some ":94") in
  let given := ChromeWebDriver (BrowserTests.display self) in
  let virtual := ChromeWebDriver (Some ":94") in
  (handle_events (tr_of run) = []
   \/ handle_events (tr_of run) = [Acquire web; Release web]
   \/ (truthy_opt (BrowserTests.display self) = true
       /\ handle_events (tr_of run)
          = [Acquire web; Acquire given; Release given; Release web])
   \/ (truthy_opt (BrowserTests.display self) = false
       /\ (handle_events (tr_of run) = [Acquire web; Acquire xvfb; Release xvfb; Release web]
           \/ handle_events (tr_of run)
              = [Acquire web; Acquire xvfb; Acquire virtual;
                 Release virtual; Release xvfb; Release web])))
  /\ handles_after (tr_of run) running = Some running.
Proof.
  cbv zeta. split; [|apply BrowserTests_scoped].
  pose proof (BrowserTests_execute_cases w self h) as Hcases. cbv zeta in Hcases.
  destruct Hcases as [[_ [H | [H | (Hd & _ & H)]]] | (Hd & _ & _ & [H | [H | H]])].
  - left. exact H.
  - right. left. exact H.
  - right. right. left. split; assumption.
  - right. left. exact H.
  - right. right. right. split; [exact Hd | left; exact H].
  - right. right. right. split; [exact Hd | right; exact H].
Qed.

(** ** Environments and argument vectors of the spawned commands *)

Lemma dict_update_lookup (d other : Env) (k : string) :
  dict_update d other !! k
  = match other !! k with
    | Some v => Some v
    | None => d !! k
    end.
Proof.
  unfold dict_update. destruct (other !! k) as [v|] eqn:Hk.
  - apply lookup_union_Some_l. exact Hk.
  - apply lookup_union_r. exact Hk.
Qed.

(** C2, as stated, fails for [run_composer_test]: the child process does
    not see the overlay's value of [COMPOSER_PROCESS_TIMEOUT] when the
    ambient environment sets that variable. *)
Lemma composer_timeout_overridden_by_ambient :
  let run := CoreNpmComposerTest.run_composer_test timeout_world core_tests [] in
  exists env,
    calls (tr_of run)
    = [(CheckCall (Argv ["composer"; "test"; "."]) (Some "/tmp") (Some env), None)]
    /\ CoreNpmComposerTest.composer_env_overlay !! "COMPOSER_PROCESS_TIMEOUT" = Some "900"
    /\ env !! "COMPOSER_PROCESS_TIMEOUT" = Some "300"
    /\ env !! "COMPOSER_PROCESS_TIMEOUT"
       <> CoreNpmComposerTest.composer_env_overlay !! "COMPOSER_PROCESS_TIMEOUT".
Proof.
  eexists. split; [vm_compute; reflexivity|].
  split; [reflexivity|]. split; [vm_compute; reflexivity|].
  vm_compute. discriminate.
Qed.

(** C2, amended.  [run_phpunit] spawns its command with the ambient
    environment and [LANG] merged over it: the child sees [LANG=C.UTF-8]
    and the ambient value of every other name.  [run_composer_test] merges
    the other way round: the ambient environment goes over
    [COMPOSER_PROCESS_TIMEOUT=900], so the child sees the ambient value of
    every name the ambient environment sets, [900] for the timeout only
    when the ambient environment does not set it, and nothing else. *)
Theorem spawned_environments
    (w : World) `{AbstractPhpUnit.Self T} (self : T) (group exclude_group : list string)
    (core : CoreNpmComposerTest.t) (h : list Event) :
  let phpunit := AbstractPhpUnit.run_phpunit w group exclude_group self h in
  let composer := CoreNpmComposerTest.run_composer_test w core h in
  (exists env o,
     calls (tr_of phpunit)
     = [(CheckCall (Argv (AbstractPhpUnit.phpunit_cmd self group exclude_group))
           (Some (AbstractPhpUnit.mw_install_path self)) (Some env), o)]
     /\ env !! "LANG" = Some "C.UTF-8"
     /\ (forall k, k <> "LANG" -> env !! k = environ w !! k))
  /\ (calls (tr_of composer) = []
      \/ exists files env o,
           calls (tr_of composer)
           = [(CheckCall (Argv ("composer" :: "test" :: files))
                 (Some (CoreNpmComposerTest.mw_install_path core)) (Some env), o)]
           /\ (forall k v, environ w !! k = Some v -> env !! k = Some v)
           /\ (environ w !! "COMPOSER_PROCESS_TIMEOUT" = None ->
               env !! "COMPOSER_PROCESS_TIMEOUT" = Some "900")
           /\ (forall k, k <> "COMPOSER_PROCESS_TIMEOUT" ->
                         environ w !! k = None -> env !! k = None)).
Proof.
  cbv zeta. split.
  - assert (Hcall : exists o,
              calls (tr_of (AbstractPhpUnit.run_phpunit w group exclude_group self h))
              = [(CheckCall (Argv (AbstractPhpUnit.phpunit_cmd self group exclude_group))
                    (Some (AbstractPhpUnit.mw_install_path self))
                    (Some (AbstractPhpUnit.phpunit_env w)), o)]).
    { unfold AbstractPhpUnit.run_phpunit, bind, get, log, check_call, perform, tr_of.
      cbn [fst snd]. case_outcome w; eexists; reflexivity. }
    destruct Hcall as [o Ho].
    exists (AbstractPhpUnit.phpunit_env w), o. split; [exact Ho|].
    unfold AbstractPhpUnit.phpunit_env, AbstractPhpUnit.phpunit_env_overlay. cbv zeta.
    split.
    + rewrite dict_update_lookup, lookup_singleton. reflexivity.
    + intros k Hk.
      rewrite !dict_update_lookup, lookup_singleton_ne, lookup_empty by congruence.
      destruct (environ w !! k); reflexivity.
  - assert (Henv :
      let env := dict_update CoreNpmComposerTest.composer_env_overlay (environ w) in
      (forall k v, environ w !! k = Some v -> env !! k = Some v)
      /\ (environ w !! "COMPOSER_PROCESS_TIMEOUT" = None ->
          env !! "COMPOSER_PROCESS_TIMEOUT" = Some "900")
      /\ (forall k, k <> "COMPOSER_PROCESS_TIMEOUT" ->
                    environ w !! k = None -> env !! k = None)).
    { cbv zeta. unfold CoreNpmComposerTest.composer_env_overlay. repeat split.
      - intros k v Hk. rewrite dict_update_lookup, Hk. reflexivity.
      - intros Hk. rewrite dict_update_lookup, Hk, lookup_singleton. reflexivity.
      - intros k Hne Hk.
        rewrite dict_update_lookup, Hk, lookup_singleton_ne by congruence. reflexivity. }
    unfold CoreNpmComposerTest.run_composer_test, bind, get, log, ret, check_call,
      perform, tr_of. cbn [fst snd]. cbv zeta.
    destruct (str_in "composer.json" _ || str_in ".phpcs.xml" _)%bool; cbn [fst snd].
    + cbn [truthy_list negb fst snd].
      case_outcome w; right; eexists ["."], _, _; (split; [reflexivity | exact Henv]).
    + destruct (changedFiles w _ _) as [|f files]; cbn [truthy_list negb fst snd];
        [left; reflexivity|].
      case_outcome w; right; eexists (f :: files), _, _; (split; [reflexivity | exact Henv]).
Qed.

(** C6.  [run_composer_test] is gated on the changed files.  When
    [composer.json] or [.phpcs.xml] changed, the composer test command is
    spawned on ["."].  Otherwise, when no php, php5, inc or sample file
    changed either, nothing is spawned, the skip is logged and the call
    returns; when some did, the command is spawned on them. *)
Theorem composer_test_gated_on_changes
    (w : World) (self : CoreNpmComposerTest.t) (h : list Event) :
  let mw := CoreNpmComposerTest.mw_install_path self in
  let changed := changedFiles w [] mw in
  let sources := changedFiles w ["php"; "php5"; "inc"; "sample"] mw in
  let env := dict_update CoreNpmComposerTest.composer_env_overlay (environ w) in
  let run := CoreNpmComposerTest.run_composer_test w self h in
  if (str_in "composer.json" changed || str_in ".phpcs.xml" changed)%bool then
    exists o,
      calls (tr_of run) = [(CheckCall (Argv ["composer"; "test"; "."]) (Some mw) (Some env), o)]
  else
    match sources with
    | [] =>
        run = (self, [(Log INFO "Skipping composer test (unneeded)", None)], Ok tt)
        /\ calls (tr_of run) = []
    | _ =>
        exists o,
          calls (tr_of run)
          = [(CheckCall (Argv (["composer"; "test"] ++ sources)) (Some mw) (Some env), o)]
    end.
Proof.
  cbv zeta.
  unfold CoreNpmComposerTest.run_composer_test, bind, get, log, ret, check_call,
    perform, tr_of. cbn [fst snd]. cbv zeta.
  destruct (str_in "composer.json" _ || str_in ".phpcs.xml" _)%bool;
    cbn [truthy_list negb fst snd].
  - case_outcome w; eexists; reflexivity.
  - destruct (changedFiles w _ _) as [|f files]; cbn [truthy_list negb fst snd].
    + split; reflexivity.
    + case_outcome w; eexists; reflexivity.
Qed.

Lemma join_always_excluded (exclude_group : list string) :
  join "," (AbstractPhpUnit.always_excluded ++ exclude_group)
  = "Broken,ParserFuzz,Stub"
    +:+ match exclude_group with
        | [] => ""
        | _ => "," +:+ join "," exclude_group
        end.
Proof. destruct exclude_group; reflexivity. Qed.

Lemma always_excluded_in_value (exclude_group : list string) :
  Forall (fun g => In g (split_commas (join "," (AbstractPhpUnit.always_excluded ++ exclude_group))))
         AbstractPhpUnit.always_excluded.
Proof.
  rewrite join_always_excluded.
  destruct exclude_group as [|g rest].
  - vm_compute. repeat (apply List.Forall_cons; [auto 6|]). apply List.Forall_nil.
  - remember (join "," (g :: rest)) as tail_value.
    cbv -[In]. repeat (apply List.Forall_cons; [simpl; auto 6|]). apply List.Forall_nil.
Qed.

Lemma phpunit_cmd_shape `{AbstractPhpUnit.Self T} (self : T) (group exclude_group : list string) :
  AbstractPhpUnit.phpunit_cmd self group exclude_group
  = (["php"; "tests/phpunit/phpunit.php"; "--debug-tests"]
     ++ (if truthy_opt (AbstractPhpUnit.testsuite self)
         then ["--testsuite"; default "" (AbstractPhpUnit.testsuite self)] else [])
     ++ (if truthy_list group then ["--group"; join "," group] else []))
    ++ ["--exclude-group"; join "," (AbstractPhpUnit.always_excluded ++ exclude_group)]
    ++ (if truthy_str (AbstractPhpUnit.junit_file self)
        then ["--log-junit"; AbstractPhpUnit.junit_file self] else []).
Proof.
  unfold AbstractPhpUnit.phpunit_cmd. cbv zeta.
  destruct (truthy_opt _), (truthy_list group), (truthy_str _);
    rewrite ?app_nil_r, <- ?app_assoc; reflexivity.
Qed.

Lemma run_phpunit_calls (w : World) `{AbstractPhpUnit.Self T} (self : T)
    (group exclude_group : list string) (h : list Event) :
  exists o,
    calls (tr_of (AbstractPhpUnit.run_phpunit w group exclude_group self h))
    = [(CheckCall (Argv (AbstractPhpUnit.phpunit_cmd self group exclude_group))
          (Some (AbstractPhpUnit.mw_install_path self))
          (Some (AbstractPhpUnit.phpunit_env w)), o)].
Proof.
  unfold AbstractPhpUnit.run_phpunit, bind, get, log, check_call, perform, tr_of.
  cbn [fst snd]. case_outcome w; eexists; reflexivity.
Qed.

(** C8.  The command spawned by [run_phpunit] always carries
    [--exclude-group] followed by a value that lists [Broken],
    [ParserFuzz] and [Stub], whatever [group] and [exclude_group] are; the
    run without database excludes [Database] as well, the run with
    database selects the group [Database] and still excludes the three. *)
Theorem phpunit_always_excludes_broken_groups
    (w : World) `{AbstractPhpUnit.Self T} (self : T) (group exclude_group : list string)
    (dbless : PhpUnitDatabaseless.t) (db : PhpUnitDatabase.t) (h : list Event) :
  let value := join "," (AbstractPhpUnit.always_excluded ++ exclude_group) in
  (exists pre post o,
     calls (tr_of (AbstractPhpUnit.run_phpunit w group exclude_group self h))
     = [(CheckCall (Argv (pre ++ ["--exclude-group"; value] ++ post))
           (Some (AbstractPhpUnit.mw_install_path self))
           (Some (AbstractPhpUnit.phpunit_env w)), o)])
  /\ Forall (fun g => In g (split_commas value)) ["Broken"; "ParserFuzz"; "Stub"]
  /\ (exists pre post o,
        calls (tr_of (PhpUnitDatabaseless.execute w dbless h))
        = [(CheckCall
              (Argv (pre ++ ["--exclude-group"; "Broken,ParserFuzz,Stub,Database"] ++ post))
              (Some (PhpUnitDatabaseless.mw_install_path dbless))
              (Some (AbstractPhpUnit.phpunit_env w)), o)])
  /\ (exists pre post o,
        calls (tr_of (PhpUnitDatabase.execute w db h))
        = [(CheckCall
              (Argv (pre ++ ["--group"; "Database";
                             "--exclude-group"; "Broken,ParserFuzz,Stub"] ++ post))
              (Some (PhpUnitDatabase.mw_install_path db))
              (Some (AbstractPhpUnit.phpunit_env w)), o)]).
Proof.
  cbv zeta. repeat split.
  - destruct (run_phpunit_calls w self group exclude_group h) as [o Ho].
    rewrite phpunit_cmd_shape in Ho. eexists _, _, o. exact Ho.
  - apply always_excluded_in_value.
  - destruct (run_phpunit_calls w dbless [] ["Database"] h) as [o Ho].
    rewrite phpunit_cmd_shape in Ho. eexists _, _, o. exact Ho.
  - destruct (run_phpunit_calls w db ["Database"] [] h) as [o Ho].
    rewrite phpunit_cmd_shape in Ho.
    exists (["php"; "tests/phpunit/phpunit.php"; "--debug-tests"]
            ++ (if truthy_opt (PhpUnitDatabase.testsuite db)
                then ["--testsuite"; default "" (PhpUnitDatabase.testsuite db)] else [])).
    eexists _, o. unfold PhpUnitDatabase.execute. rewrite Ho.
    cbn [truthy_list]. rewrite <- !app_assoc. reflexivity.
Qed.

(** ** Events a computation can emit *)

Section AllEvents.
Context (w : World) (P : Event -> Prop).

Lemma all_events_ret {S A} (a : A) : all_events P (ret (S:=S) a).
Proof. intros s h. constructor. Qed.

Lemma all_events_get {S} : all_events P (get (S:=S)).
Proof. intros s h. constructor. Qed.

Lemma all_events_log {S} lvl msg :
  P (Log lvl msg, None) -> all_events P (log (S:=S) lvl msg).
Proof. intros HP s h. repeat constructor. exact HP. Qed.

Lemma all_events_perform {S} a :
  (forall o, P (a, o)) -> all_events P (perform (S:=S) w a).
Proof.
  intros HP s h. unfold perform, tr_of.
  destruct (outcome w h a); repeat constructor; apply HP.
Qed.

Lemma all_events_bind {S A B} (m : M S A) (k : A -> M S B) :
  all_events P m -> (forall a, all_events P (k a)) -> all_events P (bind m k).
Proof.
  intros Hm Hk s h. specialize (Hm s h). unfold bind, tr_of in *.
  destruct (m s h) as [[s1 t1] [a|e]]; cbn [fst snd] in *; [|exact Hm].
  specialize (Hk a s1 (h ++ t1)). unfold tr_of in Hk.
  destruct (k a s1 (h ++ t1)) as [[s2 t2] r]. cbn [fst snd] in *.
  apply Forall_app. split; assumption.
Qed.

Lemma all_events_for_each {S A} (l : list A) (body : A -> M S unit) :
  (forall x, In x l -> all_events P (body x)) -> all_events P (for_each l body).
Proof.
  induction l as [|x rest IH]; intros Hb; [apply all_events_ret|].
  rewrite for_each_cons. apply all_events_bind.
  - apply Hb. left. reflexivity.
  - intros _. apply IH. intros y Hy. apply Hb. right. exact Hy.
Qed.

Lemma all_events_parallel_run {S} (tasks : list (M S unit)) :
  Forall (all_events P) tasks -> all_events P (parallel_run tasks).
Proof.
  induction 1 as [|t rest Ht _ IH]; [apply all_events_ret|].
  intros s h. specialize (Ht s h). cbn [parallel_run]. unfold tr_of in *.
  destruct (t s h) as [[s1 t1] r1]; cbn [fst snd] in *.
  specialize (IH s1 (h ++ t1)). unfold tr_of in IH.
  destruct (parallel_run rest s1 (h ++ t1)) as [[s2 t2] r2]. cbn [fst snd] in *.
  apply Forall_app. split; assumption.
Qed.
End AllEvents.

Lemma extskin_tasks_not_git_clean (w : World) (self : ExtSkinComposerNpmTest.t) :
  Forall (all_events not_git_clean) (ExtSkinComposerNpmTest.tasks w self).
Proof.
  assert (Hlog : forall lvl msg, not_git_clean (Log lvl msg, None))
    by (intros lvl msg cwd env; discriminate).
  unfold ExtSkinComposerNpmTest.tasks.
  apply Forall_app. split.
  - destruct (ExtSkinComposerNpmTest.composer self); constructor; [|constructor].
    unfold ExtSkinComposerNpmTest.run_extskin_composer.
    apply all_events_bind; [apply all_events_get | intros s0].
    destruct (negb _); [apply all_events_log, Hlog|].
    apply all_events_bind; [apply all_events_log, Hlog | intros _].
    apply all_events_for_each. intros cmd Hcmd. apply all_events_perform.
    intros o cwd env Heq. injection Heq as -> _ _.
    cbv in Hcmd. intuition discriminate.
  - destruct (ExtSkinComposerNpmTest.npm self); constructor; [|constructor].
    unfold ExtSkinComposerNpmTest.run_extskin_npm.
    apply all_events_bind; [apply all_events_get | intros s0].
    destruct (negb _); [apply all_events_log, Hlog|].
    apply all_events_bind; [apply all_events_log, Hlog | intros _].
    apply all_events_for_each. intros cmd Hcmd. apply all_events_perform.
    intros o cwd env Heq. injection Heq as -> _ _.
    cbv in Hcmd. intuition discriminate.
Qed.

Lemma filter_none {A} (P : A -> Prop) `{forall x, Decision (P x)} (l : list A) :
  Forall (fun x => ~ P x) l -> filter P l = [].
Proof.
  induction 1 as [|x l Hx _ IH]; [reflexivity|].
  rewrite filter_cons_False by exact Hx. exact IH.
Qed.

(** C10, as stated, fails: when a task of the batch fails, the batch has
    completed and [git clean] is not run. *)
Lemma git_clean_not_run_after_failed_task :
  let run := ExtSkinComposerNpmTest.execute commands_fail extskin_tests [] in
  calls (tr_of run)
  = [(CheckCall (Argv ["composer"; "--ansi"; "validate"; "--no-check-publish"])
        (Some "/tmp") None,
      Some (CalledProcessError 1
              (Argv ["composer"; "--ansi"; "validate"; "--no-check-publish"])));
     (CheckCall (Argv ["npm"; "prune"]) (Some "/tmp") None,
      Some (CalledProcessError 1 (Argv ["npm"; "prune"])))]
  /\ res_of run
     = Raise (CalledProcessError 1
                (Argv ["composer"; "--ansi"; "validate"; "--no-check-publish"]))
  /\ filter (fun ev => fst ev = CheckCall (Argv ["git"; "clean"; "-xqdf"]) (Some "/tmp") None)
            (tr_of run) = [].
Proof. vm_compute. repeat split. Qed.

(** C10, amended.  When the batch of tasks completes without a failure,
    [execute] logs and runs [git clean -xqdf] in the target directory: it
    is the last thing done and the only [git clean] of the run, whatever
    the composer and npm flags.  When a task of the batch failed,
    [execute] ends as the batch did, and [git clean] is not run.  With
    both flags off the batch is empty and [git clean] is the only command
    spawned. *)
Theorem git_clean_runs_once_after_batch
    (w : World) (self : ExtSkinComposerNpmTest.t) (h : list Event) :
  let dir := ExtSkinComposerNpmTest.directory self in
  let clean := CheckCall (Argv ["git"; "clean"; "-xqdf"]) (Some dir) None in
  let batch := parallel_run (ExtSkinComposerNpmTest.tasks w self) self h in
  let run := ExtSkinComposerNpmTest.execute w self h in
  let neither := {| ExtSkinComposerNpmTest.directory := dir;
                    ExtSkinComposerNpmTest.composer := false;
                    ExtSkinComposerNpmTest.npm := false |} in
  match res_of batch with
  | Ok _ =>
      exists o,
        tr_of run = tr_of batch ++ [(Log INFO (dir +:+ ": git clean -xqdf"), None); (clean, o)]
        /\ length (filter (fun ev => fst ev = clean) (tr_of run)) = 1
  | Raise e =>
      run = batch
      /\ filter (fun ev => fst ev = clean) (tr_of run) = []
  end
  /\ ExtSkinComposerNpmTest.tasks w neither = []
  /\ (exists o, calls (tr_of (ExtSkinComposerNpmTest.execute w neither h)) = [(clean, o)]).
Proof.
  cbv zeta. split; [|split; [reflexivity|]].
  - pose proof (all_events_parallel_run not_git_clean _
                  (extskin_tasks_not_git_clean w self) self h) as Hnone.
    pose proof (readonly_parallel_run (ExtSkinComposerNpmTest.tasks w self)) as Hro.
    assert (Hself : st_of (parallel_run (ExtSkinComposerNpmTest.tasks w self) self h) = self).
    { apply Hro. unfold ExtSkinComposerNpmTest.tasks,
        ExtSkinComposerNpmTest.run_extskin_composer, ExtSkinComposerNpmTest.run_extskin_npm.
      follow_structure. }
    set (clean := CheckCall (Argv ["git"; "clean"; "-xqdf"])
                    (Some (ExtSkinComposerNpmTest.directory self)) None).
    assert (Hclean : filter (fun ev : Event => fst ev = clean)
                       (tr_of (parallel_run (ExtSkinComposerNpmTest.tasks w self) self h))
                     = []).
    { apply filter_none. eapply Forall_impl; [exact Hnone|]. intros ev Hev. apply Hev. }
    unfold ExtSkinComposerNpmTest.execute, bind, get, log, check_call, perform.
    unfold st_of, tr_of, res_of in *. cbn [fst snd]. rewrite (app_nil_r h).
    destruct (parallel_run _ self _) as [[s1 t1] [[]|e]]; cbn [fst snd] in *; subst s1.
    + cbn [fst snd app].
      assert (Hcount : forall o,
                length (filter (fun ev : Event => fst ev = clean)
                          (t1 ++ (Log INFO (ExtSkinComposerNpmTest.directory self
                                            +:+ ": git clean -xqdf"), None)
                              :: [(clean, o)])) = 1).
      { intros o. rewrite filter_app, Hclean.
        rewrite filter_cons_False by (cbn; discriminate).
        rewrite filter_cons_True by reflexivity. reflexivity. }
      case_outcome w; cbn [fst snd app]; eexists; (split; [reflexivity | apply Hcount]).
    + split; [reflexivity | exact Hclean].
  - unfold ExtSkinComposerNpmTest.execute, bind, get, log, check_call, perform, tr_of.
    cbn. case_outcome w; eexists; reflexivity.
Qed.

(** ** The tasks of the extension and skin tests, one at a time *)

Lemma run_extskin_composer_missing (w : World) (self : ExtSkinComposerNpmTest.t) h :
  path_exists w (path_join (ExtSkinComposerNpmTest.directory self) "composer.json") = false ->
  ExtSkinComposerNpmTest.run_extskin_composer w self h
  = (self, [(Log WARNING (basename (ExtSkinComposerNpmTest.directory self)
                          +:+ " lacks a composer.json"), None)], Ok tt).
Proof.
  intros Hmissing.
  unfold ExtSkinComposerNpmTest.run_extskin_composer. rewrite bind_get, Hmissing.
  reflexivity.
Qed.

Lemma run_extskin_npm_missing (w : World) (self : ExtSkinComposerNpmTest.t) h :
  path_exists w (path_join (ExtSkinComposerNpmTest.directory self) "package.json") = false ->
  ExtSkinComposerNpmTest.run_extskin_npm w self h
  = (self, [(Log WARNING (basename (ExtSkinComposerNpmTest.directory self)
                          +:+ " lacks a package.json"), None)], Ok tt).
Proof.
  intros Hmissing.
  unfold ExtSkinComposerNpmTest.run_extskin_npm. rewrite bind_get, Hmissing.
  reflexivity.
Qed.

Lemma run_extskin_composer_present (w : World) (self : ExtSkinComposerNpmTest.t) h :
  let dir := ExtSkinComposerNpmTest.directory self in
  let run := ExtSkinComposerNpmTest.run_extskin_composer w self h in
  path_exists w (path_join dir "composer.json") = true ->
  follows_script (cmds_in dir ExtSkinComposerNpmTest.composer_cmds) (tr_of run) (res_of run)
  /\ st_of run = self.
Proof.
  cbv zeta. intros Hexists. split.
  - unfold ExtSkinComposerNpmTest.run_extskin_composer.
    rewrite bind_get, Hexists. cbn [negb].
    exact (scripted_bind _ _ [] _ (scripted_log _ _)
             (fun _ => scripted_cmds_in w _ _) self h).
  - unfold ExtSkinComposerNpmTest.run_extskin_composer. follow_structure.
Qed.

Lemma run_extskin_npm_present (w : World) (self : ExtSkinComposerNpmTest.t) h :
  let dir := ExtSkinComposerNpmTest.directory self in
  let run := ExtSkinComposerNpmTest.run_extskin_npm w self h in
  path_exists w (path_join dir "package.json") = true ->
  follows_script (cmds_in dir ExtSkinComposerNpmTest.npm_cmds) (tr_of run) (res_of run)
  /\ st_of run = self.
Proof.
  cbv zeta. intros Hexists. split.
  - unfold ExtSkinComposerNpmTest.run_extskin_npm.
    rewrite bind_get, Hexists. cbn [negb].
    exact (scripted_bind _ _ [] _ (scripted_log _ _)
             (fun _ => scripted_cmds_in w _ _) self h).
  - unfold ExtSkinComposerNpmTest.run_extskin_npm. follow_structure.
Qed.

Lemma parallel_run_cons {S} (t : M S unit) (rest : list (M S unit)) (s : S) (h : list Event) :
  parallel_run (t :: rest) s h
  = (st_of (parallel_run rest (st_of (t s h)) (h ++ tr_of (t s h))),
     tr_of (t s h) ++ tr_of (parallel_run rest (st_of (t s h)) (h ++ tr_of (t s h))),
     match res_of (t s h) with
     | Raise e => Raise e
     | Ok _ => res_of (parallel_run rest (st_of (t s h)) (h ++ tr_of (t s h)))
     end).
Proof.
  cbn [parallel_run]. unfold st_of, tr_of, res_of.
  destruct (t s h) as [[s1 t1] r1]. cbn [fst snd].
  destruct (parallel_run rest s1 (h ++ t1)) as [[s2 t2] r2]. reflexivity.
Qed.

Lemma follows_script_log_l {A} (L : list Action) lvl msg (t : list Event) (r : Res A) :
  follows_script L t r -> follows_script L ((Log lvl msg, None) :: t) r.
Proof. destruct r; exact (fun H => H). Qed.

Lemma follows_script_log_r {A} (L : list Action) lvl msg (t : list Event) (r : Res A) :
  follows_script L t r -> follows_script L (t ++ [(Log lvl msg, None)]) r.
Proof.
  destruct r; cbn [follows_script]; rewrite calls_app; cbn; rewrite app_nil_r;
    exact (fun H => H).
Qed.

(** A batch in which a manifest is missing: the task without its manifest
    contributes no command and no failure. *)
Lemma batch_with_missing_manifest (w : World) (self : ExtSkinComposerNpmTest.t) h :
  let dir := ExtSkinComposerNpmTest.directory self in
  let has_composer := path_exists w (path_join dir "composer.json") in
  let has_npm := path_exists w (path_join dir "package.json") in
  let script :=
    (if (ExtSkinComposerNpmTest.composer self && has_composer)%bool
     then cmds_in dir ExtSkinComposerNpmTest.composer_cmds else [])
    ++ (if (ExtSkinComposerNpmTest.npm self && has_npm)%bool
        then cmds_in dir ExtSkinComposerNpmTest.npm_cmds else []) in
  let batch := parallel_run (ExtSkinComposerNpmTest.tasks w self) self h in
  has_composer = false \/ has_npm = false ->
  follows_script script (tr_of batch) (res_of batch) /\ st_of batch = self.
Proof.
  cbv zeta. intros Hone.
  unfold ExtSkinComposerNpmTest.tasks.
  destruct (ExtSkinComposerNpmTest.composer self), (ExtSkinComposerNpmTest.npm self);
    cbn [app andb];
    destruct (path_exists w (path_join _ "composer.json")) eqn:Hc;
    destruct (path_exists w (path_join _ "package.json")) eqn:Hn;
    try (destruct Hone as [Hone|Hone]; discriminate Hone); clear Hone.
  all: rewrite ?parallel_run_cons.
  all: rewrite ?(run_extskin_composer_missing w self _ Hc).
  all: project_triples.
  all: rewrite ?(run_extskin_npm_missing w self _ Hn).
  all: project_triples.
  all: try (split; reflexivity).
  all: cbn [parallel_run ret app]; project_triples; rewrite ?app_nil_r.
  all: repeat match goal with
       | Hc : _ = true
         |- context [ExtSkinComposerNpmTest.run_extskin_composer ?w0 ?s0 ?h0] =>
           let Hs := fresh "Hs" in
           let Hst := fresh "Hst" in
           destruct (run_extskin_composer_present w0 s0 h0 Hc) as [Hs Hst];
           rewrite ?Hst;
           destruct (ExtSkinComposerNpmTest.run_extskin_composer w0 s0 h0) as [[? ?] [[]|?]]
       | Hn : _ = true
         |- context [ExtSkinComposerNpmTest.run_extskin_npm ?w0 ?s0 ?h0] =>
           let Hs := fresh "Hs" in
           let Hst := fresh "Hst" in
           destruct (run_extskin_npm_present w0 s0 h0 Hn) as [Hs Hst];
           rewrite ?Hst;
           destruct (ExtSkinComposerNpmTest.run_extskin_npm w0 s0 h0) as [[? ?] [[]|?]]
       end.
  all: unfold st_of, tr_of, res_of in *; cbn [fst snd] in *; subst.
  all: rewrite ?(run_extskin_npm_missing w self _ Hn).
  all: cbn [fst snd app]; rewrite ?app_nil_r.
  all: split; [|reflexivity].
  all: first [ exact Hs
             | apply follows_script_log_l; exact Hs
             | apply follows_script_log_r; exact Hs ].
Qed.

Lemma follows_script_bind {S A B} (m : M S A) (k : A -> M S B) (s : S) (h : list Event)
    (L1 L2 : list Action) :
  follows_script L1 (tr_of (m s h)) (res_of (m s h)) ->
  (forall a, scripted (k a) L2) ->
  follows_script (L1 ++ L2) (tr_of (bind m k s h)) (res_of (bind m k s h)).
Proof.
  intros Hm Hk. unfold bind, tr_of, res_of in *.
  destruct (m s h) as [[s1 t1] [a|e]]; simpl in *.
  - specialize (Hk a s1 (h ++ t1)). unfold tr_of, res_of in Hk.
    destruct (k a s1 (h ++ t1)) as [[s2 t2] [b|e]]; simpl in *.
    + rewrite calls_app, ok_events_app, Hm, Hk. reflexivity.
    + destruct Hk as (done & next & rest & HL & Hc).
      exists (L1 ++ done), next, rest. split.
      * rewrite HL, app_assoc. reflexivity.
      * rewrite calls_app, ok_events_app, Hm, Hc, app_assoc. reflexivity.
  - destruct Hm as (done & next & rest & HL & Hc).
    exists done, next, (rest ++ L2). split; [|exact Hc].
    rewrite HL, <- app_assoc. reflexivity.
Qed.

(** A run that follows a script fails only when one of its commands
    failed. *)
Lemma follows_script_normal (L : list Action) (t : list Event) (r : Res unit) :
  follows_script L t r ->
  (forall ev, In ev (calls t) -> snd ev = None) ->
  r = Ok tt.
Proof.
  destruct r as [[]|e]; [reflexivity|].
  intros (done & next & rest & _ & Hc) Hnone.
  specialize (Hnone (next, Some e)). rewrite Hc in Hnone.
  discriminate Hnone. apply in_or_app. right. left. reflexivity.
Qed.

(** C9.  A missing manifest is not a failure.  Without [composer.json],
    [run_extskin_composer] logs a warning and returns, having spawned
    nothing; likewise [run_extskin_npm] without [package.json].  When one
    of the two is missing, [execute] spawns the commands of the other
    task, if it was asked for and has its manifest, and then [git clean]:
    it returns normally unless one of these commands fails.  When both are
    missing, [git clean] is the only command. *)
Theorem missing_manifest_is_not_a_failure
    (w : World) (self : ExtSkinComposerNpmTest.t) (h : list Event) :
  let dir := ExtSkinComposerNpmTest.directory self in
  let clean := CheckCall (Argv ["git"; "clean"; "-xqdf"]) (Some dir) None in
  let has_composer := path_exists w (path_join dir "composer.json") in
  let has_npm := path_exists w (path_join dir "package.json") in
  let remaining :=
    (if (ExtSkinComposerNpmTest.composer self && has_composer)%bool
     then cmds_in dir
            [ ["composer"; "--ansi"; "validate"; "--no-check-publish"];
              ["composer"; "--ansi"; "install"; "--no-progress"; "--prefer-dist";
               "--profile"; "-v"];
              ["composer"; "--ansi"; "test"] ]
     else [])
    ++ (if (ExtSkinComposerNpmTest.npm self && has_npm)%bool
        then cmds_in dir
               [ ["npm"; "prune"]; ["npm"; "install"; "--no-progress"]; ["npm"; "test"] ]
        else []) in
  let run := ExtSkinComposerNpmTest.execute w self h in
  (has_composer = false ->
   ExtSkinComposerNpmTest.run_extskin_composer w self h
   = (self, [(Log WARNING (basename dir +:+ " lacks a composer.json"), None)], Ok tt))
  /\ (has_npm = false ->
      ExtSkinComposerNpmTest.run_extskin_npm w self h
      = (self, [(Log WARNING (basename dir +:+ " lacks a package.json"), None)], Ok tt))
  /\ (has_composer = false \/ has_npm = false ->
      follows_script (remaining ++ [clean]) (tr_of run) (res_of run)
      /\ ((forall ev, In ev (calls (tr_of run)) -> snd ev = None) -> res_of run = Ok tt))
  /\ (has_composer = false ->
      has_npm = false ->
      exists o,
        calls (tr_of run) = [(clean, o)]
        /\ res_of run = match o with
                        | None => Ok tt
                        | Some e => Raise e
                        end).
Proof.
  cbv zeta.
  assert (Hscript :
    path_exists w (path_join (ExtSkinComposerNpmTest.directory self) "composer.json") = false
    \/ path_exists w (path_join (ExtSkinComposerNpmTest.directory self) "package.json") = false ->
    follows_script
      (((if (ExtSkinComposerNpmTest.composer self
             && path_exists w (path_join (ExtSkinComposerNpmTest.directory self)
                                 "composer.json"))%bool
         then cmds_in (ExtSkinComposerNpmTest.directory self)
                ExtSkinComposerNpmTest.composer_cmds
         else [])
        ++ (if (ExtSkinComposerNpmTest.npm self
                && path_exists w (path_join (ExtSkinComposerNpmTest.directory self)
                                    "package.json"))%bool
            then cmds_in (ExtSkinComposerNpmTest.directory self)
                   ExtSkinComposerNpmTest.npm_cmds
            else []))
       ++ [CheckCall (Argv ["git"; "clean"; "-xqdf"])
             (Some (ExtSkinComposerNpmTest.directory self)) None])
      (tr_of (ExtSkinComposerNpmTest.execute w self h))
      (res_of (ExtSkinComposerNpmTest.execute w self h))).
  { intros Hone.
    destruct (batch_with_missing_manifest w self h Hone) as [Hbatch _].
    unfold ExtSkinComposerNpmTest.execute. rewrite bind_get.
    apply follows_script_bind; [exact Hbatch|]. intros _.
    exact (scripted_bind _ _ [] [_] (scripted_log _ _)
             (fun _ => scripted_check_call w _ _ _)). }
  split; [apply run_extskin_composer_missing|].
  split; [apply run_extskin_npm_missing|].
  split.
  - intros Hone. split; [exact (Hscript Hone)|].
    apply (follows_script_normal _ _ _ (Hscript Hone)).
  - intros Hcomposer Hnpm.
    unfold ExtSkinComposerNpmTest.execute, ExtSkinComposerNpmTest.tasks,
      ExtSkinComposerNpmTest.run_extskin_composer, ExtSkinComposerNpmTest.run_extskin_npm.
    unfold bind, get, log, ret, check_call, perform, tr_of, res_of.
    destruct self as [dir composer npm].
    cbn [ExtSkinComposerNpmTest.directory ExtSkinComposerNpmTest.composer
         ExtSkinComposerNpmTest.npm] in *.
    destruct composer, npm;
      repeat (progress (cbn [ExtSkinComposerNpmTest.directory negb app fst snd
                             parallel_run ret];
                        rewrite ?Hcomposer, ?Hnpm));
      case_outcome w; eexists; split; reflexivity.
Qed.

(** The same in a world where no path exists, as in [test_execute_none]. *)
Lemma missing_manifest_is_not_a_failure_witness :
  ExtSkinComposerNpmTest.run_extskin_composer quiet_world extskin_tests []
  = (extskin_tests, [(Log WARNING "tmp lacks a composer.json", None)], Ok tt)
  /\ ExtSkinComposerNpmTest.run_extskin_npm quiet_world extskin_tests []
     = (extskin_tests, [(Log WARNING "tmp lacks a package.json", None)], Ok tt)
  /\ res_of (ExtSkinComposerNpmTest.execute quiet_world extskin_tests []) = Ok tt
  /\ exists o,
       calls (tr_of (ExtSkinComposerNpmTest.execute quiet_world extskin_tests []))
       = [(CheckCall (Argv ["git"; "clean"; "-xqdf"]) (Some "/tmp") None, o)]
       /\ res_of (ExtSkinComposerNpmTest.execute quiet_world extskin_tests [])
          = match o with
            | None => Ok tt
            | Some e => Raise e
            end.
Proof.
  destruct (missing_manifest_is_not_a_failure quiet_world extskin_tests [])
    as (Hcomposer & Hnpm & Hone & Hexecute).
  split; [exact (Hcomposer eq_refl)|].
  split; [exact (Hnpm eq_refl)|].
  split; [|exact (Hexecute eq_refl eq_refl)].
  apply (Hone (or_introl eq_refl)).
  intros ev [<-|[]]. reflexivity.
Defined.


(** ** The scenarios of [tests/test_commands.py] *)

Example test_submodule_update_errors :
  let w := with_outcome git_something_fails (with_dir_tree walk_extensions quiet_world) in
  let run := ExtSkinSubmoduleUpdateCommand.execute w submodule_update [] in
  calls (tr_of run)
  = [(CheckCall (Argv ["git"; "submodule"; "foreach"; "git"; "clean"; "-xdff"; "-q"])
        (Some "/tmp/extensions/VisualEditor") None,
      Some (CalledProcessError 1 (Shell "git something")))]
  /\ res_of run = Raise (CalledProcessError 1 (Shell "git something")).
Proof. vm_compute. split; reflexivity. Qed.

Example test_submodule_update :
  let w := with_dir_tree walk_extensions quiet_world in
  let run := ExtSkinSubmoduleUpdateCommand.execute w submodule_update [] in
  calls (tr_of run) = ok_events (submodule_cmds_in "/tmp/extensions/VisualEditor")
  /\ length (calls (tr_of run)) = 3
  /\ res_of run = Ok tt.
Proof. vm_compute. repeat split. Qed.

Example test_execute_all :
  let w := with_all_paths quiet_world in
  let run := ExtSkinComposerNpmTest.execute w extskin_tests [] in
  In (CheckCall (Argv ["composer"; "--ansi"; "test"]) (Some "/tmp") None, None) (tr_of run)
  /\ In (CheckCall (Argv ["npm"; "test"]) (Some "/tmp") None, None) (tr_of run).
Proof. vm_compute. split; auto 20. Qed.

Example test_execute_none :
  calls (tr_of (ExtSkinComposerNpmTest.execute quiet_world extskin_tests []))
  = [(CheckCall (Argv ["git"; "clean"; "-xqdf"]) (Some "/tmp") None, None)].
Proof. vm_compute. reflexivity. Qed.

(** [strip] removes the blanks of Unicode as well: here a no-break space
    (U+00A0) and a tab in front, and a space, a next-line character
    (U+0085) and an ideographic space (U+3000) behind. *)
Example strip_removes_unicode_blanks :
  let bytes := fun l => string_of_list_ascii (map ascii_of_nat l) in
  let padded :=
    bytes [194; 160; 9] +:+ "mediawiki/extensions/Wikibase"
    +:+ bytes [32; 194; 133; 227; 128; 128] in
  strip padded = "mediawiki/extensions/Wikibase"
  /\ CreateComposerLocal.extensions
       {| CreateComposerLocal.mw_install_path := "/tmp";
          CreateComposerLocal.dependencies := [padded; "mediawiki/skins/Vector"] |}
     = ["extensions/Wikibase/composer.json"].
Proof. vm_compute. split; reflexivity. Qed.

Example test_create_composer_local :
  let self := {| CreateComposerLocal.mw_install_path := "/tmp";
                 CreateComposerLocal.dependencies :=
                   ["mediawiki/extensions/Wikibase"; "justinrainbow/jsonschema"] |} in
  tr_of (CreateComposerLocal.execute quiet_world self [])
  = [(Log INFO "composer.local.json for merge plugin", None);
     (JsonDumpFile "/tmp/composer.local.json" ["extensions/Wikibase/composer.json"], None);
     (Log INFO "Created composer.local.json", None)].
Proof. vm_compute. reflexivity. Qed.

Example test_vendor_composer_dependencies :
  let w := with_require_dev
             (fun _ => Some [("justinrainbow/jsonschema", "^1.2.3")]) quiet_world in
  let self := {| VendorComposerDependencies.mw_install_path := "/tmp";
                 VendorComposerDependencies.log_dir := "/log" |} in
  In (CheckCall (Argv ["composer"; "require"; "--dev"; "--ansi"; "--no-progress";
                       "--prefer-dist"; "-v"; "justinrainbow/jsonschema=^1.2.3"])
        (Some "/tmp/vendor") None, None)
     (tr_of (VendorComposerDependencies.execute w self [])).
Proof. vm_compute. auto 10. Qed.

Example test_install_mediawiki :
  let o := execute quiet_world (AnInstallMediaWiki (install_with "mysql")) None [] in
  In (MaintInstall ["--scriptpath="; "--dbtype=mysql"; "--dbname=testwiki";
                    "--dbuser=USER"; "--dbpass=PASS"; "--dbserver=SERVER"] "/tmp", None)
     (trace o)
  /\ In (MaintUpdate ["--skip-external-dependencies"] "/tmp", None) (trace o)
  /\ result o = Ok tt.
Proof. vm_compute. repeat split; auto 20. Qed.

(** * Further results *)

(** ** Plans *)

Lemma effects_app t1 t2 : effects (t1 ++ t2) = effects t1 ++ effects t2.
Proof. unfold effects. apply filter_app. Qed.

Section Plans.
Context (w : World).

Lemma planned_ret {S A} (a : A) : planned (ret (S:=S) a) [].
Proof. intros s h. reflexivity. Qed.

Lemma planned_get {S} : planned (get (S:=S)) [].
Proof. intros s h. reflexivity. Qed.

Lemma planned_log {S} lvl msg : planned (log (S:=S) lvl msg) [].
Proof. intros s h. reflexivity. Qed.

Lemma planned_perform {S} a :
  is_log_action a = false -> planned (perform (S:=S) w a) [a].
Proof.
  intros Ha s h. unfold perform, tr_of, res_of, follows_plan, effects.
  destruct (outcome w h a) as [e|]; cbn [fst snd].
  - exists [], a, []. split; [reflexivity|].
    rewrite filter_cons_True by (destruct a; try discriminate; reflexivity).
    reflexivity.
  - rewrite filter_cons_True by (destruct a; try discriminate; reflexivity).
    reflexivity.
Qed.

Lemma planned_check_call {S} argv cwd env :
  planned (check_call (S:=S) w argv cwd env) [CheckCall (Argv argv) cwd env].
Proof. apply planned_perform. reflexivity. Qed.

Lemma planned_check_call_shell {S} line cwd :
  planned (check_call_shell (S:=S) w line cwd) [CheckCall (Shell line) cwd None].
Proof. apply planned_perform. reflexivity. Qed.

Lemma planned_bind {S A B} (m : M S A) (k : A -> M S B) L1 L2 :
  planned m L1 -> (forall a, planned (k a) L2) -> planned (bind m k) (L1 ++ L2).
Proof.
  intros Hm Hk s h. specialize (Hm s h). unfold bind, tr_of, res_of in *.
  destruct (m s h) as [[s1 t1] [a|e]]; cbn [fst snd] in *.
  - specialize (Hk a s1 (h ++ t1)). unfold tr_of, res_of in Hk.
    destruct (k a s1 (h ++ t1)) as [[s2 t2] [b|e]]; cbn [fst snd follows_plan] in *.
    + rewrite effects_app, ok_events_app, Hm, Hk. reflexivity.
    + destruct Hk as (done & next & rest & HL & Hc).
      exists (L1 ++ done), next, rest. split.
      * rewrite HL, app_assoc. reflexivity.
      * rewrite effects_app, ok_events_app, Hm, Hc, app_assoc. reflexivity.
  - destruct Hm as (done & next & rest & HL & Hc).
    exists done, next, (rest ++ L2). split; [|exact Hc].
    rewrite HL, <- app_assoc. reflexivity.
Qed.

Lemma planned_for_each {S A} (l : list A) (body : A -> M S unit) (f : A -> list Action) :
  (forall x, In x l -> planned (body x) (f x)) ->
  planned (for_each l body) (flat_map f l).
Proof.
  induction l as [|x rest IH]; intros Hb; [apply planned_ret|].
  rewrite for_each_cons. cbn [flat_map]. apply planned_bind.
  - apply Hb. left. reflexivity.
  - intros _. apply IH. intros y Hy. apply Hb. right. exact Hy.
Qed.

Lemma planned_bind_ret {S A B} (a : A) (k : A -> M S B) L :
  planned (k a) L -> planned (bind (ret a) k) L.
Proof.
  intros Hk s h. specialize (Hk s (h ++ [])). unfold bind, ret, tr_of, res_of in *.
  destruct (k a s (h ++ [])) as [[s2 t2] r]. exact Hk.
Qed.

End Plans.

(** Follow a computation along its plan, one operation at a time. *)
Ltac follow_plan w :=
  repeat
    match goal with
    | |- follows_plan ?L (tr_of (?m ?s ?h)) _ =>
        let Hp := fresh "Hp" in
        enough (Hp : planned m L) by exact (Hp s h)
    | |- planned (bind (log _ _) _) ?L =>
        refine (planned_bind _ _ [] L (planned_log _ _) (fun _ => _))
    | |- planned (bind get _) ?L =>
        refine (planned_bind _ _ [] L planned_get (fun _ => _))
    | |- planned (bind (ret _) _) _ => apply planned_bind_ret
    | |- planned (bind (perform _ ?a) _) (_ :: ?L) =>
        refine (planned_bind _ _ [a] L (planned_perform w a eq_refl) (fun _ => _))
    | |- planned (bind (check_call _ ?c ?d ?e) _) (_ :: ?L) =>
        refine (planned_bind _ _ [CheckCall (Argv c) d e] L
                  (planned_check_call w c d e) (fun _ => _))
    | |- planned (perform _ ?a) _ => exact (planned_perform w a eq_refl)
    | |- planned (check_call _ ?c ?d ?e) _ => exact (planned_check_call w c d e)
    | |- planned (log _ _) _ => apply planned_log
    | |- planned (ret _) _ => apply planned_ret
    end.

(** ** Extension and skin tests *)

(** X1. With [composer.json] in place, [run_extskin_composer] runs
    [composer --ansi validate --no-check-publish], [composer --ansi
    install --no-progress --prefer-dist --profile -v] and [composer --ansi
    test], in that order, in the directory of the step; it stops at the
    first one that fails and raises its error. *)
Theorem extskin_composer_runs_in_order
    (w : World) (self : ExtSkinComposerNpmTest.t) (h : list Event) :
  let dir := ExtSkinComposerNpmTest.directory self in
  let run := ExtSkinComposerNpmTest.run_extskin_composer w self h in
  path_exists w (path_join dir "composer.json") = true ->
  follows_script
    (cmds_in dir
       [ ["composer"; "--ansi"; "validate"; "--no-check-publish"];
         ["composer"; "--ansi"; "install"; "--no-progress"; "--prefer-dist";
          "--profile"; "-v"];
         ["composer"; "--ansi"; "test"] ])
    (tr_of run) (res_of run).
Proof.
  cbv zeta. intros Hexists.
  exact (proj1 (run_extskin_composer_present w self h Hexists)).
Qed.

Lemma extskin_composer_runs_in_order_witness :
  calls (tr_of (ExtSkinComposerNpmTest.run_extskin_composer
                  (with_all_paths quiet_world) extskin_tests []))
  = [(CheckCall (Argv ["composer"; "--ansi"; "validate"; "--no-check-publish"])
        (Some "/tmp") None, None);
     (CheckCall (Argv ["composer"; "--ansi"; "install"; "--no-progress"; "--prefer-dist";
                       "--profile"; "-v"]) (Some "/tmp") None, None);
     (CheckCall (Argv ["composer"; "--ansi"; "test"]) (Some "/tmp") None, None)].
Proof.
  exact (extskin_composer_runs_in_order (with_all_paths quiet_world) extskin_tests []
           eq_refl).
Defined.

(** X2. With [package.json] in place, [run_extskin_npm] runs [npm prune],
    [npm install --no-progress] and [npm test], in that order, in the
    directory of the step; it stops at the first one that fails and raises
    its error. *)
Theorem extskin_npm_runs_in_order
    (w : World) (self : ExtSkinComposerNpmTest.t) (h : list Event) :
  let dir := ExtSkinComposerNpmTest.directory self in
  let run := ExtSkinComposerNpmTest.run_extskin_npm w self h in
  path_exists w (path_join dir "package.json") = true ->
  follows_script
    (cmds_in dir
       [ ["npm"; "prune"]; ["npm"; "install"; "--no-progress"]; ["npm"; "test"] ])
    (tr_of run) (res_of run).
Proof.
  cbv zeta. intros Hexists.
  exact (proj1 (run_extskin_npm_present w self h Hexists)).
Qed.

Lemma extskin_npm_runs_in_order_witness :
  calls (tr_of (ExtSkinComposerNpmTest.run_extskin_npm
                  (with_all_paths quiet_world) extskin_tests []))
  = [(CheckCall (Argv ["npm"; "prune"]) (Some "/tmp") None, None);
     (CheckCall (Argv ["npm"; "install"; "--no-progress"]) (Some "/tmp") None, None);
     (CheckCall (Argv ["npm"; "test"]) (Some "/tmp") None, None)].
Proof.
  exact (extskin_npm_runs_in_order (with_all_paths quiet_world) extskin_tests []
           eq_refl).
Defined.

(** X3. [NpmInstall.execute] runs [npm prune] and then [npm install] in
    the directory of the step; [npm install] is not run when [npm prune]
    fails, and the error of the failing command is the one raised. *)
Theorem npm_install_prunes_first
    (w : World) (self : NpmInstall.t) (h : list Event) :
  let run := NpmInstall.execute w self h in
  follows_script (cmds_in (NpmInstall.directory self) [["npm"; "prune"]; ["npm"; "install"]])
                 (tr_of run) (res_of run).
Proof.
  cbv zeta. unfold NpmInstall.execute. rewrite bind_get.
  exact (scripted_bind _ _ [_] [_] (scripted_check_call w _ _ _)
           (fun _ => scripted_check_call w _ _ _) self h).
Qed.

(** ** Development requirements of vendor.git *)

(** X4. When the composer.json of MediaWiki has no [require-dev] key,
    [VendorComposerDependencies.execute] never gets past loading it: all
    it does, besides logging, is to open the file and to load it, and it
    raises the error of the one that failed or, when both worked,
    [KeyError] for the missing key.  No composer command is run and no
    log is copied. *)
Theorem vendor_without_require_dev
    (w : World) (self : VendorComposerDependencies.t) (h : list Event) :
  let mw_composer_json :=
    path_join (VendorComposerDependencies.mw_install_path self) "composer.json" in
  let run := VendorComposerDependencies.execute w self h in
  require_dev w mw_composer_json = None ->
  (exists e,
     effects (tr_of run) = [(OpenFile mw_composer_json "r", Some e)]
     /\ res_of run = Raise e)
  \/ (exists e,
        effects (tr_of run)
        = [(OpenFile mw_composer_json "r", None); (JsonLoadFile mw_composer_json, Some e)]
        /\ res_of run = Raise e)
  \/ (effects (tr_of run)
      = [(OpenFile mw_composer_json "r", None); (JsonLoadFile mw_composer_json, None)]
      /\ res_of run = Raise (KeyError "require-dev")).
Proof.
  cbv zeta. intros Hmissing.
  unfold VendorComposerDependencies.execute.
  rewrite bind_get, bind_log. project_triples. cbv zeta.
  rewrite bind_perform.
  destruct (outcome w _ (OpenFile _ _)) as [e|];
    [left; exists e; split; reflexivity|].
  project_triples. rewrite bind_perform.
  destruct (outcome w _ (JsonLoadFile _)) as [e|];
    [right; left; exists e; split; reflexivity|].
  project_triples. right. right.
  rewrite Hmissing. unfold bind at 1 2, raise. split; reflexivity.
Qed.

Lemma vendor_without_require_dev_witness :
  effects (tr_of (VendorComposerDependencies.execute without_require_dev vendor_deps []))
  = [(OpenFile "/tmp/composer.json" "r", None); (JsonLoadFile "/tmp/composer.json", None)]
  /\ res_of (VendorComposerDependencies.execute without_require_dev vendor_deps [])
     = Raise (KeyError "require-dev").
Proof.
  destruct (vendor_without_require_dev without_require_dev vendor_deps [] eq_refl)
    as [(e & Heff & _) | [(e & Heff & _) | Hkey]].
  - discriminate Heff.
  - discriminate Heff.
  - exact Hkey.
Defined.

(** X5. When the key is there, [VendorComposerDependencies.execute] opens
    and loads the file, runs [composer require --dev] with one
    [package=version] argument per requirement, then [composer config] and
    [composer dump-autoload] in the vendor directory, and only then copies
    the three logs; it stops at the first operation that fails and raises
    its error. *)
Theorem vendor_follows_plan
    (w : World) (self : VendorComposerDependencies.t) (h : list Event)
    (deps : list (string * string)) :
  let mw_composer_json :=
    path_join (VendorComposerDependencies.mw_install_path self) "composer.json" in
  let run := VendorComposerDependencies.execute w self h in
  require_dev w mw_composer_json = Some deps ->
  follows_plan (vendor_plan self deps) (tr_of run) (res_of run).
Proof.
  cbv zeta. intros Hdeps.
  unfold VendorComposerDependencies.execute.
  rewrite bind_get. cbv zeta. rewrite Hdeps.
  unfold vendor_plan. cbv zeta. follow_plan w.
Qed.

(** ** Installing MediaWiki *)


(** X6. For an engine that is none of sqlite, mysql and postgres, spelled
    exactly so, [InstallMediaWiki.execute] never returns normally, and the
    only things it may have done are to ask the factory for the class and to
    start the database: the installer, the scripts and the files are not
    touched. *)
Theorem install_mediawiki_rejects_unknown_engine
    (w : World) (s : InstallMediaWiki.state) (h : list Event) :
  let self := InstallMediaWiki.self s in
  let engine := InstallMediaWiki.db_engine self in
  let db := db_factory w engine (InstallMediaWiki.db_dir self)
              (InstallMediaWiki.dump_dir self) in
  let run := InstallMediaWiki.execute w s h in
  str_in engine ["sqlite"; "mysql"; "postgres"] = false ->
  (exists e, res_of run = Raise e)
  /\ Forall (fun ev => fst ev = GetDBClass engine \/ fst ev = Start (Database db))
            (tr_of run).
Proof.
  cbv zeta. intros Hengine.
  destruct (InstallMediaWiki_unsupported_cases w s h Hengine)
    as [(e & -> & ->) | [(e & -> & ->) | (-> & ->)]].
  - split; [exists e; reflexivity|].
    apply List.Forall_cons; [left; reflexivity | apply List.Forall_nil].
  - split; [exists e; reflexivity|].
    apply List.Forall_cons; [left; reflexivity|].
    apply List.Forall_cons; [right; reflexivity | apply List.Forall_nil].
  - split; [eexists; reflexivity|].
    apply List.Forall_cons; [left; reflexivity|].
    apply List.Forall_cons; [right; reflexivity | apply List.Forall_nil].
Qed.

Lemma install_mediawiki_rejects_unknown_engine_witness :
  exists e,
    res_of (InstallMediaWiki.execute quiet_world
              {| InstallMediaWiki.self := install_with "MySQL";
                 InstallMediaWiki.db_backend := None |} [])
    = Raise e.
Proof.
  exact (proj1 (install_mediawiki_rejects_unknown_engine quiet_world
                  {| InstallMediaWiki.self := install_with "MySQL";
                     InstallMediaWiki.db_backend := None |} [] eq_refl)).
Defined.

Lemma vendor_follows_plan_witness :
  effects (tr_of (VendorComposerDependencies.execute with_schema_dev vendor_deps []))
  = ok_events (vendor_plan vendor_deps [("justinrainbow/jsonschema", "^1.2.3")]).
Proof.
  exact (vendor_follows_plan with_schema_dev vendor_deps []
           [("justinrainbow/jsonschema", "^1.2.3")] eq_refl).
Defined.

(** X8. [InstallMediaWiki.execute] assigns the class attribute
    [db_backend] as soon as the factory has handed out the class, before
    the database is started: after the call it holds the new database
    object whatever happened later, and it is untouched only when the
    factory itself raised.  The attributes of the instance are never
    changed. *)
Theorem install_mediawiki_db_backend
    (w : World) (s : InstallMediaWiki.state) (h : list Event) :
  let self := InstallMediaWiki.self s in
  let engine := InstallMediaWiki.db_engine self in
  let db := db_factory w engine (InstallMediaWiki.db_dir self)
              (InstallMediaWiki.dump_dir self) in
  let run := InstallMediaWiki.execute w s h in
  InstallMediaWiki.self (st_of run) = self
  /\ InstallMediaWiki.db_backend (st_of run)
     = match outcome w h (GetDBClass engine) with
       | Some _ => InstallMediaWiki.db_backend s
       | None => Some db
       end.
Proof.
  cbv zeta.
  destruct (InstallMediaWiki_execute_cases w s h) as (Hself & Hcases).
  split; [exact Hself|].
  assert (Hfirst : forall o rest,
            tr_of (InstallMediaWiki.execute w s h)
            = (GetDBClass (InstallMediaWiki.db_engine (InstallMediaWiki.self s)), o) :: rest ->
            outcome w h (GetDBClass (InstallMediaWiki.db_engine (InstallMediaWiki.self s))) = o).
  { intros o rest. unfold InstallMediaWiki.execute, InstallMediaWiki.get_self.
    unfold bind at 1. cbv beta iota. rewrite (app_nil_r h), bind_perform.
    destruct (outcome w h _) as [e|]; unfold tr_of; cbn [fst snd app]; congruence. }
  destruct Hcases as [(e & Ht & _ & Hdb) | [(e & Ht & _ & Hdb) | (rest & Ht & _ & Hdb)]];
    rewrite (Hfirst _ _ Ht); exact Hdb.
Qed.

(** ** Environments of the browser tests *)

Lemma perform_trace {S} (w : World) (a : Action) (s : S) (h : list Event) :
  tr_of (perform w a s h) = [(a, outcome w h a)] /\ st_of (perform w a s h) = s.
Proof. unfold perform, tr_of, st_of. destruct (outcome w h a); split; reflexivity. Qed.

(** X9. [run_qunit] spawns [grunt qunit] once, in the MediaWiki directory.
    In its environment [CHROMIUM_FLAGS] is always the value quibble
    computed; every other variable has its ambient value when the ambient
    environment sets it, and only otherwise the default of quibble: an
    ambient [CHROME_BIN] or [MW_SERVER] wins over the built-in one. *)
Theorem run_qunit_environment
    (w : World) (self : BrowserTests.t) (h : list Event) :
  let run := BrowserTests.run_qunit w self h in
  let defaults : Env :=
    list_to_map [("CHROME_BIN", "/usr/bin/chromium");
                 ("MW_SERVER", BrowserTests.MW_SERVER);
                 ("MW_SCRIPT_PATH", "/");
                 ("FORCE_COLOR", "1")] in
  exists env,
    tr_of run
    = [(CheckCall (Argv ["./node_modules/.bin/grunt"; "qunit"])
          (Some (BrowserTests.mw_install_path self)) (Some env),
        outcome w h (CheckCall (Argv ["./node_modules/.bin/grunt"; "qunit"])
                       (Some (BrowserTests.mw_install_path self)) (Some env)))]
    /\ st_of run = self
    /\ env !! "CHROMIUM_FLAGS" = Some (chromium_flags w)
    /\ (forall k, k <> "CHROMIUM_FLAGS" ->
          env !! k = match environ w !! k with
                     | Some v => Some v
                     | None => defaults !! k
                     end)
    /\ (forall v, environ w !! "MW_SERVER" = Some v -> env !! "MW_SERVER" = Some v)
    /\ (environ w !! "MW_SERVER" = None -> env !! "MW_SERVER" = Some BrowserTests.MW_SERVER).
Proof.
  cbv zeta. unfold BrowserTests.run_qunit. rewrite bind_get. cbv zeta.
  unfold check_call.
  eexists. split; [|split; [|split; [|split; [|split]]]].
  - apply perform_trace.
  - apply perform_trace.
  - rewrite dict_update_lookup, lookup_singleton. reflexivity.
  - intros k Hk. rewrite !dict_update_lookup, lookup_singleton_ne by congruence.
    reflexivity.
  - intros v Hv. rewrite !dict_update_lookup, lookup_singleton_ne by discriminate.
    rewrite Hv. reflexivity.
  - intros Hv. rewrite !dict_update_lookup, lookup_singleton_ne by discriminate.
    rewrite Hv. reflexivity.
Qed.

(** X10. With a display set, [run_webdriver] spawns [npm run
    selenium-test] once, in the MediaWiki directory.  Its environment is
    the ambient one with six variables forced by quibble: whatever the
    ambient environment says, [DISPLAY] is the display of the step,
    [MW_SERVER] the address of the web server of quibble, and the wiki
    credentials are those of the installer. *)
Theorem run_webdriver_environment
    (w : World) (self : BrowserTests.t) (h : list Event) (d : string) :
  let run := BrowserTests.run_webdriver w self h in
  let forced : Env :=
    list_to_map [("MW_SERVER", BrowserTests.MW_SERVER);
                 ("MW_SCRIPT_PATH", "/");
                 ("FORCE_COLOR", "1");
                 ("MEDIAWIKI_USER", "WikiAdmin");
                 ("MEDIAWIKI_PASSWORD", "testwikijenkinspass");
                 ("DISPLAY", d)] in
  BrowserTests.display self = Some d ->
  exists env,
    tr_of run
    = [(CheckCall (Argv ["npm"; "run"; "selenium-test"])
          (Some (BrowserTests.mw_install_path self)) (Some env),
        outcome w h (CheckCall (Argv ["npm"; "run"; "selenium-test"])
                       (Some (BrowserTests.mw_install_path self)) (Some env)))]
    /\ st_of run = self
    /\ (forall k, env !! k = match forced !! k with
                             | Some v => Some v
                             | None => environ w !! k
                             end)
    /\ env !! "DISPLAY" = Some d
    /\ env !! "MW_SERVER" = Some BrowserTests.MW_SERVER
    /\ env !! "MEDIAWIKI_USER" = Some "WikiAdmin"
    /\ env !! "MEDIAWIKI_PASSWORD" = Some "testwikijenkinspass".
Proof.
  cbv zeta. intros Hd. unfold BrowserTests.run_webdriver. rewrite bind_get. cbv zeta.
  rewrite Hd. unfold check_call.
  eexists. split; [|split; [|split; [|repeat split]]].
  - apply perform_trace.
  - apply perform_trace.
  - intros k. rewrite !dict_update_lookup, lookup_empty.
    destruct (environ w !! k); reflexivity.
  - rewrite dict_update_lookup. reflexivity.
  - rewrite dict_update_lookup. reflexivity.
  - rewrite dict_update_lookup. reflexivity.
  - rewrite dict_update_lookup. reflexivity.
Qed.

Lemma run_webdriver_environment_witness :
  exists env,
    tr_of (BrowserTests.run_webdriver quiet_world (with_display_94 headless_browser_tests) [])
    = [(CheckCall (Argv ["npm"; "run"; "selenium-test"]) (Some "/tmp") (Some env), None)]
    /\ env !! "DISPLAY" = Some ":94".
Proof.
  destruct (run_webdriver_environment quiet_world (with_display_94 headless_browser_tests)
              [] ":94" eq_refl) as (env & Htr & _ & _ & Hdisplay & _).
  exists env. split; [exact Htr | exact Hdisplay].
Defined.

(** ** Scopes *)

(** The two ways a [with] statement goes: the service does not start and
    the body is not entered; or it starts, the body runs, and the service
    is stopped whatever the body did. *)
Lemma with_cases {S A} (w : World) (hd : Handle) (body : M S A) (s : S) (h : list Event) :
  let run := with_ w hd body s h in
  let b := body s (h ++ [(Start hd, None)]) in
  (exists e, outcome w h (Start hd) = Some e
             /\ run = (s, [(Start hd, Some e)], Raise e))
  \/ (outcome w h (Start hd) = None
      /\ exists o,
           tr_of run = (Start hd, None) :: tr_of b ++ [(Stop hd, o)]
           /\ st_of run = st_of b
           /\ res_of run = match o with
                           | Some e' => Raise e'
                           | None => res_of b
                           end).
Proof.
  cbv zeta. unfold with_, perform.
  destruct (outcome w h (Start hd)) as [e|].
  { left. exists e. split; reflexivity. }
  right. split; [reflexivity|].
  destruct (body s (h ++ [(Start hd, None)])) as [[s1 t1] r].
  destruct (outcome w _ (Stop hd)) as [e'|];
    [exists (Some e') | exists None]; unfold tr_of, st_of, res_of; cbn [fst snd app];
    repeat split.
Qed.


(** ** Commands of the user *)

(** X14. [UserCommands.execute] starts the web server first; when it does
    not start, no command is run.  Otherwise the commands of the user are
    run through the shell in the MediaWiki directory, in the order given,
    up to the first one that fails; the web server is then stopped, also
    after a failure, and the failure of the command is raised unless
    stopping the server failed too. *)
Theorem user_commands_run_in_order
    (w : World) (self : UserCommands.t) (h : list Event) :
  let mw := UserCommands.mw_install_path self in
  let web := DevWebServer mw HTTP_PORT in
  let script := map (fun cmd => CheckCall (Shell cmd) (Some mw) None)
                    (UserCommands.commands self) in
  let run := UserCommands.execute w self h in
  (exists e, effects (tr_of run) = [(Start web, Some e)] /\ res_of run = Raise e)
  \/ (exists (body : list Event) (r : Res unit) (o : option Exn),
        effects (tr_of run) = (Start web, None) :: effects body ++ [(Stop web, o)]
        /\ follows_plan script body r
        /\ res_of run = match o with
                        | Some e' => Raise e'
                        | None => r
                        end).
Proof.
  cbv zeta. unfold UserCommands.execute. rewrite bind_get, bind_log.
  project_triples.
  match goal with
  | |- context [with_ w ?hd ?body ?s ?h'] =>
      destruct (with_cases w hd body s h') as [(e & _ & ->) | (_ & o & Htr & _ & Hres)];
      [ left; exists e; split; reflexivity | right ]
  end.
  match type of Htr with
  | _ = _ :: tr_of ?b ++ _ => exists (tr_of b), (res_of b), o
  end.
  split; [|split; [|exact Hres]].
  - rewrite Htr.
    match goal with
    | |- effects (?l :: ?st :: ?b ++ ?e) = _ =>
        change (l :: st :: b ++ e) with ([l; st] ++ b ++ e)
    end.
    rewrite !effects_app. reflexivity.
  - match goal with
    | |- follows_plan ?L (tr_of (?m ?s ?h')) _ =>
        enough (Hp : planned m L) by exact (Hp s h')
    end.
    refine (planned_bind _ _ [] _ (planned_log _ _) (fun _ => _)).
    rewrite <- flat_map_unit.
    apply planned_for_each. intros cmd _.
    refine (planned_bind _ _ [] [_] (planned_log _ _) (fun _ => _)).
    apply planned_check_call_shell.
Qed.

(** ** Browser tests *)

Lemma run_qunit_call (w : World) (s : BrowserTests.t) (h : list Event) :
  exists env,
    BrowserTests.run_qunit w s h
    = perform w (CheckCall (Argv ["./node_modules/.bin/grunt"; "qunit"])
                   (Some (BrowserTests.mw_install_path s)) (Some env)) s h.
Proof.
  unfold BrowserTests.run_qunit. rewrite bind_get. cbv zeta.
  eexists. reflexivity.
Qed.

Lemma run_webdriver_call (w : World) (s : BrowserTests.t) (h : list Event) (d : string) :
  BrowserTests.display s = Some d ->
  exists env,
    env !! "DISPLAY" = Some d
    /\ BrowserTests.run_webdriver w s h
       = perform w (CheckCall (Argv ["npm"; "run"; "selenium-test"])
                      (Some (BrowserTests.mw_install_path s)) (Some env)) s h.
Proof.
  intros Hd. unfold BrowserTests.run_webdriver. rewrite bind_get. cbv zeta.
  rewrite Hd. eexists. split; [|reflexivity].
  rewrite dict_update_lookup. reflexivity.
Qed.

#[local] Arguments truthy_str : simpl never.

(** Evaluate [BrowserTests.execute] along every path of the outcomes,
    keeping the two spawned commands as they are. *)
Ltac browser_run_split w :=
  repeat
    (cbn;
     match goal with
     | |- context [BrowserTests.run_qunit w ?s ?h] =>
         let env := fresh "karma_env" in
         let E := fresh "E" in
         destruct (run_qunit_call w s h) as (env & E); rewrite E; clear E
     | |- context [BrowserTests.run_webdriver w ?s ?h] =>
         let env := fresh "webdriver_env" in
         let Hd := fresh "Hdisplay" in
         let E := fresh "E" in
         destruct (run_webdriver_call w s h _ eq_refl) as (env & Hd & E);
         rewrite E; clear E
     | H : path_exists w _ = _ |- _ => progress rewrite H
     | H : truthy_str _ = _ |- _ => progress rewrite H
     | |- context [outcome w ?h ?a] => destruct (outcome w h a)
     | |- _ => progress unfold perform
     end).

(** X11. When [BrowserTests.execute] returns normally, this is everything
    it did, in this order and each successfully: the web server started;
    [grunt qunit] when QUnit was asked for; when selenium was asked for and
    [tests/selenium] exists, Xvfb on [:94] if no display was given, then
    the Chrome web driver on the display, [npm run selenium-test] with that
    same display in its environment, and the web driver and Xvfb stopped
    in reverse order; finally the web server stopped. *)
Theorem browser_tests_normal_run
    (w : World) (self : BrowserTests.t) (h : list Event) :
  let mw := BrowserTests.mw_install_path self in
  let web := DevWebServer mw HTTP_PORT in
  let given := truthy_opt (BrowserTests.display self) in
  let d := or_default (BrowserTests.display self) ":94" in
  let run := BrowserTests.execute w self h in
  res_of run = Ok tt ->
  exists karma_env webdriver_env,
    (wants_selenium w self = true -> webdriver_env !! "DISPLAY" = Some d)
    /\ tr_of run
       = [(Start web, None)]
         ++ (if BrowserTests.qunit self
             then [(CheckCall (Argv ["./node_modules/.bin/grunt"; "qunit"])
                      (Some mw) (Some karma_env), None)]
             else [])
         ++ (if wants_selenium w self
             then (if given then []
                   else [(Log INFO "No DISPLAY, using Xvfb.", None);
                         (Start (Xvfb (Some ":94")), None)])
                  ++ [(Start (ChromeWebDriver (Some d)), None);
                      (CheckCall (Argv ["npm"; "run"; "selenium-test"])
                         (Some mw) (Some webdriver_env), None);
                      (Stop (ChromeWebDriver (Some d)), None)]
                  ++ (if given then [] else [(Stop (Xvfb (Some ":94")), None)])
             else [])
         ++ [(Stop web, None)].
Proof.
  cbv zeta. unfold wants_selenium.
  unfold BrowserTests.execute, BrowserTests.selenium_tests, BrowserTests.maybe_xvfb.
  unfold with_, with_ExitStack, enter_context, on_self, bind, get, log,
    BrowserTests.set_display, ret, res_of, tr_of.
  destruct self as [mw qunit selenium display].
  destruct qunit, selenium; cbn;
    destruct (path_exists w (path_join mw "tests/selenium")) eqn:Hexists;
    (destruct display as [x|]; [destruct (truthy_str x) eqn:Hx|]).
  all: browser_run_split w.
  all: intros Hok; try discriminate Hok.
  all: first [ exists karma_env, webdriver_env | exists ∅, webdriver_env
             | exists karma_env, ∅ | exists ∅, ∅ ].
  all: (split; [first [intros _; assumption | intros Hno; discriminate Hno] | reflexivity]).
Qed.

Lemma browser_tests_normal_run_witness :
  exists webdriver_env,
    webdriver_env !! "DISPLAY" = Some ":94"
    /\ tr_of (BrowserTests.execute (with_all_paths quiet_world) headless_browser_tests [])
       = [(Start (DevWebServer "/tmp" HTTP_PORT), None);
          (Log INFO "No DISPLAY, using Xvfb.", None);
          (Start (Xvfb (Some ":94")), None);
          (Start (ChromeWebDriver (Some ":94")), None);
          (CheckCall (Argv ["npm"; "run"; "selenium-test"]) (Some "/tmp")
             (Some webdriver_env), None);
          (Stop (ChromeWebDriver (Some ":94")), None);
          (Stop (Xvfb (Some ":94")), None);
          (Stop (DevWebServer "/tmp" HTTP_PORT), None)].
Proof.
  destruct (browser_tests_normal_run (with_all_paths quiet_world) headless_browser_tests
              [] eq_refl) as (karma_env & webdriver_env & Hdisplay & Htrace).
  exists webdriver_env. split; [exact (Hdisplay eq_refl) | exact Htrace].
Defined.

Lemma bind_Raise {S A B} (m : M S A) (k : A -> M S B) (s : S) (h : list Event) (e : Exn) :
  res_of (m s h) = Raise e ->
  bind m k s h = (st_of (m s h), tr_of (m s h), Raise e).
Proof.
  unfold bind, res_of, st_of, tr_of.
  destruct (m s h) as [[s1 t1] r]. cbn [fst snd]. intros ->. reflexivity.
Qed.

(** X12. When the QUnit run fails, [BrowserTests.execute] does not go on
    to the selenium tests, whether asked for or not: after [grunt qunit]
    it only stops the web server.  The display of the step is left as it
    was, and the failure of the QUnit run is raised unless stopping the
    server failed too. *)
Theorem qunit_failure_skips_selenium
    (w : World) (self : BrowserTests.t) (h : list Event) (e : Exn) :
  let web := DevWebServer (BrowserTests.mw_install_path self) HTTP_PORT in
  let qunit_run := BrowserTests.run_qunit w self (h ++ [(Start web, None)]) in
  let run := BrowserTests.execute w self h in
  BrowserTests.qunit self = true ->
  outcome w h (Start web) = None ->
  res_of qunit_run = Raise e ->
  exists o,
    tr_of run = (Start web, None) :: tr_of qunit_run ++ [(Stop web, o)]
    /\ st_of run = self
    /\ res_of run = Raise (match o with
                           | Some e' => e'
                           | None => e
                           end).
Proof.
  cbv zeta. intros Hqunit Hstart Hfail.
  unfold BrowserTests.execute. rewrite bind_get, Hqunit.
  match goal with
  | |- context [with_ w ?hd ?body ?s ?h'] =>
      destruct (with_cases w hd body s h') as [(e0 & Hno & _) | (_ & o & Htr & Hst & Hres)];
      [ congruence | ]
  end.
  cbv beta in Htr, Hst, Hres.
  rewrite (bind_Raise _ _ _ _ e Hfail) in Htr, Hst, Hres.
  exists o. split; [exact Htr|]. split.
  - rewrite Hst. apply run_qunit_quiet.
  - rewrite Hres. destruct o; reflexivity.
Qed.

Lemma qunit_failure_skips_selenium_witness :
  exists o,
    tr_of (BrowserTests.execute commands_fail qunit_only [])
    = (Start (DevWebServer "/tmp" HTTP_PORT), None)
      :: tr_of (BrowserTests.run_qunit commands_fail qunit_only
                  [(Start (DevWebServer "/tmp" HTTP_PORT), None)])
         ++ [(Stop (DevWebServer "/tmp" HTTP_PORT), o)]
    /\ st_of (BrowserTests.execute commands_fail qunit_only []) = qunit_only
    /\ res_of (BrowserTests.execute commands_fail qunit_only [])
       = Raise (match o with
                | Some e' => e'
                | None => CalledProcessError 1 (Argv ["./node_modules/.bin/grunt"; "qunit"])
                end).
Proof.
  exact (qunit_failure_skips_selenium commands_fail qunit_only [] _
           eq_refl eq_refl eq_refl).
Defined.

(** X13. On every path of [BrowserTests.execute], failing ones included,
    the Chrome web driver and the selenium run are given the same display:
    the one the step was constructed with, or [:94] when it had none. *)
Theorem selenium_uses_one_display
    (w : World) (self : BrowserTests.t) (h : list Event) :
  let d := or_default (BrowserTests.display self) ":94" in
  Forall (uses_display d) (tr_of (BrowserTests.execute w self h)).
Proof.
  cbv zeta.
  unfold BrowserTests.execute, BrowserTests.selenium_tests, BrowserTests.maybe_xvfb.
  unfold with_, with_ExitStack, enter_context, on_self, bind, get, log,
    BrowserTests.set_display, ret, res_of, tr_of.
  destruct self as [mw qunit selenium display].
  destruct qunit, selenium; cbn;
    destruct (path_exists w (path_join mw "tests/selenium")) eqn:Hexists;
    (destruct display as [x|]; [destruct (truthy_str x) eqn:Hx|]).
  all: browser_run_split w.
  all: repeat (apply List.Forall_cons; [split; [intros ? [= <-]; reflexivity
                                              | intros ? ? Hev; try discriminate Hev;
                                                injection Hev as <- <-; assumption]|]).
  all: apply List.Forall_nil.
Qed.

(** ** Paths *)

Lemma append_assoc (a b c : string) : (a +:+ b) +:+ c = a +:+ (b +:+ c).
Proof.
  induction a as [|x a IH]; [reflexivity|].
  change (String x ((a +:+ b) +:+ c) = String x (a +:+ (b +:+ c))).
  rewrite IH. reflexivity.
Qed.

Lemma path_join_relative (a b : string) :
  startswith "/" b = false -> path_join a b = dir_prefix a +:+ b.
Proof.
  intros Hb. unfold path_join, dir_prefix. rewrite Hb.
  destruct (last_char a) as [c|]; [|reflexivity].
  destruct (Ascii.eqb c "/"); [reflexivity|].
  rewrite append_assoc. reflexivity.
Qed.

Lemma append_truthy (p : string) (c : ascii) (s : string) :
  truthy_str (p +:+ String c s) = true.
Proof. destruct p; reflexivity. Qed.

(** ** PHPUnit reports *)

(** X15. Built by their constructors, the two PHPUnit steps always ask
    for a JUnit report, as the last two arguments of the command: the run
    without database writes [junit-dbless.xml] and the run with database
    [junit-db.xml], both under the log directory, and for the same log
    directory these are two different files. *)
Theorem phpunit_junit_reports
    (w : World) (mw : string) (testsuite : option string) (log_dir : string)
    (h : list Event) :
  let dbless := PhpUnitDatabaseless.init mw testsuite log_dir in
  let db := PhpUnitDatabase.init mw testsuite log_dir in
  (exists pre o,
     calls (tr_of (PhpUnitDatabaseless.execute w dbless h))
     = [(CheckCall (Argv (pre ++ ["--log-junit"; path_join log_dir "junit-dbless.xml"]))
           (Some mw) (Some (AbstractPhpUnit.phpunit_env w)), o)])
  /\ (exists pre o,
        calls (tr_of (PhpUnitDatabase.execute w db h))
        = [(CheckCall (Argv (pre ++ ["--log-junit"; path_join log_dir "junit-db.xml"]))
              (Some mw) (Some (AbstractPhpUnit.phpunit_env w)), o)])
  /\ path_join log_dir "junit-dbless.xml" = dir_prefix log_dir +:+ "junit-dbless.xml"
  /\ path_join log_dir "junit-db.xml" = dir_prefix log_dir +:+ "junit-db.xml"
  /\ path_join log_dir "junit-dbless.xml" <> path_join log_dir "junit-db.xml".
Proof.
  cbv zeta.
  assert (Hdbless : path_join log_dir "junit-dbless.xml"
                    = dir_prefix log_dir +:+ "junit-dbless.xml")
    by (apply path_join_relative; reflexivity).
  assert (Hdb : path_join log_dir "junit-db.xml" = dir_prefix log_dir +:+ "junit-db.xml")
    by (apply path_join_relative; reflexivity).
  split; [|split; [|split; [exact Hdbless|split; [exact Hdb|]]]].
  - destruct (run_phpunit_calls w (PhpUnitDatabaseless.init mw testsuite log_dir)
                [] ["Database"] h) as [o Ho].
    rewrite phpunit_cmd_shape in Ho.
    cbn [AbstractPhpUnit.junit_file PhpUnitDatabaseless.phpunit_self
         PhpUnitDatabaseless.init PhpUnitDatabaseless.junit_file
         AbstractPhpUnit.mw_install_path PhpUnitDatabaseless.mw_install_path] in Ho.
    rewrite Hdbless in Ho at 1. rewrite append_truthy in Ho.
    rewrite app_assoc in Ho.
    eexists _, o. exact Ho.
  - destruct (run_phpunit_calls w (PhpUnitDatabase.init mw testsuite log_dir)
                ["Database"] [] h) as [o Ho].
    rewrite phpunit_cmd_shape in Ho.
    cbn [AbstractPhpUnit.junit_file PhpUnitDatabase.phpunit_self
         PhpUnitDatabase.init PhpUnitDatabase.junit_file
         AbstractPhpUnit.mw_install_path PhpUnitDatabase.mw_install_path] in Ho.
    rewrite Hdb in Ho at 1. rewrite append_truthy in Ho.
    rewrite app_assoc in Ho.
    eexists _, o. exact Ho.
  - rewrite Hdbless, Hdb. intros Heq.
    apply (String.app_inj (dir_prefix log_dir)) in Heq. discriminate Heq.
Qed.

(** ** The include list of composer.local.json *)

Lemma substring_all (s : string) : String.substring 0 (String.length s) s = s.
Proof. induction s as [|c s IH]; [reflexivity|]. cbn. rewrite IH. reflexivity. Qed.

Lemma startswith_append (p s : string) :
  startswith p s = true <-> exists rest, s = p +:+ rest.
Proof.
  unfold startswith. revert s. induction p as [|c p IH]; intros s.
  - split; [intros _; exists s; reflexivity | intros _; destruct s; reflexivity].
  - destruct s as [|c' s]; cbn.
    + split; [discriminate | intros [rest Hrest]; discriminate Hrest].
    + destruct (Ascii.ascii_dec c c') as [<-|Hne].
      * rewrite IH. split; intros [rest Hrest]; exists rest.
        -- rewrite Hrest. reflexivity.
        -- change (String c s = String c (p +:+ rest)) in Hrest. congruence.
      * split; [discriminate|]. intros [rest Hrest].
        change (String c' s = String c (p +:+ rest)) in Hrest. congruence.
Qed.

Lemma drop_prefix_append (p s : string) :
  drop_prefix (String.length p) (p +:+ s) = s.
Proof.
  unfold drop_prefix. induction p as [|c p IH].
  - change ("" +:+ s) with s. cbn [String.length].
    rewrite Nat.sub_0_r. apply substring_all.
  - change (String c p +:+ s) with (String c (p +:+ s)).
    cbn [String.length String.substring Nat.sub]. exact IH.
Qed.

Lemma drop_mediawiki (name : string) :
  drop_prefix (String.length "mediawiki/") ("mediawiki/extensions/" +:+ name)
  = "extensions/" +:+ name.
Proof.
  change ("mediawiki/extensions/" +:+ name)
    with ("mediawiki/" +:+ ("extensions/" +:+ name)).
  apply drop_prefix_append.
Qed.

(** X16. [CreateComposerLocal.execute] writes one file,
    [composer.local.json] in the MediaWiki directory.  Its include list
    has an entry exactly for the dependencies that, surrounding blanks
    apart, read [mediawiki/extensions/NAME], and the entry is
    [extensions/NAME/composer.json]; any other dependency, skins
    included, is left out. *)
Theorem composer_local_includes_extensions_only
    (w : World) (self : CreateComposerLocal.t) (h : list Event) :
  let run := CreateComposerLocal.execute w self h in
  let composer_local :=
    path_join (CreateComposerLocal.mw_install_path self) "composer.local.json" in
  (exists o,
     effects (tr_of run)
     = [(JsonDumpFile composer_local (CreateComposerLocal.extensions self), o)])
  /\ (forall entry,
        In entry (CreateComposerLocal.extensions self)
        <-> exists ext name,
              In ext (CreateComposerLocal.dependencies self)
              /\ strip ext = "mediawiki/extensions/" +:+ name
              /\ entry = "extensions/" +:+ name +:+ "/composer.json").
Proof.
  cbv zeta. split.
  - unfold CreateComposerLocal.execute. rewrite bind_log. project_triples.
    rewrite bind_get. cbv zeta. rewrite bind_perform.
    destruct (outcome w _ _) as [e|]; project_triples; eexists; reflexivity.
  - intros entry. unfold CreateComposerLocal.extensions.
    rewrite in_map_iff. split.
    + intros (ext & Hentry & Hin).
      apply list_elem_of_In, list_elem_of_filter in Hin. destruct Hin as [Hpre Hin].
      apply startswith_append in Hpre. destruct Hpre as [name Hname].
      exists ext, name. split; [apply list_elem_of_In; exact Hin|]. split; [exact Hname|].
      rewrite <- Hentry, Hname, drop_mediawiki, append_assoc. reflexivity.
    + intros (ext & name & Hin & Hname & ->).
      exists ext. split.
      * rewrite Hname, drop_mediawiki, append_assoc. reflexivity.
      * apply list_elem_of_In, list_elem_of_filter. split.
        -- apply startswith_append. exists name. exact Hname.
        -- apply list_elem_of_In. exact Hin.
Qed.

(** ** The depth of the submodule walk *)

Lemma last_char_append (p : string) (c : ascii) (s : string) :
  last_char (p +:+ String c s) = last_char (String c s).
Proof.
  induction p as [|x p IH]; [reflexivity|].
  change (String x p +:+ String c s) with (String x (p +:+ String c s)).
  rewrite <- IH. unfold last_char. cbn [String.length].
  destruct (String.length (p +:+ String c s)) as [|n] eqn:Hlen.
  - destruct p; discriminate Hlen.
  - reflexivity.
Qed.

Lemma append_eqb_false (p x y : string) : x <> y -> String.eqb (p +:+ x) (p +:+ y) = false.
Proof.
  intros Hne. apply String.eqb_neq. intros Heq. apply Hne.
  exact (String.app_inj p _ _ Heq).
Qed.

(** A directory below [extensions] or [skins] is not one of the two. *)
Lemma child_not_top (self : ExtSkinSubmoduleUpdateCommand.t) (top name : string) :
  In top (ExtSkinSubmoduleUpdateCommand.tops self) ->
  plain_name name ->
  str_in (path_join top name) (ExtSkinSubmoduleUpdateCommand.tops self) = false.
Proof.
  unfold ExtSkinSubmoduleUpdateCommand.tops, plain_name. cbn [map].
  rewrite !(path_join_relative _ _ (eq_refl : startswith "/" "extensions" = false)).
  rewrite !(path_join_relative _ _ (eq_refl : startswith "/" "skins" = false)).
  set (p := dir_prefix (ExtSkinSubmoduleUpdateCommand.mw_install_path self)).
  intros Htop Hname. rewrite (path_join_relative _ _ Hname).
  unfold str_in. cbn [existsb].
  destruct Htop as [<-|[<-|[]]].
  - unfold dir_prefix at 1 2. rewrite last_char_append. cbn [last_char String.length String.get].
    change (Ascii.eqb "s" "/") with false. cbv beta iota.
    rewrite !append_assoc.
    rewrite !append_eqb_false; [reflexivity | |]; intros Heq; cbv in Heq; discriminate Heq.
  - unfold dir_prefix at 1 2. rewrite last_char_append. cbn [last_char String.length String.get].
    change (Ascii.eqb "s" "/") with false. cbv beta iota.
    rewrite !append_assoc.
    rewrite !append_eqb_false; [reflexivity | |]; intros Heq; cbv in Heq; discriminate Heq.
Qed.

Lemma submodule_dirs_first_level
    (w : World) (self : ExtSkinSubmoduleUpdateCommand.t) (dir : string) :
  let tops := ExtSkinSubmoduleUpdateCommand.tops self in
  (forall top d, In top tops -> dir_tree w top = Some d ->
                 Forall (fun sub => plain_name (dir_name sub)) (dir_subdirs d)) ->
  In dir (submodule_dirs w self) ->
  exists top d,
    In top tops
    /\ dir_tree w top = Some d
    /\ (dir = top
        \/ exists sub, In sub (dir_subdirs d) /\ dir = path_join top (dir_name sub)).
Proof.
  cbv zeta. intros Hplain Hdir.
  unfold submodule_dirs in Hdir. cbv zeta in Hdir.
  change [path_join (ExtSkinSubmoduleUpdateCommand.mw_install_path self) "extensions";
          path_join (ExtSkinSubmoduleUpdateCommand.mw_install_path self) "skins"]
    with (ExtSkinSubmoduleUpdateCommand.tops self) in Hdir.
  apply in_flat_map in Hdir. destruct Hdir as (top & Htop & Hdir).
  destruct (dir_tree w top) as [d|] eqn:Htree; [|destruct Hdir].
  exists top, d. split; [exact Htop|]. split; [exact Htree|].
  specialize (Hplain top d Htop Htree).
  apply in_map_iff in Hdir. destruct Hdir as ([p fs] & <- & Hin).
  apply list_elem_of_In, list_elem_of_filter in Hin. destruct Hin as [_ Hin].
  apply list_elem_of_In in Hin.
  destruct d as [name filenames subdirs]. cbn [dir_subdirs fst] in *.
  rewrite walked_dirs_unfold in Hin.
  destruct Hin as [[= <- <-] | Hin]; [left; reflexivity|].
  right.
  destruct (str_in top (ExtSkinSubmoduleUpdateCommand.tops self)); [|destruct Hin].
  apply in_flat_map in Hin. destruct Hin as (sub & Hsub & Hin).
  exists sub. split; [exact Hsub|].
  rewrite List.Forall_forall in Hplain. specialize (Hplain sub Hsub).
  destruct sub as [subname subfiles below].
  rewrite walked_dirs_unfold, (child_not_top self top _ Htop Hplain) in Hin.
  destruct Hin as [[= <- <-] | []]. reflexivity.
Qed.

(** Every command of a trace that follows a script is a command of the
    script. *)
Lemma follows_script_calls {A} (L : list Action) (t : list Event) (r : Res A) (ev : Event) :
  follows_script L t r -> In ev (calls t) -> In (fst ev) L.
Proof.
  destruct r as [a|e]; cbn [follows_script].
  - intros -> Hin. apply in_map_iff in Hin. destruct Hin as (a0 & <- & Hin). exact Hin.
  - intros (done & next & rest & -> & ->) Hin.
    apply in_app_or in Hin. destruct Hin as [Hin | [<- | []]].
    + apply in_map_iff in Hin. destruct Hin as (a0 & <- & Hin).
      apply in_or_app. left. exact Hin.
    + apply in_or_app. right. left. reflexivity.
Qed.

Lemma call_in_calls (t : list Event) (ev : Event) cmd cwd env :
  In ev t -> fst ev = CheckCall cmd cwd env -> In ev (calls t).
Proof.
  intros Hin Hev. unfold calls.
  apply list_elem_of_In, list_elem_of_filter. split.
  - unfold is_call. rewrite Hev. reflexivity.
  - apply list_elem_of_In. exact Hin.
Qed.

(** X17. [ExtSkinSubmoduleUpdateCommand.execute] spawns commands at the
    first level only: whatever it runs, on every path, is run in
    [extensions] or [skins] itself or in a directory directly inside one
    of them, however deep the tree below is. *)
Theorem submodules_updated_at_first_level
    (w : World) (self : ExtSkinSubmoduleUpdateCommand.t) (h : list Event) :
  let mw := ExtSkinSubmoduleUpdateCommand.mw_install_path self in
  let tops := [path_join mw "extensions"; path_join mw "skins"] in
  (forall top d, In top tops -> dir_tree w top = Some d ->
                 Forall (fun sub => plain_name (dir_name sub)) (dir_subdirs d)) ->
  Forall (fun ev =>
            forall cmd cwd env,
              fst ev = CheckCall cmd cwd env ->
              exists top d,
                In top tops
                /\ dir_tree w top = Some d
                /\ (cwd = Some top
                    \/ exists sub,
                         In sub (dir_subdirs d)
                         /\ cwd = Some (path_join top (dir_name sub))))
         (tr_of (ExtSkinSubmoduleUpdateCommand.execute w self h)).
Proof.
  cbv zeta. intros Hplain.
  apply List.Forall_forall. intros ev Hin cmd cwd env Hev.
  pose proof (call_in_calls _ _ _ _ _ Hin Hev) as Hcall.
  apply (follows_script_calls _ _ _ _ (execute_follows_submodule_script w self h)) in Hcall.
  unfold submodule_script in Hcall.
  apply in_flat_map in Hcall. destruct Hcall as (dir & Hdir & Hcmd).
  destruct (submodule_dirs_first_level w self dir Hplain Hdir)
    as (top & d & Htop & Htree & Hwhere).
  exists top, d. split; [exact Htop|]. split; [exact Htree|].
  assert (Hcwd : cwd = Some dir).
  { rewrite Hev in Hcmd. destruct Hcmd as [Hc | [Hc | [Hc | []]]]; congruence. }
  rewrite Hcwd.
  destruct Hwhere as [-> | (sub & Hsub & ->)]; [left; reflexivity|].
  right. exists sub. split; [exact Hsub | reflexivity].
Qed.

Lemma submodules_updated_at_first_level_witness :
  Forall (fun ev =>
            forall cmd cwd env,
              fst ev = CheckCall cmd cwd env ->
              exists top d,
                In top ["/tmp/extensions"; "/tmp/skins"]
                /\ dir_tree (with_dir_tree walk_extensions quiet_world) top = Some d
                /\ (cwd = Some top
                    \/ exists sub,
                         In sub (dir_subdirs d)
                         /\ cwd = Some (path_join top (dir_name sub))))
         (tr_of (ExtSkinSubmoduleUpdateCommand.execute
                   (with_dir_tree walk_extensions quiet_world) submodule_update [])).
Proof.
  apply (submodules_updated_at_first_level
           (with_dir_tree walk_extensions quiet_world) submodule_update []).
  intros top d [<-|[<-|[]]] [= <-].
  apply List.Forall_cons; [reflexivity | apply List.Forall_nil].
Defined.

(** ** A failed submodule command *)

(** X18. In one directory, [ExtSkinSubmoduleUpdateCommand.execute] runs
    [git submodule foreach git clean -xdff -q], [git submodule update
    --init --recursive] and [git submodule status] up to the first that
    fails.  When the command exits with an error status, one error line
    naming the directory is logged before the error is raised again; any
    other failure of the spawn is raised without a log line; and nothing
    is logged when the three succeed. *)
Theorem failed_submodule_command_is_logged
    (w : World) (dirpath : string) (self : ExtSkinSubmoduleUpdateCommand.t)
    (h : list Event) :
  let git_cmds :=
    [ ["git"; "submodule"; "foreach"; "git"; "clean"; "-xdff"; "-q"];
      ["git"; "submodule"; "update"; "--init"; "--recursive"];
      ["git"; "submodule"; "status"] ] in
  let run := ExtSkinSubmoduleUpdateCommand.process_dir w dirpath self h in
  match res_of run with
  | Ok _ => tr_of run = ok_events (cmds_in dirpath git_cmds)
  | Raise e =>
      exists done cmd rest,
        git_cmds = done ++ cmd :: rest
        /\ tr_of run
           = ok_events (cmds_in dirpath done)
             ++ [(CheckCall (Argv cmd) (Some dirpath) None, Some e)]
             ++ match e with
                | CalledProcessError _ _ =>
                    [(Log ERROR ("Failed to process git submodules for " +:+ dirpath), None)]
                | _ => []
                end
  end.
Proof.
  cbv zeta.
  unfold ExtSkinSubmoduleUpdateCommand.process_dir, ExtSkinSubmoduleUpdateCommand.cmds,
    for_each, bind, try_except_CalledProcessError, check_call, perform, log, raise, ret,
    tr_of, res_of.
  repeat (match goal with
          | |- context [outcome w ?h0 ?a] => destruct (outcome w h0 a) as [[]|]
          end; cbn [fst snd app]).
  all: try reflexivity.
  all: first [ eexists [], _, _; split; reflexivity
             | eexists [_], _, _; split; reflexivity
             | eexists [_; _], _, _; split; reflexivity ].
Qed.

(** ** A failed installation *)

Lemma bind_read {S A B} (f : S -> list Event -> A) (k : A -> M S B) (s : S)
    (h : list Event) :
  bind (fun s h => (s, [], Ok (f s h))) k s h = k (f s h) s h.
Proof.
  unfold bind. rewrite app_nil_r.
  destruct (k (f s h) s h) as [[s2 t2] r]. reflexivity.
Qed.

Lemma bind_ret_l {S A B} (a : A) (k : A -> M S B) (s : S) (h : list Event) :
  bind (ret a) k s h = k a s h.
Proof. exact (bind_read (fun _ _ => a) k s h). Qed.

Lemma bind_assign {S B} (g : S -> S) (k : unit -> M S B) (s : S) (h : list Event) :
  bind (fun s _ => (g s, [], Ok tt)) k s h = k tt (g s) h.
Proof.
  unfold bind. rewrite app_nil_r.
  destruct (k tt (g s) h) as [[s2 t2] r]. reflexivity.
Qed.

Lemma bind_assoc {S A B C} (m : M S A) (f : A -> M S B) (k : B -> M S C) (s : S)
    (h : list Event) :
  bind (bind m f) k s h = bind m (fun a => bind (f a) k) s h.
Proof.
  unfold bind.
  destruct (m s h) as [[s1 t1] [a|e]]; [|reflexivity].
  destruct (f a s1 (h ++ t1)) as [[s2 t2] [b|e]]; [|reflexivity].
  rewrite <- app_assoc.
  destruct (k b s2 (h ++ t1 ++ t2)) as [[s3 t3] r].
  rewrite <- app_assoc. reflexivity.
Qed.

Lemma follows_plan_perform {S B} (w : World) (a : Action) (k : unit -> M S B)
    (s : S) (h : list Event) (L : list Action) :
  is_log_action a = false ->
  follows_plan L (tr_of (k tt s (h ++ [(a, None)]))) (res_of (k tt s (h ++ [(a, None)]))) ->
  follows_plan (a :: L) (tr_of (bind (perform w a) k s h))
               (res_of (bind (perform w a) k s h)).
Proof.
  intros Ha Hk. rewrite bind_perform.
  assert (Hkeep : forall o t, effects ((a, o) :: t) = (a, o) :: effects t).
  { intros o t. unfold effects. apply filter_cons_True.
    destruct a; try discriminate Ha; reflexivity. }
  destruct (outcome w h a) as [e|]; project_triples.
  - exists [], a, L. split; [reflexivity|]. rewrite Hkeep. reflexivity.
  - destruct (res_of (k tt s (h ++ [(a, None)]))) as [b|e]; cbn [follows_plan] in *.
    + rewrite Hkeep, Hk. reflexivity.
    + destruct Hk as (done & next & rest & -> & Ht).
      exists (a :: done), next, rest. split; [reflexivity|].
      rewrite Hkeep, Ht. reflexivity.
Qed.

Lemma follows_plan_log {S B} lvl msg (k : unit -> M S B) (s : S) (h : list Event)
    (L : list Action) :
  follows_plan L (tr_of (k tt s (h ++ [(Log lvl msg, None)])))
               (res_of (k tt s (h ++ [(Log lvl msg, None)]))) ->
  follows_plan L (tr_of (bind (log lvl msg) k s h)) (res_of (bind (log lvl msg) k s h)).
Proof.
  intros Hk. rewrite bind_log. project_triples.
  destruct (res_of (k tt s _)) as [b|e]; exact Hk.
Qed.

(** X7. For one of the three engines, [InstallMediaWiki.execute] goes
    through its operations in one fixed order and stops at the first that
    fails, raising its error: when the installer fails the settings are
    not touched, and when [php -l] rejects the settings the update script
    is not run. *)
Theorem install_mediawiki_stops_at_first_failure
    (w : World) (s : InstallMediaWiki.state) (h : list Event) :
  let self := InstallMediaWiki.self s in
  let run := InstallMediaWiki.execute w s h in
  str_in (InstallMediaWiki.db_engine self) ["sqlite"; "mysql"; "postgres"] = true ->
  follows_plan (install_plan w self h) (tr_of run) (res_of run).
Proof.
  cbv zeta.
  destruct s as [[mw engine db_dir dump_dir log_dir use_vendor] cls].
  cbn [InstallMediaWiki.self InstallMediaWiki.db_engine].
  change (str_in engine ["sqlite"; "mysql"; "postgres"])
    with (String.eqb engine "sqlite" || str_in engine ["mysql"; "postgres"])%bool.
  intros Hengine.
  unfold InstallMediaWiki.execute, InstallMediaWiki.get_self,
    InstallMediaWiki.set_db_backend, InstallMediaWiki.install_args, install_plan.
  cbv zeta. rewrite bind_read; cbv beta.
  cbn [InstallMediaWiki.self InstallMediaWiki.mw_install_path InstallMediaWiki.db_engine
       InstallMediaWiki.db_dir InstallMediaWiki.dump_dir InstallMediaWiki.log_dir
       InstallMediaWiki.use_vendor].
  apply follows_plan_perform; [reflexivity|].
  rewrite bind_assign; cbv beta.
  apply follows_plan_perform; [reflexivity|].
  assert (Hargs :
    (if String.eqb engine "sqlite"
     then ret (S:=InstallMediaWiki.state)
              (["--scriptpath="; "--dbtype=" +:+ engine;
                "--dbname=" +:+ dbname (db_factory w engine db_dir dump_dir)]
               ++ ["--dbpath=" +:+ rootdir (db_factory w engine db_dir dump_dir)])
     else if str_in engine ["mysql"; "postgres"]
          then ret (["--scriptpath="; "--dbtype=" +:+ engine;
                     "--dbname=" +:+ dbname (db_factory w engine db_dir dump_dir)]
                    ++ ["--dbuser=" +:+ user (db_factory w engine db_dir dump_dir);
                        "--dbpass=" +:+ password (db_factory w engine db_dir dump_dir);
                        "--dbserver=" +:+ dbserver (db_factory w engine db_dir dump_dir)])
          else raise (Exception ("Unsupported database: " +:+ engine)))
    = ret (["--scriptpath="; "--dbtype=" +:+ engine;
            "--dbname=" +:+ dbname (db_factory w engine db_dir dump_dir)]
           ++ (if String.eqb engine "sqlite"
               then ["--dbpath=" +:+ rootdir (db_factory w engine db_dir dump_dir)]
               else ["--dbuser=" +:+ user (db_factory w engine db_dir dump_dir);
                     "--dbpass=" +:+ password (db_factory w engine db_dir dump_dir);
                     "--dbserver=" +:+ dbserver (db_factory w engine db_dir dump_dir)]))).
  { destruct (String.eqb engine "sqlite"); [reflexivity|].
    destruct (str_in engine ["mysql"; "postgres"]); [reflexivity | discriminate Hengine]. }
  rewrite Hargs. clear Hargs.
  rewrite bind_ret_l; cbv beta.
  repeat (apply follows_plan_perform; [reflexivity|]).
  rewrite bind_read; cbv beta.
  apply follows_plan_perform; [reflexivity|].
  rewrite bind_read; cbv beta.
  rewrite <- !app_assoc. cbn [app ok_events map].
  repeat (apply follows_plan_perform; [reflexivity|]).
  destruct use_vendor.
  - rewrite bind_assoc. apply follows_plan_log.
    rewrite bind_ret_l; cbv beta.
    apply follows_plan_perform; [reflexivity|].
    exact (planned_perform w (MaintRebuildLocalisationCache ["en"] mw) eq_refl _ _).
  - rewrite bind_ret_l; cbv beta.
    apply follows_plan_perform; [reflexivity|].
    exact (planned_perform w (MaintRebuildLocalisationCache ["en"] mw) eq_refl _ _).
Qed.

Lemma install_mediawiki_stops_at_first_failure_witness :
  exists done next rest,
    install_plan (with_outcome installer_fails quiet_world) (install_with "mysql") []
    = done ++ next :: rest
    /\ effects (tr_of (InstallMediaWiki.execute
                         (with_outcome installer_fails quiet_world)
                         {| InstallMediaWiki.self := install_with "mysql";
                            InstallMediaWiki.db_backend := None |} []))
       = ok_events done
         ++ [(next, Some (CalledProcessError 1 (Argv ["php"; "maintenance/install.php"])))].
Proof.
  exact (install_mediawiki_stops_at_first_failure
           (with_outcome installer_fails quiet_world)
           {| InstallMediaWiki.self := install_with "mysql";
              InstallMediaWiki.db_backend := None |} [] eq_refl).
Defined.
